(** * node_kraken_bot: risk gate, simulated execution, backtest replay, metrics

    A shallow embedding of the risk manager ([riskManager.js]), the
    backtester's simulated trading service and replay loop
    ([backtester.js]), the paper trader's ledger ([paperTrader.js]) and the
    Sharpe ratio of the performance metrics module, followed by the
    properties of these functions.

    Number model.  Ledger quantities (prices, amounts, balances, percentages)
    are exact rationals [Q], where JavaScript rounds every sum, product and
    quotient to binary64.  The properties of the risk gate and of the two
    ledgers are order comparisons between results the code computes and
    equalities with the expression the code evaluates; none of them rests on
    an algebraic identity, such as [(x / y) * y = x], that rounding breaks.
    The properties of the total return, the drawdown and the profit factor
    are stated for exact arithmetic.  Epoch milliseconds are integers [Z].  The Sharpe
    ratio, which takes a square root and can return [Infinity], is embedded
    over binary64 floats, the numbers JavaScript computes with. *)

From Stdlib Require Import QArith Qminmax ZArith List Bool Lia Lqa.
From Stdlib Require Import Floats Uint63.
From stdpp Require Import base option gmap strings list.

Import ListNotations.

(* ===================================================================== *)
(** * Part I: the program                                                 *)
(* ===================================================================== *)

(** ** JavaScript numbers used as conditions and optional arguments *)

Module Js.
Local Open Scope Q_scope.

(** [x < y] on numbers. *)
Definition Qlt_bool (x y : Q) : bool := negb (Qle_bool y x).

(** A number is truthy unless it is zero. *)
Definition truthy (x : Q) : bool := negb (Qeq_bool x 0).

(** [x || d] where [x] is an optional number: [None] stands for an omitted
    argument, [null] or [undefined]. *)
Definition or_else (x : option Q) (d : Q) : Q :=
  match x with
  | Some q => if truthy q then q else d
  | None => d
  end.

(** The same on integer arguments (periods in milliseconds). *)
Definition or_elseZ (x : option Z) (d : Z) : Z :=
  match x with
  | Some z => if (z =? 0)%Z then d else z
  | None => d
  end.

End Js.

(** ** Shared enumerations *)

(** The [side] argument of a trade: the code compares it with ['buy'] and
    ['sell']; every other string is [OtherSide]. *)
Inductive Side : Type := Buy | Sell | OtherSide.

(** The side of an open position: the code compares it with ['long'] and
    takes the other branch for every other value, which [Short] stands for. *)
Inductive PositionSide : Type := Long | Short.

Inductive OrderType : Type := Market | Limit.

(** ** riskManager.js *)

Module RiskManager.
Local Open Scope Q_scope.

(** The entries of [config/default.json] the functions read. *)
Record config : Type := {
  risk_maxRiskPerTrade : Q;        (* config.risk.maxRiskPerTrade *)
  risk_minimumBalance : Q;         (* config.risk.minimumBalance *)
  risk_stopLossPercentage : Q;     (* config.risk.stopLossPercentage *)
  risk_takeProfitPercentage : Q;   (* config.risk.takeProfitPercentage *)
  trading_cooldownPeriod : Z       (* config.trading.cooldownPeriod *)
}.

(** [calculateLotSize(symbol, currentPrice, accountBalance, riskPercentage = null)].
    The division is JavaScript's for [currentPrice <> 0]. *)
Definition calculateLotSize (cfg : config) (symbol : string)
    (currentPrice accountBalance : Q) (riskPercentage : option Q) : Q :=
  let riskPercent := Js.or_else riskPercentage (risk_maxRiskPerTrade cfg) in
  let maxRiskAmount := accountBalance * riskPercent in
  let positionSize := maxRiskAmount / currentPrice in
  if Js.Qlt_bool accountBalance (risk_minimumBalance cfg) then 0
  else
    let maxTradeValue := accountBalance * risk_maxRiskPerTrade cfg in
    let calculatedSize := Qmin positionSize (maxTradeValue / currentPrice) in
    Qmax 0 calculatedSize.

(** [calculateStopLoss(entryPrice, side, stopLossPercentage = null)] *)
Definition calculateStopLoss (cfg : config) (entryPrice : Q) (side : Side)
    (stopLossPercentage : option Q) : Q :=
  let stopLossPercent := Js.or_else stopLossPercentage (risk_stopLossPercentage cfg) in
  match side with
  | Buy => entryPrice * (1 - stopLossPercent)
  | _ => entryPrice * (1 + stopLossPercent)
  end.

(** [calculateTakeProfit(entryPrice, side, takeProfitPercentage = null)] *)
Definition calculateTakeProfit (cfg : config) (entryPrice : Q) (side : Side)
    (takeProfitPercentage : option Q) : Q :=
  let takeProfitPercent := Js.or_else takeProfitPercentage (risk_takeProfitPercentage cfg) in
  match side with
  | Buy => entryPrice * (1 + takeProfitPercent)
  | _ => entryPrice * (1 - takeProfitPercent)
  end.

(** [validateCooldown(lastTradeTime, cooldownPeriod = null)]; [now] is the
    value [Date.now()] returns inside the call. *)
Definition validateCooldown (cfg : config) (now : Z) (lastTradeTime : Z)
    (cooldownPeriod : option Z) : bool :=
  let cooldown := Js.or_elseZ cooldownPeriod (trading_cooldownPeriod cfg) in
  let timeSinceLastTrade := (now - lastTradeTime)%Z in
  (cooldown <=? timeSinceLastTrade)%Z.

End RiskManager.

(** ** backtester.js *)

Module Backtester.
Local Open Scope Q_scope.

(** One OHLCV candle of [backtestData]. *)
Record candle : Type := {
  timestamp : Z; open : Q; high : Q; low : Q; close : Q; volume : Q
}.

(** A simulated order, as [executeTrade] builds it.  The id string
    [`bt-${Date.now()}-${tradeLog.length}`] is kept as the pair of the two
    numbers it prints; [datetime] is the instant [new Date()] reads, which
    [toISOString] prints. *)
Record order : Type := {
  id : Z * nat;
  symbol : string;
  side : Side;
  type : OrderType;
  amount : Q;
  price : Q;
  status : string;
  datetime : Z;
  fee : Q
}.

(** An entry of [currentPositions]. *)
Record position : Type := {
  pside : PositionSide;
  entryPrice : Q;
  pamount : Q;
  stopLossPrice : Q;
  takeProfitPrice : Q
}.

(** A point of the equity curve; [ep_timestamp] is the candle timestamp that
    [new Date(...).toISOString()] prints. *)
Record equity_point : Type := { ep_timestamp : Z; balance : Q }.

(** The module-level variables together with the mutable fields of
    [simulatedTradingService].  An object that does not exist yet
    ([holdings], [positions]) is the empty map: the code replaces it by [{}]
    before it reads it.  [clockReads] counts the reads of the wall clock made
    so far. *)
Record backtester : Type := {
  backtestData : list candle;
  currentBalance : Q;
  tradeLog : list order;
  equityCurve : list equity_point;
  holdings : gmap string Q;
  positions : gmap string Q;
  currentPositions : gmap string position;
  clockReads : nat
}.

Definition initialCapital : Q := 10000.

Definition set_currentBalance (b : Q) (st : backtester) : backtester :=
  {| backtestData := backtestData st; currentBalance := b;
     tradeLog := tradeLog st; equityCurve := equityCurve st;
     holdings := holdings st; positions := positions st;
     currentPositions := currentPositions st; clockReads := clockReads st |}.

Definition set_tradeLog (l : list order) (st : backtester) : backtester :=
  {| backtestData := backtestData st; currentBalance := currentBalance st;
     tradeLog := l; equityCurve := equityCurve st;
     holdings := holdings st; positions := positions st;
     currentPositions := currentPositions st; clockReads := clockReads st |}.

Definition set_equityCurve (l : list equity_point) (st : backtester) : backtester :=
  {| backtestData := backtestData st; currentBalance := currentBalance st;
     tradeLog := tradeLog st; equityCurve := l;
     holdings := holdings st; positions := positions st;
     currentPositions := currentPositions st; clockReads := clockReads st |}.

Definition set_holdings (h : gmap string Q) (st : backtester) : backtester :=
  {| backtestData := backtestData st; currentBalance := currentBalance st;
     tradeLog := tradeLog st; equityCurve := equityCurve st;
     holdings := h; positions := positions st;
     currentPositions := currentPositions st; clockReads := clockReads st |}.

Definition set_positions (h : gmap string Q) (st : backtester) : backtester :=
  {| backtestData := backtestData st; currentBalance := currentBalance st;
     tradeLog := tradeLog st; equityCurve := equityCurve st;
     holdings := holdings st; positions := h;
     currentPositions := currentPositions st; clockReads := clockReads st |}.

Definition set_currentPositions (m : gmap string position) (st : backtester) : backtester :=
  {| backtestData := backtestData st; currentBalance := currentBalance st;
     tradeLog := tradeLog st; equityCurve := equityCurve st;
     holdings := holdings st; positions := positions st;
     currentPositions := m; clockReads := clockReads st |}.

Definition set_clockReads (n : nat) (st : backtester) : backtester :=
  {| backtestData := backtestData st; currentBalance := currentBalance st;
     tradeLog := tradeLog st; equityCurve := equityCurve st;
     holdings := holdings st; positions := positions st;
     currentPositions := currentPositions st; clockReads := n |}.

(** [if (!m[s]) m[s] = 0]: a missing or zero entry is (re)written to 0. *)
Definition init_entry (s : string) (m : gmap string Q) : gmap string Q :=
  match m !! s with
  | Some q => if Js.truthy q then m else <[s := 0]> m
  | None => <[s := 0]> m
  end.

(** [m[s]] read as a quantity: a missing entry counts as 0, which is what
    [init_entry] makes of it before every read in the code. *)
Definition quantity (m : gmap string Q) (s : string) : Q := default 0 (m !! s).

(** Lines 38-51.  An explicit truthy [price] is the trade price.  The
    [else if] branch tests [typeof currentCandle !== 'undefined'], but no
    binding named [currentCandle] is in scope of the closure (the one of
    [runBacktest] is local to its loop body), so the test is false and a call
    without a price logs an error and returns [null]. *)
Definition resolve_price (price : option Q) : option Q :=
  match price with
  | Some p => if Js.truthy p then Some p else None
  | None => None
  end.

(** Line 52: [amount || await calculateLotSize(s, tradePrice, currentBalance)]. *)
Definition resolve_amount (cfg : RiskManager.config) (s : string)
    (amount : option Q) (tradePrice cash : Q) : Q :=
  match amount with
  | Some a =>
      if Js.truthy a then a
      else RiskManager.calculateLotSize cfg s tradePrice cash None
  | None => RiskManager.calculateLotSize cfg s tradePrice cash None
  end.

(** Lines 68-82: the cash and holdings update; [None] is the early
    [return null]. *)
Definition apply_holdings (s : string) (side : Side)
    (calculatedAmount tradeCost : Q) (st : backtester) : option backtester :=
  match side with
  | Buy =>
      if Js.Qlt_bool (currentBalance st) tradeCost then None
      else Some (set_holdings
                   (<[s := quantity (holdings st) s + calculatedAmount]> (holdings st))
                   (set_currentBalance (currentBalance st - tradeCost) st))
  | Sell =>
      if Js.Qlt_bool (quantity (holdings st) s) calculatedAmount then None
      else Some (set_holdings
                   (<[s := quantity (holdings st) s - calculatedAmount]> (holdings st))
                   (set_currentBalance (currentBalance st + tradeCost) st))
  | OtherSide => Some st
  end.

(** Lines 88-97: the position update, which credits the cash balance again
    on a sell; [None] is the early [return null]. *)
Definition apply_positions (s : string) (side : Side)
    (calculatedAmount tradeCost : Q) (st : backtester) : option backtester :=
  match side with
  | Sell =>
      if Js.Qlt_bool (quantity (positions st) s) calculatedAmount then None
      else Some (set_positions
                   (<[s := quantity (positions st) s - calculatedAmount]> (positions st))
                   (set_currentBalance (currentBalance st + tradeCost) st))
  | Buy =>
      Some (set_positions
              (<[s := quantity (positions st) s + calculatedAmount]> (positions st)) st)
  | OtherSide => Some st
  end.

(** [simulatedTradingService.executeTrade(s, side, amount, type, metadata, price)].
    [now n] is what the [n]-th read of the wall clock returns.  [metadata] is
    never read by the function and is left out.  The result is the returned
    order ([None] for [null]) and the state after the call. *)
Definition executeTrade (now : nat -> Z) (cfg : RiskManager.config)
    (st : backtester) (s : string) (side : Side) (amount : option Q)
    (type : OrderType) (price : option Q) : option order * backtester :=
  match resolve_price price with
  | None => (None, st)
  | Some tradePrice =>
      let calculatedAmount :=
        resolve_amount cfg s amount tradePrice (currentBalance st) in
      if Qle_bool calculatedAmount 0 then (None, st)
      else
        let tradeCost := calculatedAmount * tradePrice in
        let st1 := set_holdings (init_entry s (holdings st)) st in
        match apply_holdings s side calculatedAmount tradeCost st1 with
        | None => (None, st1)
        | Some st2 =>
            let st3 := set_positions (init_entry s (positions st2)) st2 in
            match apply_positions s side calculatedAmount tradeCost st3 with
            | None => (None, st3)
            | Some st4 =>
                let simulatedOrder :=
                  {| id := (now (clockReads st4), length (tradeLog st4));
                     symbol := s;
                     side := side;
                     type := type;
                     amount := calculatedAmount;
                     price := tradePrice;
                     status := "closed";
                     datetime := now (S (clockReads st4));
                     fee := tradeCost * 0.001 |} in
                (Some simulatedOrder,
                 set_tradeLog (tradeLog st4 ++ [simulatedOrder])
                   (set_clockReads (S (S (clockReads st4))) st4))
            end
        end
  end.

(** The defaults [managePosition] parses from the environment or from
    [config.riskManagement]. *)
Record position_defaults : Type := {
  defaultStopLossPercent : Q;
  defaultTakeProfitPercent : Q
}.

(** The [strategyRiskConfig] argument of [managePosition]. *)
Record strategy_risk : Type := {
  stopLossPercent : option Q;
  takeProfitPercent : option Q
}.

(** [simulatedTradingService.managePosition(s, side, entryPrice, amount, strategyRiskConfig)] *)
Definition managePosition (dflt : position_defaults) (st : backtester)
    (s : string) (side : PositionSide) (entryPrice amount : Q)
    (strategyRiskConfig : strategy_risk) : backtester :=
  let stopLossPercent :=
    Js.or_else (stopLossPercent strategyRiskConfig) (defaultStopLossPercent dflt) in
  let takeProfitPercent :=
    Js.or_else (takeProfitPercent strategyRiskConfig) (defaultTakeProfitPercent dflt) in
  let '(stopLossPrice, takeProfitPrice) :=
    match side with
    | Long => (entryPrice * (1 - stopLossPercent), entryPrice * (1 + takeProfitPercent))
    | Short => (entryPrice * (1 + stopLossPercent), entryPrice * (1 - takeProfitPercent))
    end in
  set_currentPositions
    (<[s := {| pside := side; entryPrice := entryPrice; pamount := amount;
               stopLossPrice := stopLossPrice;
               takeProfitPrice := takeProfitPrice |}]> (currentPositions st)) st.

(** The exit reasons of the position monitor. *)
Inductive exit_action : Type := stop_loss | take_profit.

(** Lines 141-154 of [monitorAndExitPositions]: the value of [action] for a
    position and a price, [None] for [null]. *)
Definition action (position : position) (currentPrice : Q) : option exit_action :=
  match pside position with
  | Long =>
      if Qle_bool currentPrice (stopLossPrice position) then Some stop_loss
      else if Qle_bool (takeProfitPrice position) currentPrice then Some take_profit
      else None
  | Short =>
      if Qle_bool (stopLossPrice position) currentPrice then Some stop_loss
      else if Qle_bool currentPrice (takeProfitPrice position) then Some take_profit
      else None
  end.

(** What a strategy does during one [run]: calls into the trading service it
    was constructed with, each followed by the rest of the run, which may
    depend on the returned order.  The reference strategy and
    [StrategyInterface.exitPosition] use [executeTrade] and [managePosition]. *)
Inductive prog (A : Type) : Type :=
| Ret (a : A)
| ExecuteTrade (s : string) (side : Side) (amount : option Q)
    (type : OrderType) (price : option Q) (k : option order -> prog A)
| ManagePosition (s : string) (side : PositionSide) (entryPrice amount : Q)
    (strategyRiskConfig : strategy_risk) (k : prog A).

Arguments Ret {A} a.
Arguments ExecuteTrade {A} s side amount type price k.
Arguments ManagePosition {A} s side entryPrice amount strategyRiskConfig k.

(** Running the calls of a strategy against the simulated service. *)
Fixpoint exec {A : Type} (now : nat -> Z) (cfg : RiskManager.config)
    (dflt : position_defaults) (p : prog A) (st : backtester) : A * backtester :=
  match p with
  | Ret a => (a, st)
  | ExecuteTrade s side amount type price k =>
      let '(r, st') := executeTrade now cfg st s side amount type price in
      exec now cfg dflt (k r) st'
  | ManagePosition s side entryPrice amount rc k =>
      exec now cfg dflt k (managePosition dflt st s side entryPrice amount rc)
  end.

(** The strategy instance: the symbol it trades, its [run(candle,
    historicalData)] over its own state [T], and [clearPosition()]. *)
Record strategy (T : Type) : Type := {
  strategy_symbol : string;
  run : T -> candle -> list candle -> prog T;
  clearPosition : T -> T
}.

Arguments strategy_symbol {T} _.
Arguments run {T} _ _ _ _.
Arguments clearPosition {T} _ _.

(** [simulatedTradingService.monitorAndExitPositions(s, currentPrice)]; the
    second component is the state of [strategyInstance]. *)
Definition monitorAndExitPositions {T : Type} (now : nat -> Z)
    (cfg : RiskManager.config) (strat : strategy T)
    (st : backtester) (ss : T) (s : string) (currentPrice : Q) : backtester * T :=
  match currentPositions st !! s with
  | None => (st, ss)
  | Some position =>
      match action position currentPrice with
      | None => (st, ss)
      | Some _ =>
          let exitSide := match pside position with Long => Sell | Short => Buy end in
          let '(_, st1) :=
            executeTrade now cfg st s exitSide (Some (pamount position)) Market
              (Some currentPrice) in
          (set_currentPositions (delete s (currentPositions st1)) st1,
           clearPosition strat ss)
      end
  end.

(** The loop of [runBacktest] from index [i] on; [todo] is [backtestData]
    from that index. *)
Fixpoint replay {T : Type} (now : nat -> Z) (cfg : RiskManager.config)
    (dflt : position_defaults) (strat : strategy T)
    (todo : list candle) (i : nat) (st : backtester) (ss : T) : backtester * T :=
  match todo with
  | [] => (st, ss)
  | currentCandle :: rest =>
      let historicalSlice := firstn (S i) (backtestData st) in
      let '(st1, ss1) :=
        monitorAndExitPositions now cfg strat st ss (strategy_symbol strat)
          (close currentCandle) in
      let '(ss2, st2) := exec now cfg dflt (run strat ss1 currentCandle historicalSlice) st1 in
      let st3 :=
        set_equityCurve
          (equityCurve st2 ++
             [{| ep_timestamp := timestamp currentCandle;
                 balance := currentBalance st2 |}]) st2 in
      replay now cfg dflt strat rest (S i) st3 ss2
  end.

(** [runBacktest()], up to the call of [calculateAll], which only reads
    [tradeLog] and [equityCurve].  With no candle loaded,
    [backtestData[0].timestamp] throws: [None]. *)
Definition runBacktest {T : Type} (now : nat -> Z) (cfg : RiskManager.config)
    (dflt : position_defaults) (strat : strategy T)
    (st : backtester) (ss : T) : option (backtester * T) :=
  match backtestData st with
  | [] => None
  | first :: _ =>
      let st0 :=
        set_equityCurve
          [{| ep_timestamp := timestamp first; balance := initialCapital |}]
          (set_tradeLog [] (set_currentBalance initialCapital st)) in
      Some (replay now cfg dflt strat (backtestData st) 0 st0 ss)
  end.

(** The state [initializeBacktester] leaves for candles [data]: the module
    variables at their initial values and a fresh service object. *)
Definition initial (data : list candle) : backtester :=
  {| backtestData := data; currentBalance := initialCapital;
     tradeLog := []; equityCurve := [];
     holdings := ∅; positions := ∅; currentPositions := ∅; clockReads := 0 |}.

End Backtester.

(** ** paperTrader.js *)

Module PaperTrader.
Local Open Scope Q_scope.

(** An executed paper order.  The id string [`paper-${side}-${timestamp}`]
    is kept as the pair it prints; the symbol is kept as the two assets
    [symbol.split('/')] yields. *)
Record order : Type := {
  id : Side * Z;
  baseAsset : string;
  quoteAsset : string;
  side : Side;
  type : OrderType;
  amount : Q;
  price : Q;
  status : string;
  datetime : Z;
  fee : Q
}.

(** The module variables.  A stored balance is a number or [NaN] ([None]),
    which arithmetic on the [undefined] balance of an asset the ledger does
    not hold produces. *)
Record paper : Type := {
  currentBalances : gmap string (option Q);
  trades : list order
}.

Definition initialBalance : gmap string (option Q) :=
  <["USD" := Some 10000]> (<["BTC" := Some 0]> (<["ETH" := Some 0]> ∅)).

(** [initializePaperTrader()] *)
Definition initializePaperTrader : paper :=
  {| currentBalances := initialBalance; trades := [] |}.

(** [currentBalances[asset]] as an operand: [undefined] behaves as [NaN] in
    comparisons and in arithmetic. *)
Definition read (b : gmap string (option Q)) (asset : string) : option Q :=
  default None (b !! asset).

(** [x < y]: false when [x] is [NaN]. *)
Definition lt (x : option Q) (y : Q) : bool :=
  match x with
  | Some q => Js.Qlt_bool q y
  | None => false
  end.

Definition add (x : option Q) (y : Q) : option Q :=
  match x with Some q => Some (q + y) | None => None end.

Definition sub (x : option Q) (y : Q) : option Q :=
  match x with Some q => Some (q - y) | None => None end.

(** Lines 58-65: the buy branch; [None] is the early [return null]. *)
Definition apply_buy (baseAsset quoteAsset : string) (amount tradeCost : Q)
    (b : gmap string (option Q)) : option (gmap string (option Q)) :=
  if lt (read b quoteAsset) tradeCost then None
  else
    let b1 := <[quoteAsset := sub (read b quoteAsset) tradeCost]> b in
    Some (<[baseAsset := add (read b1 baseAsset) amount]> b1).

(** Lines 66-74: the sell branch; [None] is the early [return null]. *)
Definition apply_sell (baseAsset quoteAsset : string) (amount tradeCost : Q)
    (b : gmap string (option Q)) : option (gmap string (option Q)) :=
  if lt (read b baseAsset) amount then None
  else
    let b1 := <[quoteAsset := add (read b quoteAsset) tradeCost]> b in
    Some (<[baseAsset := sub (read b1 baseAsset) amount]> b1).

(** What a call does: it throws, or it returns an order or [null]. *)
Inductive outcome : Type :=
| Threw
| Returned (o : option order).

(** [executeTrade(symbol, side, amount, type, price = null)].  [timestamp]
    is the value of [Date.now()] and [last] the [ticker.last] the connector
    returns for a market order; a limit order without a truthy price throws.
    Every [side] other than ['buy'] takes the sell branch.  [type] ranges
    over the two order types the function documents: a call with any other
    type string, which skips both branches of line 47 and trades at the
    price as passed, is not part of this embedding. *)
Definition executeTrade (timestamp : Z) (last : Q) (st : paper)
    (baseAsset quoteAsset : string) (side : Side) (amount : Q)
    (type : OrderType) (price : option Q) : outcome * paper :=
  let executionPrice :=
    match type with
    | Market => Some last
    | Limit => Backtester.resolve_price price
    end in
  match executionPrice with
  | None => (Threw, st)
  | Some executionPrice =>
      let tradeCost := amount * executionPrice in
      let updated :=
        match side with
        | Buy => apply_buy baseAsset quoteAsset amount tradeCost (currentBalances st)
        | _ => apply_sell baseAsset quoteAsset amount tradeCost (currentBalances st)
        end in
      match updated with
      | None => (Returned None, st)
      | Some b2 =>
          let order :=
            {| id := (side, timestamp);
               baseAsset := baseAsset;
               quoteAsset := quoteAsset;
               side := side;
               type := type;
               amount := amount;
               price := executionPrice;
               status := "closed";
               datetime := timestamp;
               fee := tradeCost * 0.001 |} in
          (Returned (Some order),
           {| currentBalances := b2; trades := trades st ++ [order] |})
      end
  end.

End PaperTrader.

(** ** performanceMetrics.js: the Sharpe ratio *)

Module PerformanceMetrics.
Local Open Scope float_scope.

(** An array length as a number. *)
Definition number_of_nat (n : nat) : float :=
  PrimFloat.of_uint63 (Uint63.of_Z (Z.of_nat n)).

(** [xs.reduce((sum, x) => sum + x, 0)] *)
Definition sum (xs : list float) : float :=
  fold_left (fun sum x => sum + x) xs 0.

(** The loop of lines 107-115 from the point after [prevBalance] on: one
    return per consecutive pair of balances. *)
Fixpoint step_returns (prevBalance : float) (rest : list float) : list float :=
  match rest with
  | [] => []
  | currentBalance :: rest' =>
      (if negb (prevBalance =? 0)
       then (currentBalance - prevBalance) / prevBalance
       else 0) :: step_returns currentBalance rest'
  end.

(** The array [returns] of an equity curve, given by its balances. *)
Definition returns (equityCurve : list float) : list float :=
  match equityCurve with
  | [] => []
  | first :: rest => step_returns first rest
  end.

(** The array [excessReturns]. *)
Definition excessReturns (riskFreeRate : float) (returns : list float) : list float :=
  map (fun r => r - riskFreeRate) returns.

(** The value [stdDev] of lines 121-123. *)
Definition stdDev (excessReturns : list float) : float :=
  PrimFloat.sqrt (sum (map (fun x => x * x) excessReturns)
                  / number_of_nat (length excessReturns)).

(** [calculateSharpeRatio(equityCurve, riskFreeRate)]; the function reads
    only the [balance] of each point, so the curve is given by its balances. *)
Definition calculateSharpeRatio (equityCurve : list float) (riskFreeRate : float) : float :=
  if (length equityCurve <? 2)%nat then 0
  else
    let returns := returns equityCurve in
    if (length returns =? 0)%nat then 0
    else
      let meanReturn := sum returns / number_of_nat (length returns) in
      let excessReturns := excessReturns riskFreeRate returns in
      let stdDev := stdDev excessReturns in
      if stdDev =? 0 then infinity
      else meanReturn / stdDev.

End PerformanceMetrics.

(** ** riskManager.js: trade validation and portfolio limits *)

Module RiskLimits.
Local Open Scope Q_scope.

(** The further entries of [config/default.json] these functions read. *)
Record limits : Type := {
  risk_maxTotalRisk : Q;              (* config.risk.maxTotalRisk *)
  trading_maxConcurrentTrades : Z     (* config.trading.maxConcurrentTrades *)
}.

(** [x / y > m] for finite [x], [y], [m], the quotient taken exactly where
    the code rounds it: with [y] zero the quotient is [Infinity] for a
    positive [x] (greater than every [m]) and [NaN] or [-Infinity] otherwise
    (greater than none). *)
Definition quotient_exceeds (x y m : Q) : bool :=
  if Qeq_bool y 0 then Js.Qlt_bool 0 x
  else Js.Qlt_bool m (x / y).

(** [validateTrade(symbol, amount, price, accountBalance)] *)
Definition validateTrade (cfg : RiskManager.config) (symbol : string)
    (amount price accountBalance : Q) : bool :=
  let tradeValue := amount * price in
  if quotient_exceeds tradeValue accountBalance (RiskManager.risk_maxRiskPerTrade cfg)
  then false
  else if Js.Qlt_bool accountBalance (RiskManager.risk_minimumBalance cfg) then false
  else
    let minTradeValue := 10 in
    if Js.Qlt_bool tradeValue minTradeValue then false
    else true.

(** An element of [openPositions], of which [checkTotalRisk] reads the
    amount and the price. *)
Record open_position : Type := { amount : Q; price : Q }.

(** The [reduce] of [checkTotalRisk], each sum taken exactly where the code
    rounds it. *)
Definition totalExposure (openPositions : list open_position) : Q :=
  fold_left (fun total position => total + amount position * price position)
    openPositions 0.

(** [checkTotalRisk(openPositions, accountBalance)] *)
Definition checkTotalRisk (lim : limits) (openPositions : list open_position)
    (accountBalance : Q) : bool :=
  if quotient_exceeds (totalExposure openPositions) accountBalance (risk_maxTotalRisk lim)
  then false
  else true.

(** [getMaxConcurrentTrades(accountBalance)] *)
Definition getMaxConcurrentTrades (lim : limits) (accountBalance : Q) : Z :=
  let maxTrades := trading_maxConcurrentTrades lim in
  if Js.Qlt_bool accountBalance 1000 then Z.min maxTrades 1
  else if Js.Qlt_bool accountBalance 5000 then Z.min maxTrades 2
  else maxTrades.

End RiskLimits.

(** ** strategyInterface.js and the RSI/EMA strategy *)

Module StrategyInterface.
Local Open Scope Q_scope.
Import Backtester.

(** [this.position] of a strategy: [None] for [null]. *)
Record held : Type := {
  held_side : PositionSide;
  held_entryPrice : Q;
  held_amount : Q
}.

Definition same_side (a b : PositionSide) : bool :=
  match a, b with
  | Long, Long | Short, Short => true
  | _, _ => false
  end.

(** [setPosition(side, entryPrice, amount)] *)
Definition setPosition (side : PositionSide) (entryPrice amount : Q) : option held :=
  Some {| held_side := side; held_entryPrice := entryPrice; held_amount := amount |}.

(** [clearPosition()] *)
Definition clearPosition : option held := None.

(** [exitPosition(side)] as the calls it makes on [this.tradingService] and
    the value of [this.position] it leaves.  The market order is placed
    without a price.  When the service returns [null], reading [order.id]
    throws inside the [try], the error is logged and the position stays. *)
Definition exitPosition (symbol : string) (position : option held)
    (side : PositionSide) : prog (option held) :=
  match position with
  | None => Ret position
  | Some p =>
      if negb (same_side (held_side p) side) then Ret position
      else
        let exitSide := match side with Long => Sell | Short => Buy end in
        ExecuteTrade symbol exitSide (Some (held_amount p)) Market None
          (fun order =>
             match order with
             | Some _ => Ret clearPosition
             | None => Ret position
             end)
  end.

(** Sequencing of service calls. *)
Fixpoint bind {A B : Type} (p : prog A) (f : A -> prog B) : prog B :=
  match p with
  | Ret a => f a
  | ExecuteTrade s side amount type price k =>
      ExecuteTrade s side amount type price (fun r => bind (k r) f)
  | ManagePosition s side entryPrice amount rc k =>
      ManagePosition s side entryPrice amount rc (bind k f)
  end.

End StrategyInterface.

Module RsiEmaConfluence.
Local Open Scope Q_scope.
Import Backtester StrategyInterface.

(** The fields of the strategy instance that [run] reads and writes. *)
Record instance : Type := {
  historicalData : list candle;
  position : option held
}.

(** Lines 81-84 of [run]: the new candle is pushed and, when the array is
    then longer than [maxHistoricalDataSize], the oldest one is shifted out. *)
Definition push_candle (maxHistoricalDataSize : nat) (historicalData : list candle)
    (newCandle : candle) : list candle :=
  let pushed := historicalData ++ [newCandle] in
  if (maxHistoricalDataSize <? length pushed)%nat then tl pushed else pushed.

(** One entry block of [run]: with no position and the signal raised, a
    market order without amount and without price; a returned order sets the
    position and registers it with [managePosition]. *)
Definition enter (symbol : string) (risk : strategy_risk) (orderSide : Side)
    (positionSide : PositionSide) (signal : bool) (position : option held) :
    prog (option held) :=
  match position with
  | Some _ => Ret position
  | None =>
      if signal then
        ExecuteTrade symbol orderSide None Market None
          (fun order =>
             match order with
             | Some o =>
                 ManagePosition symbol positionSide (price o) (amount o) risk
                   (Ret (setPosition positionSide (price o) (amount o)))
             | None => Ret position
             end)
      else Ret position
  end.

(** [run(newCandle)].  [signals] stands for lines 86-135, which call the
    indicator library on the closes of the window: it answers [None] when
    [run] returns early (an indicator is [NaN]) and otherwise the two entry
    conditions, long and short. *)
Definition run (symbol : string) (risk : strategy_risk) (maxHistoricalDataSize : nat)
    (signals : list Q -> option (bool * bool))
    (this : instance) (newCandle : candle) : prog instance :=
  let historicalData := push_candle maxHistoricalDataSize (historicalData this) newCandle in
  let closePrices := map close historicalData in
  if (length closePrices <? maxHistoricalDataSize)%nat
  then Ret {| historicalData := historicalData; position := position this |}
  else
    match signals closePrices with
    | None => Ret {| historicalData := historicalData; position := position this |}
    | Some (long, short) =>
        bind (enter symbol risk Buy Long long (position this))
          (fun position1 =>
             bind (enter symbol risk Sell Short short position1)
               (fun position2 =>
                  Ret {| historicalData := historicalData; position := position2 |}))
    end.

(** The strategy as the backtester drives it; the [historicalData] slice the
    backtester passes as second argument is not a parameter of [run]. *)
Definition strategy (symbol : string) (risk : strategy_risk) (maxHistoricalDataSize : nat)
    (signals : list Q -> option (bool * bool)) : Backtester.strategy instance :=
  {| strategy_symbol := symbol;
     Backtester.run := fun this newCandle _ =>
       run symbol risk maxHistoricalDataSize signals this newCandle;
     Backtester.clearPosition := fun this =>
       {| historicalData := historicalData this; position := clearPosition |} |}.

End RsiEmaConfluence.

(** ** paperTrader.js: the unrealized profit and loss *)

Module PaperPnl.
Local Open Scope Q_scope.

(** [initialBalance[asset] * latestPrices[symbol] || 0]: the product when
    the asset has an initial balance and the product is not zero, else 0. *)
Definition initial_value (asset : string) (price : Q) : Q :=
  match PaperTrader.read PaperTrader.initialBalance asset with
  | Some initial => Js.or_else (Some (initial * price)) 0
  | None => 0
  end.

(** The body of the loop of [calculateUnrealizedPNL] for one asset: what it
    adds to [pnl]. *)
Definition contribution (latestPrices : gmap string Q) (asset : string)
    (balance : option Q) : Q :=
  if String.eqb asset "USD" then 0
  else
    let symbol := (asset ++ "/USD")%string in
    match latestPrices !! symbol, balance with
    | Some price, Some held =>
        if Js.truthy price && Js.Qlt_bool 0 held
        then held * price - initial_value asset price
        else 0
    | _, _ => 0
    end.

(** [calculateUnrealizedPNL(latestPrices)]: the loop over the assets of
    [currentBalances].  The order of the loop does not change the sum in
    exact arithmetic. *)
Definition calculateUnrealizedPNL (st : PaperTrader.paper)
    (latestPrices : gmap string Q) : Q :=
  map_fold (fun asset balance pnl => pnl + contribution latestPrices asset balance)
    0 (PaperTrader.currentBalances st).

End PaperPnl.

(** ** performanceMetrics.js: total return, maximum drawdown, profit factor *)

(** These functions take no square root and are embedded in exact
    arithmetic; a result that is [Infinity] or [NaN] in JavaScript (a
    division by zero) is kept apart from the rational results. *)
Module Metrics.
Local Open Scope Q_scope.

Inductive number : Type :=
| Fin (q : Q)
| Infinity
| NaN.

(** [Math.max(x, y)] for results that are not negative infinity. *)
Definition max (x y : number) : number :=
  match x, y with
  | NaN, _ | _, NaN => NaN
  | Infinity, _ | _, Infinity => Infinity
  | Fin a, Fin b => Fin (Qmax a b)
  end.


(** [(maxEquity - balance) / maxEquity], where [balance <= maxEquity]: with
    [maxEquity] zero the quotient is [NaN] for a zero numerator and
    [Infinity] for a positive one. *)
Definition drawdown (maxEquity balance : Q) : number :=
  if Qeq_bool maxEquity 0
  then (if Qeq_bool (maxEquity - balance) 0 then NaN else Infinity)
  else Fin ((maxEquity - balance) / maxEquity).

(** The body of the loop of [calculateMaxDrawdown] on the pair of
    [maxEquity] ([None] for its initial [-Infinity]) and [maxDrawdown]. *)
Definition drawdown_step (state : option Q * number) (balance : Q) : option Q * number :=
  let '(maxEquity, maxDrawdown) := state in
  let maxEquity :=
    match maxEquity with
    | None => balance
    | Some m => Qmax m balance
    end in
  (Some maxEquity, max maxDrawdown (drawdown maxEquity balance)).

(** [calculateMaxDrawdown(equityCurve)], the curve given by its balances. *)
Definition calculateMaxDrawdown (equityCurve : list Q) : number :=
  match equityCurve with
  | [] => Fin 0
  | _ => snd (fold_left drawdown_step equityCurve (None, Fin 0))
  end.



End Metrics.

(* ===================================================================== *)
(** * Part II: vocabulary of the properties                               *)
(* ===================================================================== *)

(** The risk configuration of the test suite's mock config. *)
Definition test_config : RiskManager.config :=
  {| RiskManager.risk_maxRiskPerTrade := 0.02;
     RiskManager.risk_minimumBalance := 100;
     RiskManager.risk_stopLossPercentage := 0.05;
     RiskManager.risk_takeProfitPercentage := 0.15;
     RiskManager.trading_cooldownPeriod := 3600000 |}.

(** The percentage the lot-size formula of the specification is read with:
    the supplied one, or [maxRiskPerTrade] when none is supplied. *)
Definition supplied_or_default (cfg : RiskManager.config)
    (riskPercentage : option Q) : Q :=
  match riskPercentage with
  | Some r => r
  | None => RiskManager.risk_maxRiskPerTrade cfg
  end.

(** The lot size the specification states for a balance at or above the
    minimum and a positive price. *)
Definition lot_size_formula (cfg : RiskManager.config)
    (currentPrice accountBalance : Q) (riskPercentage : option Q) : Q :=
  Qmax 0 (Qmin (accountBalance * supplied_or_default cfg riskPercentage)
               (accountBalance * RiskManager.risk_maxRiskPerTrade cfg) / currentPrice).

(** A position whose stop lies above its target, as [managePosition] sets
    it up from negative percentages, and a price between the two. *)
Definition crossed_long : Backtester.position :=
  {| Backtester.pside := Long; Backtester.entryPrice := 100;
     Backtester.pamount := 1; Backtester.stopLossPrice := 105;
     Backtester.takeProfitPrice := 95 |}.

Definition crossed_short : Backtester.position :=
  {| Backtester.pside := Short; Backtester.entryPrice := 100;
     Backtester.pamount := 1; Backtester.stopLossPrice := 95;
     Backtester.takeProfitPrice := 105 |}.

(** ** Vocabulary for the simulated ledger *)

(** A clock that always reads the same instant. *)
Definition frozen_clock (t : Z) : nat -> Z := fun _ => t.

(** C1 as stated: the call returns [null] and leaves the cash balance, the
    holdings map and the trade log as they were. *)
Definition rejected_without_change (now : nat -> Z) (cfg : RiskManager.config)
    (st : Backtester.backtester) (s : string) (side : Side)
    (amount : option Q) (type : OrderType) (price : option Q) : Prop :=
  let r := Backtester.executeTrade now cfg st s side amount type price in
  fst r = None
  /\ Backtester.currentBalance (snd r) = Backtester.currentBalance st
  /\ Backtester.holdings (snd r) = Backtester.holdings st
  /\ Backtester.tradeLog (snd r) = Backtester.tradeLog st.

(** One [executeTrade] call of the backtest service. *)
Record trade_call : Type := {
  call_symbol : string;
  call_side : Side;
  call_amount : option Q;
  call_type : OrderType;
  call_price : option Q
}.

(** The state after a sequence of [executeTrade] calls. *)
Fixpoint after_calls (now : nat -> Z) (cfg : RiskManager.config)
    (calls : list trade_call) (st : Backtester.backtester) : Backtester.backtester :=
  match calls with
  | [] => st
  | c :: rest =>
      after_calls now cfg rest
        (snd (Backtester.executeTrade now cfg st (call_symbol c) (call_side c)
                (call_amount c) (call_type c) (call_price c)))
  end.

(** The holdings and the positions of the service record the same quantity
    of every symbol, as they do in every state the service reaches by its
    own calls. *)
Definition holdings_match_positions (st : Backtester.backtester) : Prop :=
  forall s, (Backtester.quantity (Backtester.holdings st) s
             == Backtester.quantity (Backtester.positions st) s)%Q.

(** No negative cash balance and no negative holding. *)
Definition ledger_nonneg (st : Backtester.backtester) : Prop :=
  (0 <= Backtester.currentBalance st)%Q
  /\ forall s q, Backtester.holdings st !! s = Some q -> (0 <= q)%Q.

(** The explicit price of a call, when there is one, is not negative. *)
Definition price_nonneg (c : trade_call) : Prop :=
  forall p, call_price c = Some p -> (0 <= p)%Q.

(** One [executeTrade] call of the paper trader, with the clock reading and
    the ticker price it sees. *)
Record paper_call : Type := {
  pc_timestamp : Z;
  pc_last : Q;
  pc_base : string;
  pc_quote : string;
  pc_side : Side;
  pc_amount : Q;
  pc_type : OrderType;
  pc_price : option Q
}.

Definition paper_step (st : PaperTrader.paper) (c : paper_call) : PaperTrader.paper :=
  snd (PaperTrader.executeTrade (pc_timestamp c) (pc_last c) st (pc_base c)
         (pc_quote c) (pc_side c) (pc_amount c) (pc_type c) (pc_price c)).

(** The paper ledger after a sequence of calls. *)
Definition after_paper_calls (calls : list paper_call) (st : PaperTrader.paper) :
    PaperTrader.paper :=
  fold_left paper_step calls st.

(** Every stored balance is a number and is not negative. *)
Definition numbers_nonneg (b : gmap string (option Q)) : Prop :=
  forall asset v, b !! asset = Some v -> exists q, v = Some q /\ (0 <= q)%Q.

Definition paper_nonneg (st : PaperTrader.paper) : Prop :=
  numbers_nonneg (PaperTrader.currentBalances st).

(** The call trades two assets the ledger [b] holds, with an amount, a
    ticker price and an explicit price that are not negative. *)
Definition paper_call_ok (b : gmap string (option Q)) (c : paper_call) : Prop :=
  is_Some (b !! pc_base c) /\ is_Some (b !! pc_quote c)
  /\ (0 <= pc_amount c)%Q /\ (0 <= pc_last c)%Q
  /\ (forall p, pc_price c = Some p -> (0 <= p)%Q).

(** A buy of 1 at 100 and a sell of it at the explicit price -20000. *)
Definition negative_price_calls : list trade_call :=
  [ {| call_symbol := "BTC/USD"; call_side := Buy; call_amount := Some 1%Q;
       call_type := Market; call_price := Some 100%Q |};
    {| call_symbol := "BTC/USD"; call_side := Sell; call_amount := Some 1%Q;
       call_type := Limit; call_price := Some (-20000)%Q |} ].

(** A paper buy of the amount -1 at the limit price 100. *)
Definition negative_amount_call : paper_call :=
  {| pc_timestamp := 0; pc_last := 100; pc_base := "BTC"; pc_quote := "USD";
     pc_side := Buy; pc_amount := -1; pc_type := Limit; pc_price := Some 100%Q |}.

(** A buy and a sell with positive prices, for the backtest service and for
    the paper trader. *)
Definition round_trip_calls : list trade_call :=
  [ {| call_symbol := "BTC/USD"; call_side := Buy; call_amount := Some 1%Q;
       call_type := Market; call_price := Some 100%Q |};
    {| call_symbol := "BTC/USD"; call_side := Sell; call_amount := Some 1%Q;
       call_type := Market; call_price := Some 120%Q |} ].

Definition paper_round_trip : list paper_call :=
  [ {| pc_timestamp := 1; pc_last := 100; pc_base := "BTC"; pc_quote := "USD";
       pc_side := Buy; pc_amount := 2; pc_type := Market; pc_price := None |};
    {| pc_timestamp := 2; pc_last := 120; pc_base := "BTC"; pc_quote := "USD";
       pc_side := Sell; pc_amount := 1; pc_type := Limit; pc_price := Some 110%Q |} ].

(** ** Vocabulary for the replay *)

(** A strategy that never trades. *)
Definition idle_strategy : Backtester.strategy unit :=
  {| Backtester.strategy_symbol := "BTC/USD";
     Backtester.run := fun _ _ _ => Backtester.Ret tt;
     Backtester.clearPosition := fun _ => tt |}.

(** A strategy that buys one unit at the close of every candle and places a
    stop and a target on what it bought. *)
Definition buy_each_candle : Backtester.strategy unit :=
  {| Backtester.strategy_symbol := "BTC/USD";
     Backtester.run := fun _ c _ =>
       Backtester.ExecuteTrade "BTC/USD" Buy (Some 1%Q) Market
         (Some (Backtester.close c))
         (fun r =>
            match r with
            | Some o =>
                Backtester.ManagePosition "BTC/USD" Long (Backtester.price o)
                  (Backtester.amount o)
                  {| Backtester.stopLossPercent := None;
                     Backtester.takeProfitPercent := None |}
                  (Backtester.Ret tt)
            | None => Backtester.Ret tt
            end);
     Backtester.clearPosition := fun _ => tt |}.

Definition test_defaults : Backtester.position_defaults :=
  {| Backtester.defaultStopLossPercent := 0.05;
     Backtester.defaultTakeProfitPercent := 0.15 |}.

Definition flat_candle (t : Z) (p : Q) : Backtester.candle :=
  {| Backtester.timestamp := t; Backtester.open := p; Backtester.high := p;
     Backtester.low := p; Backtester.close := p; Backtester.volume := 1 |}.

Definition two_candles : list Backtester.candle :=
  [flat_candle 1000 100; flat_candle 2000 90].

(** C4 as stated: the finished equity curve has as many points as there are
    candles. *)
Definition curve_length_is_candle_count {T : Type} (now : nat -> Z)
    (cfg : RiskManager.config) (dflt : Backtester.position_defaults)
    (strat : Backtester.strategy T) (st : Backtester.backtester) (ss : T) : Prop :=
  exists st' ss',
    Backtester.runBacktest now cfg dflt strat st ss = Some (st', ss')
    /\ length (Backtester.equityCurve st') = length (Backtester.backtestData st).

(** Two orders that agree on every field except the id (C3 as stated). *)
Definition same_but_id (o1 o2 : Backtester.order) : Prop :=
  Backtester.symbol o1 = Backtester.symbol o2
  /\ Backtester.side o1 = Backtester.side o2
  /\ Backtester.type o1 = Backtester.type o2
  /\ Backtester.amount o1 = Backtester.amount o2
  /\ Backtester.price o1 = Backtester.price o2
  /\ Backtester.status o1 = Backtester.status o2
  /\ Backtester.datetime o1 = Backtester.datetime o2
  /\ Backtester.fee o1 = Backtester.fee o2.

(** Two orders that agree on every field except the two that read the wall
    clock: the time part of the id, and [datetime].  The sequence number of
    the id is the same. *)
Definition same_but_clock (o1 o2 : Backtester.order) : Prop :=
  snd (Backtester.id o1) = snd (Backtester.id o2)
  /\ Backtester.symbol o1 = Backtester.symbol o2
  /\ Backtester.side o1 = Backtester.side o2
  /\ Backtester.type o1 = Backtester.type o2
  /\ Backtester.amount o1 = Backtester.amount o2
  /\ Backtester.price o1 = Backtester.price o2
  /\ Backtester.status o1 = Backtester.status o2
  /\ Backtester.fee o1 = Backtester.fee o2.

(** The same on the result of [executeTrade]: both [null], or two such
    orders. *)
Definition same_result (r1 r2 : option Backtester.order) : Prop :=
  match r1, r2 with
  | Some o1, Some o2 => same_but_clock o1 o2
  | None, None => True
  | _, _ => False
  end.

(** Two runs of a strategy step that make the same calls as long as the
    service answers them with the same results up to the clock fields. *)
Inductive same_calls {A : Type} : Backtester.prog A -> Backtester.prog A -> Prop :=
| same_Ret (a : A) : same_calls (Backtester.Ret a) (Backtester.Ret a)
| same_ExecuteTrade s side amount type price k1 k2 :
    (forall r1 r2, same_result r1 r2 -> same_calls (k1 r1) (k2 r2)) ->
    same_calls (Backtester.ExecuteTrade s side amount type price k1)
               (Backtester.ExecuteTrade s side amount type price k2)
| same_ManagePosition s side entryPrice amount rc k1 k2 :
    same_calls k1 k2 ->
    same_calls (Backtester.ManagePosition s side entryPrice amount rc k1)
               (Backtester.ManagePosition s side entryPrice amount rc k2).

(** A strategy whose decisions do not depend on the clock fields of the
    orders it gets back. *)
Definition clock_blind {T : Type} (strat : Backtester.strategy T) : Prop :=
  forall ss c h, same_calls (Backtester.run strat ss c h) (Backtester.run strat ss c h).

(** Two backtester states that agree on everything but the clock fields of
    the logged orders and the number of clock reads. *)
Definition same_state (st1 st2 : Backtester.backtester) : Prop :=
  Backtester.backtestData st1 = Backtester.backtestData st2
  /\ Backtester.currentBalance st1 = Backtester.currentBalance st2
  /\ Forall2 same_but_clock (Backtester.tradeLog st1) (Backtester.tradeLog st2)
  /\ Backtester.equityCurve st1 = Backtester.equityCurve st2
  /\ Backtester.holdings st1 = Backtester.holdings st2
  /\ Backtester.positions st1 = Backtester.positions st2
  /\ Backtester.currentPositions st1 = Backtester.currentPositions st2.

(** C3 as stated: the two runs finish, with the same equity curve and with
    trade logs that differ in the ids at most. *)
Definition runs_agree_but_ids {T : Type} (now1 now2 : nat -> Z)
    (cfg : RiskManager.config) (dflt : Backtester.position_defaults)
    (strat : Backtester.strategy T) (st : Backtester.backtester) (ss : T) : Prop :=
  exists st1 ss1 st2 ss2,
    Backtester.runBacktest now1 cfg dflt strat st ss = Some (st1, ss1)
    /\ Backtester.runBacktest now2 cfg dflt strat st ss = Some (st2, ss2)
    /\ Backtester.equityCurve st1 = Backtester.equityCurve st2
    /\ Forall2 same_but_id (Backtester.tradeLog st1) (Backtester.tradeLog st2).

(** The sequence number in the id of every logged order is its index in the
    log. *)
Definition ids_sequential (log : list Backtester.order) : Prop :=
  forall (i : nat) o, log !! i = Some o -> snd (Backtester.id o) = i.

(** ** Vocabulary for the Sharpe ratio *)

(** C7 as stated: the mean of the excess returns over their population
    standard deviation; with a zero deviation, +infinity for a positive mean
    and 0 otherwise. *)
Definition sharpe_as_specified (equityCurve : list float) (riskFreeRate : float) : float :=
  let excess :=
    PerformanceMetrics.excessReturns riskFreeRate (PerformanceMetrics.returns equityCurve) in
  let n := PerformanceMetrics.number_of_nat (length excess) in
  let mean := (PerformanceMetrics.sum excess / n)%float in
  let deviation :=
    PrimFloat.sqrt
      (PerformanceMetrics.sum (map (fun x => ((x - mean) * (x - mean))%float) excess) / n)%float in
  if (deviation =? 0)%float
  then (if (0 <? mean)%float then infinity else 0%float)
  else (mean / deviation)%float.

(** The return of one step, as the specification and the code have it. *)
Definition step_return (prevBalance currentBalance : float) : float :=
  if (prevBalance =? 0)%float then 0%float
  else ((currentBalance - prevBalance) / prevBalance)%float.

(** ** Vocabulary for the further properties *)

(** The portfolio limits of the test suite's mock config. *)
Definition test_limits : RiskLimits.limits :=
  {| RiskLimits.risk_maxTotalRisk := 0.10;
     RiskLimits.trading_maxConcurrentTrades := 3 |}.

(** A strategy step that places all its orders without a usable price and
    registers a position only for an order it got back. *)
Fixpoint no_price {A : Type} (p : Backtester.prog A) : Prop :=
  match p with
  | Backtester.Ret _ => True
  | Backtester.ExecuteTrade _ _ _ _ price k =>
      Backtester.resolve_price price = None /\ no_price (k None)
  | Backtester.ManagePosition _ _ _ _ _ _ => False
  end.

(** Entry signals that are raised on every call. *)
Definition always_signal : list Q -> option (bool * bool) :=
  fun _ => Some (true, true).

Definition no_overrides : Backtester.strategy_risk :=
  {| Backtester.stopLossPercent := None; Backtester.takeProfitPercent := None |}.

(** Every [executeTrade] call a strategy step can make, whatever the service
    answers, passes a price argument that satisfies [ok]. *)
Fixpoint calls_with {A : Type} (ok : option Q -> Prop) (p : Backtester.prog A) : Prop :=
  match p with
  | Backtester.Ret _ => True
  | Backtester.ExecuteTrade _ _ _ _ price k => ok price /\ forall r, calls_with ok (k r)
  | Backtester.ManagePosition _ _ _ _ _ k => calls_with ok k
  end.

(** A price argument that is omitted or not negative. *)
Definition not_negative (price : option Q) : Prop :=
  forall p, price = Some p -> (0 <= p)%Q.

(** No point of the equity curve shows a negative balance. *)
Definition curve_nonneg (st : Backtester.backtester) : Prop :=
  Forall (fun p => (0 <= Backtester.balance p)%Q) (Backtester.equityCurve st).

(** The order a paper market buy of 2 BTC returns at the ticker price 100
    and the clock reading 1. *)
Definition paper_buy_order : PaperTrader.order :=
  {| PaperTrader.id := (Buy, 1%Z);
     PaperTrader.baseAsset := "BTC";
     PaperTrader.quoteAsset := "USD";
     PaperTrader.side := Buy;
     PaperTrader.type := Market;
     PaperTrader.amount := 2;
     PaperTrader.price := 100;
     PaperTrader.status := "closed";
     PaperTrader.datetime := 1;
     PaperTrader.fee := 2 * 100 * 0.001 |}.

(** The latest prices with BTC at 50. *)
Definition btc_at_50 : gmap string Q := <["BTC/USD" := 50%Q]> ∅.


(** The loop invariant of the maximum drawdown over the balances [seen] so
    far, all positive: [peak] is their maximum; [worst] lies in [0, 1),
    bounds the relative decline from every balance to every later one, and is
    0 or the relative decline of one such pair. *)
Definition drawdown_invariant (seen : list Q) (peak worst : Q) : Prop :=
  (0 < peak)%Q /\ (0 <= worst)%Q /\ (worst < 1)%Q
  /\ Forall (fun b => (0 < b)%Q /\ (b <= peak)%Q) seen
  /\ (exists (k : nat) b, seen !! k = Some b /\ (b == peak)%Q)
  /\ (forall (i j : nat) bi bj,
        (i <= j)%nat -> seen !! i = Some bi -> seen !! j = Some bj ->
        (bi * (1 - worst) <= bj)%Q)
  /\ ((worst == 0)%Q
      \/ exists (i j : nat) bi bj,
           (i <= j)%nat /\ seen !! i = Some bi /\ seen !! j = Some bj
           /\ (bi * (1 - worst) == bj)%Q).

(* ===================================================================== *)
(** * Part III: properties                                                *)
(* ===================================================================== *)

(** ** Arithmetic helpers *)

Lemma Qlt_bool_iff (x y : Q) : Js.Qlt_bool x y = true <-> (x < y)%Q.
Proof.
  unfold Js.Qlt_bool. rewrite negb_true_iff.
  split.
  - intros H. apply Qnot_le_lt. intros Hle.
    apply Qle_bool_iff in Hle. congruence.
  - intros H. destruct (Qle_bool y x) eqn:E; [|reflexivity].
    apply Qle_bool_iff in E. exfalso. exact (Qlt_not_le _ _ H E).
Qed.

Lemma Qlt_bool_false_iff (x y : Q) : Js.Qlt_bool x y = false <-> (y <= x)%Q.
Proof.
  unfold Js.Qlt_bool. rewrite negb_false_iff. apply Qle_bool_iff.
Qed.

Lemma truthy_iff (x : Q) : Js.truthy x = true <-> ~ (x == 0)%Q.
Proof.
  unfold Js.truthy. rewrite negb_true_iff.
  split.
  - intros H Heq. apply Qeq_bool_iff in Heq. congruence.
  - intros H. destruct (Qeq_bool x 0) eqn:E; [|reflexivity].
    apply Qeq_bool_iff in E. contradiction.
Qed.

Lemma Qdiv_le_mono (a b p : Q) : (0 < p)%Q -> (a <= b)%Q -> (a / p <= b / p)%Q.
Proof.
  intros Hp Hab. unfold Qdiv.
  apply Qmult_le_compat_r; [exact Hab|].
  apply Qlt_le_weak, Qinv_lt_0_compat, Hp.
Qed.

Lemma Qmin_div (a b p : Q) :
  (0 < p)%Q -> (Qmin (a / p) (b / p) == Qmin a b / p)%Q.
Proof.
  intros Hp.
  destruct (Qlt_le_dec b a) as [Hlt|Hle].
  - rewrite (Q.min_r a b) by (apply Qlt_le_weak, Hlt).
    apply Q.min_r, Qdiv_le_mono; [exact Hp|apply Qlt_le_weak, Hlt].
  - rewrite (Q.min_l a b) by exact Hle.
    apply Q.min_l, Qdiv_le_mono; assumption.
Qed.

(** ** The risk gate *)

Section RiskGate.
Import RiskManager.
Local Open Scope Q_scope.

Variable cfg : config.

Lemma calculateLotSize_below_minimum symbol currentPrice accountBalance riskPercentage :
  accountBalance < risk_minimumBalance cfg ->
  calculateLotSize cfg symbol currentPrice accountBalance riskPercentage = 0.
Proof.
  intros H. unfold calculateLotSize.
  apply Qlt_bool_iff in H. rewrite H. reflexivity.
Qed.

Lemma calculateLotSize_formula symbol currentPrice accountBalance riskPercentage :
  risk_minimumBalance cfg <= accountBalance ->
  0 < currentPrice ->
  (forall r, riskPercentage = Some r -> ~ r == 0) ->
  calculateLotSize cfg symbol currentPrice accountBalance riskPercentage
  == lot_size_formula cfg currentPrice accountBalance riskPercentage.
Proof.
  intros Hmin Hp Hnz. unfold calculateLotSize, lot_size_formula.
  apply Qlt_bool_false_iff in Hmin. rewrite Hmin.
  assert (Hr : Js.or_else riskPercentage (risk_maxRiskPerTrade cfg)
               = supplied_or_default cfg riskPercentage).
  { destruct riskPercentage as [r|]; simpl; [|reflexivity].
    specialize (Hnz r eq_refl). apply truthy_iff in Hnz. rewrite Hnz. reflexivity. }
  rewrite Hr. rewrite (Qmin_div _ _ _ Hp). reflexivity.
Qed.

End RiskGate.

(** C5 (as stated): with the supplied percentage 0 the formula of the
    specification gives 0, but the code falls back to [maxRiskPerTrade] and
    returns 0.004. *)
Lemma calculateLotSize_zero_percentage_counterexample :
  ~ (RiskManager.calculateLotSize test_config "BTC/USD" 50000 10000 (Some 0)
     == lot_size_formula test_config 50000 10000 (Some 0))%Q.
Proof. vm_compute. discriminate. Qed.

(** C5 (amended): below the minimum balance the lot size is 0; at or above
    it, for a positive price and a percentage that is omitted or not zero,
    it is min(balance*percentage, balance*maxRiskPerTrade)/price floored at
    0; and calculateLotSize(symbol, 50000, 10000, 0.02) is 0.004 when
    maxRiskPerTrade is 0.02 and minimumBalance is at most 10000. *)
Theorem calculateLotSize_contract (cfg : RiskManager.config) (symbol : string)
    (currentPrice accountBalance : Q) (riskPercentage : option Q) :
  ((accountBalance < RiskManager.risk_minimumBalance cfg)%Q ->
   RiskManager.calculateLotSize cfg symbol currentPrice accountBalance riskPercentage = 0%Q)
  /\
  ((RiskManager.risk_minimumBalance cfg <= accountBalance)%Q ->
   (0 < currentPrice)%Q ->
   (forall r, riskPercentage = Some r -> ~ (r == 0)%Q) ->
   (RiskManager.calculateLotSize cfg symbol currentPrice accountBalance riskPercentage
    == lot_size_formula cfg currentPrice accountBalance riskPercentage)%Q)
  /\
  ((RiskManager.risk_maxRiskPerTrade cfg == 0.02)%Q ->
   (RiskManager.risk_minimumBalance cfg <= 10000)%Q ->
   (RiskManager.calculateLotSize cfg symbol 50000 10000 (Some 0.02) == 0.004)%Q).
Proof.
  split; [|split].
  - apply calculateLotSize_below_minimum.
  - apply calculateLotSize_formula.
  - intros Hmax Hmin.
    rewrite calculateLotSize_formula; [| exact Hmin | reflexivity |].
    + unfold lot_size_formula, supplied_or_default. rewrite Hmax.
      vm_compute. reflexivity.
    + intros r Hr. injection Hr as <-. vm_compute. discriminate.
Qed.

Lemma calculateLotSize_contract_witness :
  RiskManager.calculateLotSize test_config "BTC/USD" 50000 50 None = 0%Q
  /\ (RiskManager.calculateLotSize test_config "BTC/USD" 40000 10000 (Some 0.01)
      == lot_size_formula test_config 40000 10000 (Some 0.01))%Q
  /\ (RiskManager.calculateLotSize test_config "BTC/USD" 50000 10000 (Some 0.02) == 0.004)%Q.
Proof.
  split; [|split].
  - apply (proj1 (calculateLotSize_contract test_config "BTC/USD" 50000%Q 50%Q None)).
    vm_compute. reflexivity.
  - apply (proj1 (proj2 (calculateLotSize_contract test_config "BTC/USD" 40000%Q 10000%Q (Some 0.01%Q)))).
    + vm_compute. discriminate.
    + vm_compute. reflexivity.
    + intros r Hr. injection Hr as <-. vm_compute. discriminate.
  - apply (proj2 (proj2 (calculateLotSize_contract test_config "BTC/USD" 50000%Q 10000%Q (Some 0.02%Q)))).
    + vm_compute. reflexivity.
    + vm_compute. discriminate.
Defined.

(** C6: with the configured cooldown of one hour, a trade one second ago and
    an explicit cooldown of 0, [validateCooldown] answers [false]: the 0 is
    replaced by the configured default.  The unit test "should handle zero
    cooldown" expects [true] on this input. *)
Theorem validateCooldown_zero_uses_default (now : Z) :
  RiskManager.validateCooldown test_config now (now - 1000) (Some 0%Z) = false.
Proof.
  unfold RiskManager.validateCooldown. simpl.
  apply Z.leb_gt. lia.
Qed.

(** C10: for calculateLotSize, calculateStopLoss, calculateTakeProfit and
    validateCooldown an explicit override of 0 gives the same result as an
    omitted one, and that result is the one computed from the configured
    default: the lot sized with maxRiskPerTrade, the stop and the target at
    the configured percentages from the entry price, and the comparison of
    the time since the last trade with the configured cooldown period. *)
Theorem explicit_zero_is_default (cfg : RiskManager.config) (symbol : string)
    (currentPrice accountBalance entryPrice : Q) (side : Side)
    (now lastTradeTime : Z) :
  (RiskManager.calculateLotSize cfg symbol currentPrice accountBalance (Some 0%Q)
   = RiskManager.calculateLotSize cfg symbol currentPrice accountBalance None
   /\ RiskManager.calculateLotSize cfg symbol currentPrice accountBalance (Some 0%Q)
      = RiskManager.calculateLotSize cfg symbol currentPrice accountBalance
          (Some (RiskManager.risk_maxRiskPerTrade cfg))
   /\ (RiskManager.calculateLotSize cfg symbol currentPrice accountBalance (Some 0%Q)
       == if Js.Qlt_bool accountBalance (RiskManager.risk_minimumBalance cfg)
          then 0
          else Qmax 0 (accountBalance * RiskManager.risk_maxRiskPerTrade cfg
                       / currentPrice))%Q)
  /\ (RiskManager.calculateStopLoss cfg entryPrice side (Some 0%Q)
      = RiskManager.calculateStopLoss cfg entryPrice side None
      /\ RiskManager.calculateStopLoss cfg entryPrice side (Some 0%Q)
         = RiskManager.calculateStopLoss cfg entryPrice side
             (Some (RiskManager.risk_stopLossPercentage cfg))
      /\ RiskManager.calculateStopLoss cfg entryPrice side (Some 0%Q)
         = match side with
           | Buy => (entryPrice * (1 - RiskManager.risk_stopLossPercentage cfg))%Q
           | _ => (entryPrice * (1 + RiskManager.risk_stopLossPercentage cfg))%Q
           end)
  /\ (RiskManager.calculateTakeProfit cfg entryPrice side (Some 0%Q)
      = RiskManager.calculateTakeProfit cfg entryPrice side None
      /\ RiskManager.calculateTakeProfit cfg entryPrice side (Some 0%Q)
         = RiskManager.calculateTakeProfit cfg entryPrice side
             (Some (RiskManager.risk_takeProfitPercentage cfg))
      /\ RiskManager.calculateTakeProfit cfg entryPrice side (Some 0%Q)
         = match side with
           | Buy => (entryPrice * (1 + RiskManager.risk_takeProfitPercentage cfg))%Q
           | _ => (entryPrice * (1 - RiskManager.risk_takeProfitPercentage cfg))%Q
           end)
  /\ (RiskManager.validateCooldown cfg now lastTradeTime (Some 0%Z)
      = RiskManager.validateCooldown cfg now lastTradeTime None
      /\ RiskManager.validateCooldown cfg now lastTradeTime (Some 0%Z)
         = RiskManager.validateCooldown cfg now lastTradeTime
             (Some (RiskManager.trading_cooldownPeriod cfg))
      /\ RiskManager.validateCooldown cfg now lastTradeTime (Some 0%Z)
         = (RiskManager.trading_cooldownPeriod cfg <=? now - lastTradeTime)%Z).
Proof.
  assert (Hq : forall d, Js.or_else (Some 0%Q) d = Js.or_else (Some d) d).
  { intros d. simpl. destruct (Js.truthy d) eqn:E; [reflexivity|reflexivity]. }
  assert (Hz : forall d, Js.or_elseZ (Some 0%Z) d = Js.or_elseZ (Some d) d).
  { intros d. simpl. destruct (d =? 0)%Z; reflexivity. }
  split; [|split; [|split]].
  - unfold RiskManager.calculateLotSize. rewrite Hq.
    split; [|split].
    + simpl. destruct (Js.truthy _); reflexivity.
    + reflexivity.
    + simpl Js.or_else.
      destruct (Js.truthy (RiskManager.risk_maxRiskPerTrade cfg));
        (destruct (Js.Qlt_bool accountBalance (RiskManager.risk_minimumBalance cfg));
         [reflexivity|]);
        (destruct (Q.max_spec 0 (accountBalance * RiskManager.risk_maxRiskPerTrade cfg
                                 / currentPrice)) as [[H1 E1]|[H1 E1]];
         destruct (Q.max_spec 0
                     (Qmin (accountBalance * RiskManager.risk_maxRiskPerTrade cfg
                            / currentPrice)
                        (accountBalance * RiskManager.risk_maxRiskPerTrade cfg
                         / currentPrice))) as [[H2 E2]|[H2 E2]];
         rewrite ?Q.min_id in H2; rewrite E1, E2, ?Q.min_id;
         first [reflexivity | lra]).
  - unfold RiskManager.calculateStopLoss. rewrite Hq.
    split; [|split]; simpl; destruct (Js.truthy _); reflexivity.
  - unfold RiskManager.calculateTakeProfit. rewrite Hq.
    split; [|split]; simpl; destruct (Js.truthy _); reflexivity.
  - unfold RiskManager.validateCooldown. rewrite Hz.
    split; [|split]; simpl; destruct (_ =? 0)%Z; reflexivity.
Qed.

(** ** The position monitor *)

(** C8: when a price meets the stop-loss and the take-profit condition of a
    long position at once, the exit check answers stop_loss; the same holds
    for a short position with the comparisons inverted. *)
Theorem stop_loss_takes_precedence (position : Backtester.position) (currentPrice : Q) :
  (Backtester.pside position = Long ->
   (currentPrice <= Backtester.stopLossPrice position)%Q ->
   (Backtester.takeProfitPrice position <= currentPrice)%Q ->
   Backtester.action position currentPrice = Some Backtester.stop_loss)
  /\
  (Backtester.pside position = Short ->
   (Backtester.stopLossPrice position <= currentPrice)%Q ->
   (currentPrice <= Backtester.takeProfitPrice position)%Q ->
   Backtester.action position currentPrice = Some Backtester.stop_loss).
Proof.
  unfold Backtester.action. split; intros Hside Hstop _; rewrite Hside.
  - apply Qle_bool_iff in Hstop. rewrite Hstop. reflexivity.
  - apply Qle_bool_iff in Hstop. rewrite Hstop. reflexivity.
Qed.

Lemma stop_loss_takes_precedence_witness :
  Backtester.action crossed_long 100 = Some Backtester.stop_loss
  /\ Backtester.action crossed_short 100 = Some Backtester.stop_loss.
Proof.
  split.
  - apply (proj1 (stop_loss_takes_precedence crossed_long 100%Q)).
    + reflexivity.
    + vm_compute. discriminate.
    + vm_compute. discriminate.
  - apply (proj2 (stop_loss_takes_precedence crossed_short 100%Q)).
    + reflexivity.
    + vm_compute. discriminate.
    + vm_compute. discriminate.
Defined.

(** ** The simulated execution adapter *)

Section ExecuteTrade.
Import Backtester.
Local Open Scope Q_scope.

Variable now : nat -> Z.
Variable cfg : RiskManager.config.

Lemma lookup_init_entry_ne (s s' : string) (m : gmap string Q) :
  s <> s' -> init_entry s m !! s' = m !! s'.
Proof.
  intros Hne. unfold init_entry.
  destruct (m !! s) as [q|]; [destruct (Js.truthy q)|];
    try reflexivity; apply lookup_insert_ne; exact Hne.
Qed.

Lemma quantity_init_entry (s s' : string) (m : gmap string Q) :
  quantity (init_entry s m) s' == quantity m s'.
Proof.
  unfold quantity.
  destruct (decide (s = s')) as [<-|Hne].
  - unfold init_entry. destruct (m !! s) as [q|] eqn:E.
    + destruct (Js.truthy q) eqn:Et.
      * rewrite E. reflexivity.
      * rewrite lookup_insert_eq. simpl.
        unfold Js.truthy in Et. apply negb_false_iff, Qeq_bool_iff in Et.
        symmetry. exact Et.
    + rewrite lookup_insert_eq. reflexivity.
  - rewrite lookup_init_entry_ne by exact Hne. reflexivity.
Qed.

Lemma init_entry_nonneg (s : string) (m : gmap string Q) :
  (forall s' q, m !! s' = Some q -> 0 <= q) ->
  forall s' q, init_entry s m !! s' = Some q -> 0 <= q.
Proof.
  intros Hm s' q. unfold init_entry.
  destruct (m !! s) as [q0|]; [destruct (Js.truthy q0)|]; try apply Hm;
    (destruct (decide (s = s')) as [<-|Hne];
     [rewrite lookup_insert_eq; intros [= <-]; apply Qle_refl
     |rewrite lookup_insert_ne by exact Hne; apply Hm]).
Qed.

Lemma quantity_nonneg (m : gmap string Q) (s : string) :
  (forall s' q, m !! s' = Some q -> 0 <= q) -> 0 <= quantity m s.
Proof.
  intros Hm. unfold quantity. destruct (m !! s) as [q|] eqn:E; simpl.
  - exact (Hm _ _ E).
  - apply Qle_refl.
Qed.

Lemma Qle_bool_false (x y : Q) : Qle_bool x y = false <-> y < x.
Proof.
  split.
  - intros H. apply Qnot_le_lt. intros Hle. apply Qle_bool_iff in Hle. congruence.
  - intros H. destruct (Qle_bool x y) eqn:E; [|reflexivity].
    apply Qle_bool_iff in E. exfalso. exact (Qlt_not_le _ _ H E).
Qed.

Lemma quantity_insert (s s' : string) (v : Q) (m : gmap string Q) :
  quantity (<[s := v]> m) s' = if decide (s = s') then v else quantity m s'.
Proof.
  unfold quantity. destruct (decide (s = s')) as [<-|Hne].
  - rewrite lookup_insert_eq. reflexivity.
  - rewrite lookup_insert_ne by exact Hne. reflexivity.
Qed.

(** Every call keeps the holdings and the positions in step. *)
Lemma executeTrade_holdings_match_positions st s side amount type price :
  holdings_match_positions st ->
  holdings_match_positions (snd (executeTrade now cfg st s side amount type price)).
Proof.
  intros Hm. unfold executeTrade.
  destruct (resolve_price price) as [p|]; [|exact Hm].
  set (a := resolve_amount cfg s amount p (currentBalance st)).
  destruct (Qle_bool a 0); [exact Hm|].
  assert (Hi : forall s', quantity (init_entry s (holdings st)) s'
                          == quantity (init_entry s (positions st)) s').
  { intros s'. rewrite !quantity_init_entry. apply Hm. }
  assert (Hl : forall s', quantity (init_entry s (holdings st)) s'
                          == quantity (positions st) s').
  { intros s'. rewrite quantity_init_entry. apply Hm. }
  destruct side; simpl.
  - destruct (Js.Qlt_bool (currentBalance st) (a * p)); simpl; [exact Hl|].
    intros s'. simpl. rewrite !quantity_insert.
    destruct (decide (s = s')); [rewrite (Hi s); reflexivity|apply Hi].
  - destruct (Js.Qlt_bool (quantity (init_entry s (holdings st)) s) a) eqn:Hc;
      simpl; [exact Hl|].
    assert (Hc' : Js.Qlt_bool (quantity (init_entry s (positions st)) s) a = false).
    { apply Qlt_bool_false_iff. apply Qlt_bool_false_iff in Hc.
      rewrite <- (Hi s). exact Hc. }
    rewrite Hc'. simpl.
    intros s'. simpl. rewrite !quantity_insert.
    destruct (decide (s = s')); [rewrite (Hi s); reflexivity|apply Hi].
  - intros s'. simpl. apply Hi.
Qed.

Lemma after_calls_holdings_match_positions (calls : list trade_call) :
  forall st,
    holdings_match_positions st ->
    holdings_match_positions (after_calls now cfg calls st).
Proof.
  induction calls as [|c rest IH]; intros st Hm; simpl.
  - exact Hm.
  - apply IH, executeTrade_holdings_match_positions, Hm.
Qed.

(** A rejected buy or sell: the exact state after the call. *)
Lemma executeTrade_rejected st s side amount type price tradePrice :
  resolve_price price = Some tradePrice ->
  0 < resolve_amount cfg s amount tradePrice (currentBalance st) ->
  (side = Buy /\
   currentBalance st < resolve_amount cfg s amount tradePrice (currentBalance st) * tradePrice)
  \/ (side = Sell /\
      quantity (holdings st) s < resolve_amount cfg s amount tradePrice (currentBalance st)) ->
  executeTrade now cfg st s side amount type price
  = (None, set_holdings (init_entry s (holdings st)) st).
Proof.
  intros Hp Ha Hcheck. unfold executeTrade. rewrite Hp.
  apply Qle_bool_false in Ha. rewrite Ha.
  destruct Hcheck as [[-> Hlt]|[-> Hlt]]; simpl.
  - apply Qlt_bool_iff in Hlt. rewrite Hlt. reflexivity.
  - assert (Hq : Js.Qlt_bool (quantity (init_entry s (holdings st)) s)
                   (resolve_amount cfg s amount tradePrice (currentBalance st)) = true).
    { apply Qlt_bool_iff. rewrite quantity_init_entry. exact Hlt. }
    rewrite Hq. reflexivity.
Qed.

(** When the symbol already has a non-zero holdings entry, a rejected trade
    leaves the whole state as it was. *)
Lemma executeTrade_rejected_exact st s side amount type price tradePrice q :
  holdings st !! s = Some q -> ~ q == 0 ->
  resolve_price price = Some tradePrice ->
  0 < resolve_amount cfg s amount tradePrice (currentBalance st) ->
  (side = Buy /\
   currentBalance st < resolve_amount cfg s amount tradePrice (currentBalance st) * tradePrice)
  \/ (side = Sell /\
      quantity (holdings st) s < resolve_amount cfg s amount tradePrice (currentBalance st)) ->
  executeTrade now cfg st s side amount type price = (None, st).
Proof.
  intros Hq Hnz Hp Ha Hcheck.
  rewrite (executeTrade_rejected st s side amount type price tradePrice Hp Ha Hcheck).
  unfold init_entry. rewrite Hq. apply truthy_iff in Hnz. rewrite Hnz.
  destruct st; reflexivity.
Qed.

(** X25: a buy at a known price, of a positive amount the cash covers, is
    filled: the order is appended to the log with the id made of the clock
    reading and the previous log length, the holdings grow by the amount, and
    the cash is debited by amount times price exactly; the fee of 0.1% is
    recorded on the order and never charged. *)
Lemma executeTrade_buy_filled st s amount type price tradePrice :
  resolve_price price = Some tradePrice ->
  0 < resolve_amount cfg s amount tradePrice (currentBalance st) ->
  resolve_amount cfg s amount tradePrice (currentBalance st) * tradePrice
  <= currentBalance st ->
  exists o,
    fst (executeTrade now cfg st s Buy amount type price) = Some o
    /\ Backtester.amount o = resolve_amount cfg s amount tradePrice (currentBalance st)
    /\ Backtester.price o = tradePrice
    /\ Backtester.fee o = Backtester.amount o * Backtester.price o * 0.001
    /\ id o = (now (clockReads st), length (tradeLog st))
    /\ tradeLog (snd (executeTrade now cfg st s Buy amount type price))
       = tradeLog st ++ [o]
    /\ currentBalance (snd (executeTrade now cfg st s Buy amount type price))
       = currentBalance st - Backtester.amount o * Backtester.price o
    /\ quantity (holdings (snd (executeTrade now cfg st s Buy amount type price))) s
       == quantity (holdings st) s + Backtester.amount o.
Proof.
  intros Hp Ha Hcash. unfold executeTrade. rewrite Hp.
  apply Qle_bool_false in Ha. rewrite Ha. simpl.
  apply Qlt_bool_false_iff in Hcash. rewrite Hcash. simpl.
  eexists. repeat split; simpl.
  rewrite quantity_insert. destruct (decide (s = s)) as [_|Hne]; [|contradiction].
  rewrite quantity_init_entry. reflexivity.
Qed.

(** A filled sell: the cash balance is credited by the notional twice, once
    with the holdings and once with the positions. *)
Lemma executeTrade_sell_filled st s amount type price tradePrice :
  resolve_price price = Some tradePrice ->
  0 < resolve_amount cfg s amount tradePrice (currentBalance st) ->
  resolve_amount cfg s amount tradePrice (currentBalance st) <= quantity (holdings st) s ->
  resolve_amount cfg s amount tradePrice (currentBalance st) <= quantity (positions st) s ->
  exists o,
    fst (executeTrade now cfg st s Sell amount type price) = Some o
    /\ Backtester.amount o = resolve_amount cfg s amount tradePrice (currentBalance st)
    /\ Backtester.price o = tradePrice
    /\ Backtester.fee o = Backtester.amount o * Backtester.price o * 0.001
    /\ id o = (now (clockReads st), length (tradeLog st))
    /\ tradeLog (snd (executeTrade now cfg st s Sell amount type price))
       = tradeLog st ++ [o]
    /\ currentBalance (snd (executeTrade now cfg st s Sell amount type price))
       = currentBalance st + Backtester.amount o * Backtester.price o + Backtester.amount o * Backtester.price o
    /\ quantity (holdings (snd (executeTrade now cfg st s Sell amount type price))) s
       == quantity (holdings st) s - Backtester.amount o.
Proof.
  intros Hp Ha Hh Hpos. unfold executeTrade. rewrite Hp.
  apply Qle_bool_false in Ha. rewrite Ha. simpl.
  assert (Hh' : Js.Qlt_bool (quantity (init_entry s (holdings st)) s)
                  (resolve_amount cfg s amount tradePrice (currentBalance st)) = false).
  { apply Qlt_bool_false_iff. rewrite quantity_init_entry. exact Hh. }
  assert (Hp' : Js.Qlt_bool (quantity (init_entry s (positions st)) s)
                  (resolve_amount cfg s amount tradePrice (currentBalance st)) = false).
  { apply Qlt_bool_false_iff. rewrite quantity_init_entry. exact Hpos. }
  rewrite Hh'. simpl. rewrite Hp'. simpl.
  eexists. repeat split; simpl.
  rewrite quantity_insert. destruct (decide (s = s)) as [_|Hne]; [|contradiction].
  rewrite quantity_init_entry. reflexivity.
Qed.

End ExecuteTrade.

Lemma initial_holdings_match_positions (data : list Backtester.candle) :
  holdings_match_positions (Backtester.initial data).
Proof. intros s. reflexivity. Qed.

(** C1 (as stated): a buy the cash balance cannot pay for returns [null],
    yet the holdings map of the fresh service gains the entry
    ["BTC/USD" := 0], so the state is not exactly the one before the call. *)
Lemma rejected_buy_changes_holdings_map_counterexample :
  (Backtester.currentBalance (Backtester.initial []) < 1 * 20000)%Q
  /\ fst (Backtester.executeTrade (frozen_clock 0) test_config (Backtester.initial [])
            "BTC/USD" Buy (Some 1%Q) Market (Some 20000%Q)) = None
  /\ ~ rejected_without_change (frozen_clock 0) test_config (Backtester.initial [])
         "BTC/USD" Buy (Some 1%Q) Market (Some 20000%Q).
Proof.
  split; [reflexivity|]. split; [reflexivity|].
  unfold rejected_without_change. intros (_ & _ & H & _).
  apply (f_equal (fun h => h !! "BTC/USD")) in H.
  vm_compute in H. discriminate H.
Qed.

(** C1 (amended): in a state where the holdings and the positions of the
    symbol agree (every state the service reaches by its own calls), when the
    resolved amount is positive and the check fails (a buy with cash below
    amount*price, or a sell with holdings or position of the symbol below
    amount), executeTrade returns null and leaves the cash balance, the trade
    log, the positions and the quantity held of every symbol as they were;
    the holdings map differs at most by the entry of the traded symbol, which
    is initialised to 0 when it was missing or zero. *)
Theorem executeTrade_rejection_keeps_ledger (now : nat -> Z) (cfg : RiskManager.config)
    (st : Backtester.backtester) (s : string) (side : Side) (amount : option Q)
    (type : OrderType) (price : option Q) (tradePrice : Q) :
  (Backtester.quantity (Backtester.holdings st) s
   == Backtester.quantity (Backtester.positions st) s)%Q ->
  Backtester.resolve_price price = Some tradePrice ->
  (0 < Backtester.resolve_amount cfg s amount tradePrice (Backtester.currentBalance st))%Q ->
  (side = Buy /\
   (Backtester.currentBalance st
    < Backtester.resolve_amount cfg s amount tradePrice (Backtester.currentBalance st)
      * tradePrice)%Q)
  \/ (side = Sell /\
      ((Backtester.quantity (Backtester.holdings st) s
        < Backtester.resolve_amount cfg s amount tradePrice (Backtester.currentBalance st))%Q
       \/ (Backtester.quantity (Backtester.positions st) s
           < Backtester.resolve_amount cfg s amount tradePrice
               (Backtester.currentBalance st))%Q)) ->
  let r := Backtester.executeTrade now cfg st s side amount type price in
  fst r = None
  /\ Backtester.currentBalance (snd r) = Backtester.currentBalance st
  /\ Backtester.tradeLog (snd r) = Backtester.tradeLog st
  /\ Backtester.positions (snd r) = Backtester.positions st
  /\ Backtester.currentPositions (snd r) = Backtester.currentPositions st
  /\ Backtester.equityCurve (snd r) = Backtester.equityCurve st
  /\ (forall s', (Backtester.quantity (Backtester.holdings (snd r)) s'
                  == Backtester.quantity (Backtester.holdings st) s')%Q)
  /\ (forall s', s' <> s ->
        Backtester.holdings (snd r) !! s' = Backtester.holdings st !! s')
  /\ Backtester.holdings (snd r) = Backtester.init_entry s (Backtester.holdings st).
Proof.
  intros Hagree Hp Ha Hcheck r. subst r.
  assert (Hcheck' :
    (side = Buy /\
     (Backtester.currentBalance st
      < Backtester.resolve_amount cfg s amount tradePrice (Backtester.currentBalance st)
        * tradePrice)%Q)
    \/ (side = Sell /\
        (Backtester.quantity (Backtester.holdings st) s
         < Backtester.resolve_amount cfg s amount tradePrice
             (Backtester.currentBalance st))%Q)).
  { destruct Hcheck as [Hbuy|[Hside [Hh|Hpos]]].
    - left. exact Hbuy.
    - right. split; assumption.
    - right. split; [exact Hside|]. rewrite Hagree. exact Hpos. }
  rewrite (executeTrade_rejected now cfg st s side amount type price tradePrice Hp Ha Hcheck').
  simpl. repeat split.
  - intros s'. apply quantity_init_entry.
  - intros s' Hne. apply lookup_init_entry_ne. congruence.
Qed.

Lemma executeTrade_rejection_keeps_ledger_witness :
  let r := Backtester.executeTrade (frozen_clock 0) test_config (Backtester.initial [])
             "BTC/USD" Buy (Some 1%Q) Market (Some 20000%Q) in
  fst r = None
  /\ Backtester.currentBalance (snd r) = Backtester.initialCapital
  /\ Backtester.tradeLog (snd r) = [].
Proof.
  pose proof (executeTrade_rejection_keeps_ledger (frozen_clock 0) test_config
                (Backtester.initial []) "BTC/USD" Buy (Some 1%Q) Market
                (Some 20000%Q) 20000%Q eq_refl eq_refl eq_refl
                (or_introl (conj eq_refl eq_refl))) as H.
  destruct H as (H1 & H2 & H3 & _).
  split; [exact H1|]. split; [exact H2|exact H3].
Defined.

(** With holdings of 1 and a position of 0 for the symbol, which the service
    does not reach by its own calls, a sell of 1 passes the holdings check,
    credits the cash balance and debits the holdings, and is then rejected
    by the position check. *)
Lemma sell_rejected_by_position_check_after_credit :
  let st := Backtester.set_holdings (<["BTC/USD" := 1%Q]> ∅) (Backtester.initial []) in
  let r := Backtester.executeTrade (frozen_clock 0) test_config st
             "BTC/USD" Sell (Some 1%Q) Market (Some 100%Q) in
  fst r = None
  /\ (Backtester.currentBalance (snd r) == Backtester.currentBalance st + 100)%Q
  /\ (Backtester.quantity (Backtester.holdings (snd r)) "BTC/USD" == 0)%Q.
Proof. cbv zeta. repeat split; vm_compute; reflexivity. Qed.

(** C2: on the fresh service a buy of 1 at 100 followed by a sell of 1 at 100
    both fill; the buy debits the cash balance by 100, the sell credits it by
    200 (the notional is added once with the holdings and once more with the
    positions), so the run ends with 10100 instead of the 10000 it started
    with. *)
Theorem sell_credits_cash_twice :
  let bought := Backtester.executeTrade (frozen_clock 0) test_config
                  (Backtester.initial []) "BTC/USD" Buy (Some 1%Q) Market (Some 100%Q) in
  let sold := Backtester.executeTrade (frozen_clock 0) test_config
                (snd bought) "BTC/USD" Sell (Some 1%Q) Market (Some 100%Q) in
  (Backtester.currentBalance (snd bought) == 10000 - 100)%Q
  /\ (exists o, fst sold = Some o
                /\ (Backtester.amount o * Backtester.price o == 100)%Q
                /\ (Backtester.fee o == 0.001 * 100)%Q)
  /\ (Backtester.currentBalance (snd sold)
      == Backtester.currentBalance (snd bought) + 2 * 100)%Q
  /\ (Backtester.quantity (Backtester.holdings (snd sold)) "BTC/USD" == 0)%Q.
Proof.
  cbv zeta. split; [vm_compute; reflexivity|]. split.
  - eexists. split; [vm_compute; reflexivity|].
    split; vm_compute; reflexivity.
  - split; vm_compute; reflexivity.
Qed.

Section LedgerInvariant.
Import Backtester.
Local Open Scope Q_scope.

Variable now : nat -> Z.
Variable cfg : RiskManager.config.

Lemma insert_nonneg (s : string) (v : Q) (m : gmap string Q) :
  0 <= v ->
  (forall s' q, m !! s' = Some q -> 0 <= q) ->
  forall s' q, <[s := v]> m !! s' = Some q -> 0 <= q.
Proof.
  intros Hv Hm s' q.
  destruct (decide (s = s')) as [<-|Hne].
  - rewrite lookup_insert_eq. intros [= <-]. exact Hv.
  - rewrite lookup_insert_ne by exact Hne. apply Hm.
Qed.

Lemma resolve_price_nonneg (price : option Q) (p : Q) :
  (forall p', price = Some p' -> 0 <= p') ->
  resolve_price price = Some p -> 0 <= p.
Proof.
  intros Hprice. unfold resolve_price.
  destruct price as [p'|]; [|discriminate].
  destruct (Js.truthy p'); [|discriminate].
  intros [= <-]. apply Hprice. reflexivity.
Qed.

(** One call keeps the cash balance and every holding non-negative. *)
Lemma executeTrade_nonneg st s side amount type price :
  (forall p, price = Some p -> 0 <= p) ->
  ledger_nonneg st ->
  ledger_nonneg (snd (executeTrade now cfg st s side amount type price)).
Proof.
  intros Hprice [Hcash Hhold]. unfold executeTrade.
  destruct (resolve_price price) as [p|] eqn:Hp; [|split; assumption].
  pose proof (resolve_price_nonneg _ _ Hprice Hp) as Hp0.
  set (a := resolve_amount cfg s amount p (currentBalance st)).
  destruct (Qle_bool a 0) eqn:Ha; [split; assumption|].
  apply Qle_bool_false in Ha.
  assert (Hcost : 0 <= a * p).
  { apply Qmult_le_0_compat; [apply Qlt_le_weak, Ha|exact Hp0]. }
  pose proof (init_entry_nonneg s _ Hhold) as Hinit.
  pose proof (quantity_nonneg _ s Hinit) as Hq.
  destruct side; simpl.
  - destruct (Js.Qlt_bool (currentBalance st) (a * p)) eqn:Hc; simpl.
    + split; assumption.
    + apply Qlt_bool_false_iff in Hc. split; simpl.
      * lra.
      * apply insert_nonneg; [|exact Hinit]. lra.
  - destruct (Js.Qlt_bool (quantity (init_entry s (holdings st)) s) a) eqn:Hc; simpl.
    + split; assumption.
    + apply Qlt_bool_false_iff in Hc.
      destruct (Js.Qlt_bool (quantity (init_entry s (positions st)) s) a); simpl.
      * split; simpl; [lra|]. apply insert_nonneg; [lra|exact Hinit].
      * split; simpl; [lra|]. apply insert_nonneg; [lra|exact Hinit].
  - split; assumption.
Qed.

Lemma after_calls_nonneg (calls : list trade_call) :
  forall st,
    Forall price_nonneg calls ->
    ledger_nonneg st ->
    ledger_nonneg (after_calls now cfg calls st).
Proof.
  induction calls as [|c rest IH]; intros st Hcalls Hst; simpl.
  - exact Hst.
  - inversion Hcalls as [|? ? Hc Hrest]; subst.
    apply IH; [exact Hrest|].
    apply executeTrade_nonneg; [exact Hc|exact Hst].
Qed.

End LedgerInvariant.

Section PaperLedger.
Import PaperTrader.
Local Open Scope Q_scope.

Lemma read_tracked (b : gmap string (option Q)) (asset : string) :
  numbers_nonneg b -> is_Some (b !! asset) ->
  exists q, read b asset = Some q /\ 0 <= q.
Proof.
  intros Hb [v Hv]. unfold read. rewrite Hv. simpl. exact (Hb _ _ Hv).
Qed.

Lemma insert_numbers_nonneg (b : gmap string (option Q)) (asset : string) (q : Q) :
  0 <= q -> numbers_nonneg b -> numbers_nonneg (<[asset := Some q]> b).
Proof.
  intros Hq Hb a v.
  destruct (decide (asset = a)) as [<-|Hne].
  - rewrite lookup_insert_eq. intros [= <-]. exists q. split; [reflexivity|exact Hq].
  - rewrite lookup_insert_ne by exact Hne. apply Hb.
Qed.

Lemma insert_tracked (b : gmap string (option Q)) (asset a : string) (v : option Q) :
  is_Some (b !! a) -> is_Some (<[asset := v]> b !! a).
Proof.
  intros Ha. destruct (decide (asset = a)) as [<-|Hne].
  - rewrite lookup_insert_eq. eexists. reflexivity.
  - rewrite lookup_insert_ne by exact Hne. exact Ha.
Qed.

Lemma apply_buy_nonneg base quote amount cost b b2 :
  is_Some (b !! base) -> is_Some (b !! quote) ->
  0 <= amount -> numbers_nonneg b ->
  apply_buy base quote amount cost b = Some b2 ->
  numbers_nonneg b2 /\ forall a, is_Some (b !! a) -> is_Some (b2 !! a).
Proof.
  intros Hbase Hquote Hamt Hb. unfold apply_buy.
  destruct (read_tracked b quote Hb Hquote) as (qq & Hqq & Hqq0).
  rewrite Hqq. simpl.
  destruct (Js.Qlt_bool qq cost) eqn:Hc; [discriminate|].
  apply Qlt_bool_false_iff in Hc.
  assert (H1 : numbers_nonneg (<[quote := Some (qq - cost)]> b)).
  { apply insert_numbers_nonneg; [lra|exact Hb]. }
  destruct (read_tracked _ base H1 (insert_tracked _ quote _ _ Hbase))
    as (qb & Hqb & Hqb0).
  rewrite Hqb. simpl. intros [= <-]. split.
  - apply insert_numbers_nonneg; [lra|exact H1].
  - intros a Ha. apply insert_tracked, insert_tracked, Ha.
Qed.

Lemma apply_sell_nonneg base quote amount cost b b2 :
  is_Some (b !! base) -> is_Some (b !! quote) ->
  0 <= cost -> numbers_nonneg b ->
  apply_sell base quote amount cost b = Some b2 ->
  numbers_nonneg b2 /\ forall a, is_Some (b !! a) -> is_Some (b2 !! a).
Proof.
  intros Hbase Hquote Hcost Hb. unfold apply_sell.
  destruct (read_tracked b quote Hb Hquote) as (qq & Hqq & Hqq0).
  destruct (read_tracked b base Hb Hbase) as (qb & Hqb & Hqb0).
  rewrite Hqb, Hqq. simpl.
  destruct (Js.Qlt_bool qb amount) eqn:Hc; [discriminate|].
  apply Qlt_bool_false_iff in Hc.
  assert (H1 : numbers_nonneg (<[quote := Some (qq + cost)]> b)).
  { apply insert_numbers_nonneg; [lra|exact Hb]. }
  intros [= <-]. split.
  - destruct (decide (quote = base)) as [Heq|Hne].
    + unfold read at 1. rewrite Heq, lookup_insert_eq. simpl.
      apply insert_numbers_nonneg; [|rewrite <- Heq; exact H1].
      rewrite Heq in Hqq. rewrite Hqq in Hqb. injection Hqb as <-. lra.
    + unfold read at 1. rewrite lookup_insert_ne by exact Hne.
      fold (read b base). rewrite Hqb. simpl.
      apply insert_numbers_nonneg; [lra|exact H1].
  - intros a Ha. apply insert_tracked, insert_tracked, Ha.
Qed.

(** A call on tracked assets with non-negative amount and prices keeps every
    balance a non-negative number, and keeps every tracked asset tracked. *)
Lemma paper_step_nonneg (st : paper) (c : paper_call) :
  paper_call_ok (currentBalances st) c ->
  paper_nonneg st ->
  paper_nonneg (paper_step st c)
  /\ forall a, is_Some (currentBalances st !! a) ->
               is_Some (currentBalances (paper_step st c) !! a).
Proof.
  intros (Hbase & Hquote & Hamt & Hlast & Hprice) Hst.
  unfold paper_step, executeTrade.
  destruct (match pc_type c with
            | Market => Some (pc_last c)
            | Limit => Backtester.resolve_price (pc_price c)
            end) as [p|] eqn:Hp; [|split; [exact Hst|auto]].
  assert (Hp0 : 0 <= p).
  { destruct (pc_type c).
    - injection Hp as <-. exact Hlast.
    - exact (resolve_price_nonneg _ _ Hprice Hp). }
  assert (Hcost : 0 <= pc_amount c * p) by (apply Qmult_le_0_compat; assumption).
  pose proof (apply_buy_nonneg (pc_base c) (pc_quote c) (pc_amount c)
                (pc_amount c * p) (currentBalances st)) as Hbuy.
  pose proof (apply_sell_nonneg (pc_base c) (pc_quote c) (pc_amount c)
                (pc_amount c * p) (currentBalances st)) as Hsell.
  destruct (pc_side c).
  - destruct (apply_buy _ _ _ _ _) as [b2|]; simpl; [|split; [exact Hst|auto]].
    exact (Hbuy b2 Hbase Hquote Hamt Hst eq_refl).
  - destruct (apply_sell _ _ _ _ _) as [b2|]; simpl; [|split; [exact Hst|auto]].
    exact (Hsell b2 Hbase Hquote Hcost Hst eq_refl).
  - destruct (apply_sell _ _ _ _ _) as [b2|]; simpl; [|split; [exact Hst|auto]].
    exact (Hsell b2 Hbase Hquote Hcost Hst eq_refl).
Qed.

(** The calls of a sequence trade assets the starting ledger holds. *)
Lemma after_paper_calls_nonneg (calls : list paper_call) :
  forall st,
    Forall (paper_call_ok (currentBalances st)) calls ->
    paper_nonneg st ->
    paper_nonneg (after_paper_calls calls st).
Proof.
  unfold after_paper_calls.
  induction calls as [|c rest IH]; intros st Hcalls Hst; simpl.
  - exact Hst.
  - inversion Hcalls as [|? ? Hc Hrest]; subst.
    destruct (paper_step_nonneg st c Hc Hst) as [Hst' Hdom].
    apply IH; [|exact Hst'].
    eapply Forall_impl; [exact Hrest|].
    intros c' (Hb & Hq & Hrestok). split; [|split]; auto.
Qed.

End PaperLedger.

Lemma initial_ledger_nonneg (data : list Backtester.candle) :
  ledger_nonneg (Backtester.initial data).
Proof.
  split; simpl.
  - vm_compute. discriminate.
  - intros s q H. rewrite lookup_empty in H. discriminate H.
Qed.

Lemma initial_paper_nonneg : paper_nonneg PaperTrader.initializePaperTrader.
Proof.
  intros asset v. unfold PaperTrader.initializePaperTrader, PaperTrader.initialBalance.
  simpl. intros H.
  apply lookup_insert_Some in H as [[_ <-]|[_ H]];
    [eexists; split; [reflexivity|vm_compute; discriminate]|].
  apply lookup_insert_Some in H as [[_ <-]|[_ H]];
    [eexists; split; [reflexivity|vm_compute; discriminate]|].
  apply lookup_insert_Some in H as [[_ <-]|[_ H]];
    [eexists; split; [reflexivity|vm_compute; discriminate]|].
  rewrite lookup_empty in H. discriminate H.
Qed.

(** C9 (as stated): from the non-negative initial ledgers, a backtest sell at
    the explicit price -20000 drives the cash balance to -30100, and a paper
    buy of the amount -1 leaves a BTC balance of -1. *)
Lemma negative_inputs_break_nonneg_counterexample :
  (ledger_nonneg (Backtester.initial [])
   /\ ~ ledger_nonneg (after_calls (frozen_clock 0) test_config negative_price_calls
                         (Backtester.initial [])))
  /\ (paper_nonneg PaperTrader.initializePaperTrader
      /\ ~ paper_nonneg (after_paper_calls [negative_amount_call]
                           PaperTrader.initializePaperTrader)).
Proof.
  split; split.
  - apply initial_ledger_nonneg.
  - intros [H _]. vm_compute in H. apply H. reflexivity.
  - apply initial_paper_nonneg.
  - intros H.
    assert (Hbtc : PaperTrader.currentBalances
                     (after_paper_calls [negative_amount_call]
                        PaperTrader.initializePaperTrader) !! "BTC"
                   = Some (Some (-1)%Q)) by (vm_compute; reflexivity).
    destruct (H _ _ Hbtc) as (q & [= <-] & Hq).
    vm_compute in Hq. apply Hq. reflexivity.
Qed.

(** C9 (amended): starting from a non-negative cash balance and
    non-negative holdings, every sequence of backtest executeTrade calls
    whose explicit prices are not negative reaches only states with
    non-negative cash and holdings; and every sequence of paper executeTrade
    calls on assets the ledger holds, with amounts and prices that are not
    negative, reaches only states in which every balance is a non-negative
    number. *)
Theorem ledgers_stay_nonneg :
  (forall (now : nat -> Z) (cfg : RiskManager.config) (calls : list trade_call)
          (st : Backtester.backtester),
      Forall price_nonneg calls ->
      ledger_nonneg st ->
      ledger_nonneg (after_calls now cfg calls st))
  /\
  (forall (calls : list paper_call) (st : PaperTrader.paper),
      Forall (paper_call_ok (PaperTrader.currentBalances st)) calls ->
      paper_nonneg st ->
      paper_nonneg (after_paper_calls calls st)).
Proof.
  split.
  - intros now cfg calls st. apply after_calls_nonneg.
  - intros calls st. apply after_paper_calls_nonneg.
Qed.

Lemma ledgers_stay_nonneg_witness :
  ledger_nonneg (after_calls (frozen_clock 0) test_config round_trip_calls
                   (Backtester.initial []))
  /\ paper_nonneg (after_paper_calls paper_round_trip PaperTrader.initializePaperTrader).
Proof.
  split.
  - apply (proj1 ledgers_stay_nonneg).
    + repeat constructor; intros p [= <-]; vm_compute; discriminate.
    + apply initial_ledger_nonneg.
  - apply (proj2 ledgers_stay_nonneg).
    + repeat constructor; simpl;
        try (eexists; vm_compute; reflexivity);
        try (vm_compute; discriminate);
        try (intros p [= <-]; vm_compute; discriminate);
        try discriminate.
    + apply initial_paper_nonneg.
Defined.

(** ** The replay loop *)

Section Replay.
Import Backtester.
Local Open Scope Q_scope.

Variable now : nat -> Z.
Variable cfg : RiskManager.config.
Variable dflt : position_defaults.

(** The fields the trading service never writes. *)
Lemma executeTrade_frame st s side amount type price :
  equityCurve (snd (executeTrade now cfg st s side amount type price)) = equityCurve st
  /\ backtestData (snd (executeTrade now cfg st s side amount type price)) = backtestData st.
Proof.
  unfold executeTrade, apply_holdings, apply_positions.
  repeat case_match; simplify_eq; simpl; split; reflexivity.
Qed.

Lemma managePosition_frame st s side entry amount rc :
  equityCurve (managePosition dflt st s side entry amount rc) = equityCurve st
  /\ backtestData (managePosition dflt st s side entry amount rc) = backtestData st.
Proof. unfold managePosition. destruct side; split; reflexivity. Qed.

Lemma exec_frame {A : Type} (p : prog A) :
  forall st,
    equityCurve (snd (exec now cfg dflt p st)) = equityCurve st
    /\ backtestData (snd (exec now cfg dflt p st)) = backtestData st.
Proof.
  induction p as [a|s side amount type price k IH|s side entry amount rc k IH];
    intros st; simpl.
  - split; reflexivity.
  - destruct (executeTrade now cfg st s side amount type price) as [r st'] eqn:E.
    pose proof (executeTrade_frame st s side amount type price) as [H1 H2].
    rewrite E in H1, H2. simpl in H1, H2.
    destruct (IH r st') as [H3 H4]. rewrite H3, H4. split; assumption.
  - destruct (IH (managePosition dflt st s side entry amount rc)) as [H1 H2].
    destruct (managePosition_frame st s side entry amount rc) as [H3 H4].
    rewrite H1, H2. split; assumption.
Qed.

Lemma monitorAndExitPositions_frame {T : Type} (strat : strategy T) st ss s currentPrice :
  equityCurve (fst (monitorAndExitPositions now cfg strat st ss s currentPrice))
  = equityCurve st
  /\ backtestData (fst (monitorAndExitPositions now cfg strat st ss s currentPrice))
     = backtestData st.
Proof.
  unfold monitorAndExitPositions.
  destruct (currentPositions st !! s) as [position|]; [|split; reflexivity].
  destruct (action position currentPrice); [|split; reflexivity].
  match goal with
  | |- context [executeTrade now cfg st s ?sd ?a Market ?p] =>
      pose proof (executeTrade_frame st s sd a Market p) as [H1 H2];
      destruct (executeTrade now cfg st s sd a Market p) as [r st1]
  end.
  simpl in *. split; assumption.
Qed.

(** The loop appends one point per remaining candle, in order. *)
Lemma replay_equityCurve {T : Type} (strat : strategy T) (todo : list candle) :
  forall i st ss,
  exists points,
    equityCurve (fst (replay now cfg dflt strat todo i st ss)) = equityCurve st ++ points
    /\ map ep_timestamp points = map timestamp todo.
Proof.
  induction todo as [|c rest IH]; intros i st ss; simpl.
  - exists []. rewrite app_nil_r. split; reflexivity.
  - destruct (monitorAndExitPositions now cfg strat st ss (strategy_symbol strat) (close c))
      as [st1 ss1] eqn:Em.
    destruct (exec now cfg dflt (run strat ss1 c (firstn (S i) (backtestData st))) st1)
      as [ss2 st2] eqn:Ee.
    match goal with
    | |- context [replay now cfg dflt strat rest (S i) ?st3 ss2] =>
        destruct (IH (S i) st3 ss2) as (points & Hc & Ht)
    end.
    pose proof (monitorAndExitPositions_frame strat st ss (strategy_symbol strat) (close c))
      as [Hm _].
    rewrite Em in Hm. simpl in Hm.
    pose proof (exec_frame (run strat ss1 c (firstn (S i) (backtestData st))) st1)
      as [He _].
    rewrite Ee in He. simpl in He.
    eexists ({| ep_timestamp := timestamp c; balance := currentBalance st2 |} :: points).
    split.
    + rewrite Hc. simpl. rewrite He, Hm, <- app_assoc. reflexivity.
    + simpl. rewrite Ht. reflexivity.
Qed.

End Replay.

(** C4 (as stated): replaying one candle with a strategy that never trades
    leaves an equity curve of two points. *)
Lemma one_candle_two_points_counterexample :
  ~ curve_length_is_candle_count (frozen_clock 0) test_config test_defaults
      idle_strategy (Backtester.initial [flat_candle 1000 100]) tt.
Proof.
  intros (st' & ss' & Hrun & Hlen).
  vm_compute in Hrun. injection Hrun as <- _.
  vm_compute in Hlen. discriminate Hlen.
Qed.

(** C4 (amended): for every non-empty candle sequence of length n,
    runBacktest finishes with an equity curve of n + 1 points: a first point
    that carries the first candle's timestamp and the initial capital,
    followed by one point per candle, in candle order, the i-th of them with
    the i-th candle's timestamp. *)
Theorem runBacktest_equity_curve {T : Type} (now : nat -> Z)
    (cfg : RiskManager.config) (dflt : Backtester.position_defaults)
    (strat : Backtester.strategy T) (st : Backtester.backtester) (ss : T)
    (first : Backtester.candle) (rest : list Backtester.candle) :
  Backtester.backtestData st = first :: rest ->
  exists st' ss' points,
    Backtester.runBacktest now cfg dflt strat st ss = Some (st', ss')
    /\ Backtester.equityCurve st'
       = {| Backtester.ep_timestamp := Backtester.timestamp first;
            Backtester.balance := Backtester.initialCapital |} :: points
    /\ map Backtester.ep_timestamp points
       = map Backtester.timestamp (Backtester.backtestData st)
    /\ length (Backtester.equityCurve st') = S (length (Backtester.backtestData st)).
Proof.
  intros Hdata. unfold Backtester.runBacktest. rewrite Hdata.
  set (st0 := Backtester.set_equityCurve _ _).
  destruct (Backtester.replay now cfg dflt strat (first :: rest) 0 st0 ss)
    as [st' ss'] eqn:E.
  destruct (replay_equityCurve now cfg dflt strat (first :: rest) 0 st0 ss)
    as (points & Hc & Ht).
  rewrite E in Hc. simpl in Hc.
  exists st', ss', points.
  split; [reflexivity|]. split; [exact Hc|]. split; [exact Ht|].
  rewrite Hc. simpl. f_equal.
  rewrite <- (length_map Backtester.ep_timestamp), Ht, length_map. reflexivity.
Qed.

Lemma runBacktest_equity_curve_witness :
  exists st' ss' points,
    Backtester.runBacktest (frozen_clock 0) test_config test_defaults buy_each_candle
      (Backtester.initial two_candles) tt = Some (st', ss')
    /\ Backtester.equityCurve st'
       = {| Backtester.ep_timestamp := 1000;
            Backtester.balance := Backtester.initialCapital |} :: points
    /\ map Backtester.ep_timestamp points = [1000%Z; 2000%Z]
    /\ length (Backtester.equityCurve st') = 3.
Proof.
  exact (runBacktest_equity_curve (frozen_clock 0) test_config test_defaults
           buy_each_candle (Backtester.initial two_candles) tt
           (flat_candle 1000 100) [flat_candle 2000 90] eq_refl).
Defined.

(** ** Two runs under different clocks *)

Section Determinism.
Import Backtester.
Local Open Scope Q_scope.

Variables now1 now2 : nat -> Z.
Variable cfg : RiskManager.config.
Variable dflt : position_defaults.

Lemma same_state_refl_but_log st1 st2 :
  same_state st1 st2 -> length (tradeLog st1) = length (tradeLog st2).
Proof. intros (_ & _ & H & _). exact (Forall2_length _ _ _ H). Qed.

Lemma executeTrade_same st1 st2 s side amount type price :
  same_state st1 st2 ->
  same_result (fst (executeTrade now1 cfg st1 s side amount type price))
              (fst (executeTrade now2 cfg st2 s side amount type price))
  /\ same_state (snd (executeTrade now1 cfg st1 s side amount type price))
                (snd (executeTrade now2 cfg st2 s side amount type price)).
Proof.
  intros Hs. pose proof (same_state_refl_but_log _ _ Hs) as Hlen.
  destruct st1 as [d1 b1 l1 e1 h1 p1 c1 n1], st2 as [d2 b2 l2 e2 h2 p2 c2 n2].
  destruct Hs as (Hd & Hb & Hl & He & Hh & Hp & Hc). simpl in *. subst.
  unfold executeTrade, apply_holdings, apply_positions. simpl.
  destruct (resolve_price price) as [tp|]; [|repeat split; simpl; auto].
  destruct (Qle_bool _ 0); [repeat split; simpl; auto|].
  destruct side; simpl.
  - destruct (Js.Qlt_bool b2 _); simpl; [repeat split; simpl; auto|].
    rewrite Hlen. repeat split; simpl; auto.
    apply Forall2_app; [exact Hl|]. repeat constructor; simpl; auto.
  - destruct (Js.Qlt_bool (quantity (init_entry s h2) s) _); simpl;
      [repeat split; simpl; auto|].
    destruct (Js.Qlt_bool (quantity (init_entry s p2) s) _); simpl;
      [repeat split; simpl; auto|].
    rewrite Hlen. repeat split; simpl; auto.
    apply Forall2_app; [exact Hl|]. repeat constructor; simpl; auto.
  - rewrite Hlen. repeat split; simpl; auto.
    apply Forall2_app; [exact Hl|]. repeat constructor; simpl; auto.
Qed.

Lemma managePosition_same st1 st2 s side entry amount rc :
  same_state st1 st2 ->
  same_state (managePosition dflt st1 s side entry amount rc)
             (managePosition dflt st2 s side entry amount rc).
Proof.
  intros (Hd & Hb & Hl & He & Hh & Hp & Hc).
  unfold managePosition. destruct side; repeat split; simpl; auto; rewrite Hc; reflexivity.
Qed.

Lemma exec_same {A : Type} (p1 p2 : prog A) :
  same_calls p1 p2 ->
  forall st1 st2,
    same_state st1 st2 ->
    fst (exec now1 cfg dflt p1 st1) = fst (exec now2 cfg dflt p2 st2)
    /\ same_state (snd (exec now1 cfg dflt p1 st1)) (snd (exec now2 cfg dflt p2 st2)).
Proof.
  induction 1 as [a|s side amount type price k1 k2 Hk IH
                 |s side entry amount rc k1 k2 Hk IH];
    intros st1 st2 Hs; simpl.
  - split; [reflexivity|exact Hs].
  - destruct (executeTrade_same st1 st2 s side amount type price Hs) as [Hr Hs'].
    destruct (executeTrade now1 cfg st1 s side amount type price) as [r1 st1'].
    destruct (executeTrade now2 cfg st2 s side amount type price) as [r2 st2'].
    simpl in Hr, Hs'. exact (IH r1 r2 Hr st1' st2' Hs').
  - apply IH, managePosition_same, Hs.
Qed.

Lemma monitorAndExitPositions_same {T : Type} (strat : strategy T) st1 st2 ss s currentPrice :
  same_state st1 st2 ->
  same_state (fst (monitorAndExitPositions now1 cfg strat st1 ss s currentPrice))
             (fst (monitorAndExitPositions now2 cfg strat st2 ss s currentPrice))
  /\ snd (monitorAndExitPositions now1 cfg strat st1 ss s currentPrice)
     = snd (monitorAndExitPositions now2 cfg strat st2 ss s currentPrice).
Proof.
  intros Hs. unfold monitorAndExitPositions.
  assert (Hc : currentPositions st1 = currentPositions st2) by apply Hs.
  rewrite Hc.
  destruct (currentPositions st2 !! s) as [position|]; [|split; [exact Hs|reflexivity]].
  destruct (action position currentPrice); [|split; [exact Hs|reflexivity]].
  match goal with
  | |- context [executeTrade now1 cfg st1 s ?sd ?a Market ?p] =>
      destruct (executeTrade_same st1 st2 s sd a Market p Hs) as [_ Hs'];
      destruct (executeTrade now1 cfg st1 s sd a Market p) as [r1 st1'];
      destruct (executeTrade now2 cfg st2 s sd a Market p) as [r2 st2']
  end.
  simpl in *. split; [|reflexivity].
  destruct Hs' as (Hd & Hb & Hl & He & Hh & Hp & Hc').
  repeat split; simpl; auto. rewrite Hc'. reflexivity.
Qed.

Lemma replay_same {T : Type} (strat : strategy T) (todo : list candle) :
  clock_blind strat ->
  forall i st1 st2 ss,
    same_state st1 st2 ->
    same_state (fst (replay now1 cfg dflt strat todo i st1 ss))
               (fst (replay now2 cfg dflt strat todo i st2 ss))
    /\ snd (replay now1 cfg dflt strat todo i st1 ss)
       = snd (replay now2 cfg dflt strat todo i st2 ss).
Proof.
  intros Hblind.
  induction todo as [|c rest IH]; intros i st1 st2 ss Hs; simpl.
  - split; [exact Hs|reflexivity].
  - destruct (monitorAndExitPositions_same strat st1 st2 ss (strategy_symbol strat)
                (close c) Hs) as [Hm Hss].
    destruct (monitorAndExitPositions now1 cfg strat st1 ss _ _) as [st1a ss1a].
    destruct (monitorAndExitPositions now2 cfg strat st2 ss _ _) as [st2a ss2a].
    simpl in Hm, Hss. subst ss2a.
    assert (Hd : backtestData st1 = backtestData st2) by apply Hs.
    rewrite Hd.
    destruct (exec_same _ _ (Hblind ss1a c (firstn (S i) (backtestData st2)))
                st1a st2a Hm) as [Hr He].
    destruct (exec now1 cfg dflt _ st1a) as [ss1b st1b].
    destruct (exec now2 cfg dflt _ st2a) as [ss2b st2b].
    simpl in Hr, He. subst ss2b.
    apply IH.
    destruct He as (Hd' & Hb & Hl & Hq & Hh & Hp & Hc).
    repeat split; simpl; auto. rewrite Hb, Hq. reflexivity.
Qed.

End Determinism.

Lemma buy_each_candle_clock_blind : clock_blind buy_each_candle.
Proof.
  intros ss c h. simpl. constructor.
  intros [o1|] [o2|] Hr; simpl in Hr; try contradiction.
  - destruct Hr as (_ & _ & _ & _ & Ha & Hp & _).
    rewrite Ha, Hp. repeat constructor.
  - constructor.
Qed.

(** C3 (as stated): replaying two candles with a strategy that buys at every
    close, once with the wall clock at instant 0 and once at instant 5, gives
    trade logs that differ in the [datetime] of their orders, not only in
    the ids. *)
Lemma datetime_reads_wall_clock_counterexample :
  ~ runs_agree_but_ids (frozen_clock 0) (frozen_clock 5) test_config test_defaults
      buy_each_candle (Backtester.initial two_candles) tt.
Proof.
  intros (st1 & ss1 & st2 & ss2 & H1 & H2 & _ & Hlog).
  vm_compute in H1. injection H1 as <- _.
  vm_compute in H2. injection H2 as <- _.
  simpl in Hlog. inversion Hlog as [|o1 o2 l1 l2 Ho _]; subst.
  destruct Ho as (_ & _ & _ & _ & _ & _ & Hdt & _).
  simpl in Hdt. discriminate Hdt.
Qed.

(** C3 (amended): for every fixed non-empty candle sequence, configuration
    and strategy whose decisions do not depend on the id and datetime of the
    orders it gets back, two executions of the replay under any two wall
    clocks both finish, with identical equity curves, identical final
    strategy state and cash balance, and trade logs of the same length whose
    records agree pairwise in every field except the time part of the id and
    the datetime (the sequence number in the id agrees). *)
Theorem replay_agrees_up_to_clock_fields {T : Type} (now1 now2 : nat -> Z)
    (cfg : RiskManager.config) (dflt : Backtester.position_defaults)
    (strat : Backtester.strategy T) (st : Backtester.backtester) (ss : T)
    (first : Backtester.candle) (rest : list Backtester.candle) :
  clock_blind strat ->
  Backtester.backtestData st = first :: rest ->
  exists st1 st2 ss',
    Backtester.runBacktest now1 cfg dflt strat st ss = Some (st1, ss')
    /\ Backtester.runBacktest now2 cfg dflt strat st ss = Some (st2, ss')
    /\ Backtester.equityCurve st1 = Backtester.equityCurve st2
    /\ Backtester.currentBalance st1 = Backtester.currentBalance st2
    /\ Forall2 same_but_clock (Backtester.tradeLog st1) (Backtester.tradeLog st2).
Proof.
  intros Hblind Hdata. unfold Backtester.runBacktest. rewrite Hdata.
  set (st0 := Backtester.set_equityCurve _ _).
  assert (Hs0 : same_state st0 st0).
  { unfold same_state. repeat split. subst st0. simpl. constructor. }
  destruct (replay_same now1 now2 cfg dflt strat (first :: rest) Hblind 0 st0 st0 ss Hs0)
    as [Hs Hss].
  destruct (Backtester.replay now1 cfg dflt strat (first :: rest) 0 st0 ss) as [st1 ss1].
  destruct (Backtester.replay now2 cfg dflt strat (first :: rest) 0 st0 ss) as [st2 ss2].
  simpl in Hs, Hss. subst ss2.
  destruct Hs as (_ & Hb & Hl & He & _).
  exists st1, st2, ss1. repeat split; assumption.
Qed.

Lemma replay_agrees_up_to_clock_fields_witness :
  exists st1 st2 ss',
    Backtester.runBacktest (frozen_clock 0) test_config test_defaults buy_each_candle
      (Backtester.initial two_candles) tt = Some (st1, ss')
    /\ Backtester.runBacktest (frozen_clock 5) test_config test_defaults buy_each_candle
         (Backtester.initial two_candles) tt = Some (st2, ss')
    /\ Backtester.equityCurve st1 = Backtester.equityCurve st2
    /\ Backtester.currentBalance st1 = Backtester.currentBalance st2
    /\ Forall2 same_but_clock (Backtester.tradeLog st1) (Backtester.tradeLog st2).
Proof.
  exact (replay_agrees_up_to_clock_fields (frozen_clock 0) (frozen_clock 5)
           test_config test_defaults buy_each_candle (Backtester.initial two_candles) tt
           (flat_candle 1000 100) [flat_candle 2000 90]
           buy_each_candle_clock_blind eq_refl).
Defined.

(** ** The Sharpe ratio *)

Section Sharpe.
Import PerformanceMetrics.
Local Open Scope float_scope.

Lemma step_returns_length (rest : list float) :
  forall prev, length (step_returns prev rest) = length rest.
Proof.
  induction rest as [|b rest IH]; intros prev; simpl.
  - reflexivity.
  - rewrite IH. reflexivity.
Qed.

Lemma step_returns_lookup (rest : list float) :
  forall prev (i : nat) p c,
    (prev :: rest) !! i = Some p ->
    (prev :: rest) !! S i = Some c ->
    step_returns prev rest !! i = Some (step_return p c).
Proof.
  induction rest as [|b rest IH]; intros prev i p c Hp Hc.
  - simpl in Hc. rewrite lookup_nil in Hc. discriminate Hc.
  - destruct i as [|i]; simpl in *.
    + injection Hp as <-. injection Hc as <-.
      unfold step_return. destruct (prev =? 0); reflexivity.
    + apply (IH b i p c); assumption.
Qed.

End Sharpe.

(** C7 (as stated): on a flat curve of two points with a risk-free rate of
    0 every excess return is 0, so the deviation and the mean are 0; the
    specification then gives 0, the code gives +infinity. *)
Lemma flat_curve_sharpe_counterexample :
  PerformanceMetrics.calculateSharpeRatio [100%float; 100%float] 0%float
  <> sharpe_as_specified [100%float; 100%float] 0%float.
Proof.
  intros H.
  apply (f_equal (fun x => PrimFloat.eqb x 0%float)) in H.
  vm_compute in H. discriminate H.
Qed.

#[local] Set Warnings "-inexact-float".

(** On the curve 100, 110, 99 with the risk-free rate 0.005 the two returns
    are 0.1 and -0.1: the code divides their mean, 0, by the root mean square
    of the excess returns and answers 0, where the mean excess return over
    the standard deviation is negative. *)
Lemma sharpe_numerator_ignores_risk_free_rate :
  PerformanceMetrics.calculateSharpeRatio [100%float; 110%float; 99%float] 0.005%float
  = 0%float
  /\ PrimFloat.ltb (sharpe_as_specified [100%float; 110%float; 99%float] 0.005%float)
       0%float = true.
Proof. split; vm_compute; reflexivity. Qed.

(** C7 (amended): for every equity curve with at least 2 points,
    calculateSharpeRatio computes one return per step, (current - previous) /
    previous, or 0 when the previous balance is 0, and subtracts the
    risk-free rate from each to form the excess returns; when the deviation
    it computes from the excess returns is 0, the result is +infinity,
    whatever the mean. *)
Theorem calculateSharpeRatio_steps_and_zero_deviation
    (first second : float) (rest : list float) (riskFreeRate : float) :
  let equityCurve := first :: second :: rest in
  let returns := PerformanceMetrics.returns equityCurve in
  let excess := PerformanceMetrics.excessReturns riskFreeRate returns in
  S (length returns) = length equityCurve
  /\ (forall (i : nat) p c,
        equityCurve !! i = Some p -> equityCurve !! S i = Some c ->
        returns !! i = Some (step_return p c)
        /\ excess !! i = Some (step_return p c - riskFreeRate)%float)
  /\ (PrimFloat.eqb (PerformanceMetrics.stdDev excess) 0%float = true ->
      PerformanceMetrics.calculateSharpeRatio equityCurve riskFreeRate = infinity).
Proof.
  cbv zeta. split; [|split].
  - simpl. rewrite step_returns_length. reflexivity.
  - intros i p c Hp Hc.
    pose proof (step_returns_lookup (second :: rest) first i p c Hp Hc) as Hr.
    split; [exact Hr|].
    unfold PerformanceMetrics.excessReturns, PerformanceMetrics.returns.
    rewrite list_lookup_fmap, Hr. reflexivity.
  - intros Hdev. unfold PerformanceMetrics.calculateSharpeRatio.
    simpl length. simpl Nat.ltb. simpl Nat.eqb. cbv iota.
    rewrite Hdev. reflexivity.
Qed.

Lemma calculateSharpeRatio_steps_and_zero_deviation_witness :
  PerformanceMetrics.returns [100%float; 100%float] !! 0%nat = Some 0%float
  /\ PerformanceMetrics.calculateSharpeRatio [100%float; 100%float] 0%float = infinity.
Proof.
  pose proof (calculateSharpeRatio_steps_and_zero_deviation
                100%float 100%float [] 0%float) as (_ & Hsteps & Hzero).
  split.
  - exact (proj1 (Hsteps 0%nat 100%float 100%float eq_refl eq_refl)).
  - apply Hzero. vm_compute. reflexivity.
Defined.

(** ** Trade ids within a run *)

Section TradeIds.
Import Backtester.
Local Open Scope Q_scope.

Variable now : nat -> Z.
Variable cfg : RiskManager.config.
Variable dflt : position_defaults.

Lemma ids_sequential_snoc (log : list order) (o : order) :
  ids_sequential log -> snd (id o) = length log -> ids_sequential (log ++ [o]).
Proof.
  intros Hlog Ho i o' Hl.
  apply lookup_app_Some in Hl as [Hl|[Hge Hl]].
  - exact (Hlog i o' Hl).
  - destruct (i - length log)%nat as [|k] eqn:Ek; simpl in Hl; [|discriminate Hl].
    injection Hl as <-. rewrite Ho. lia.
Qed.

Lemma executeTrade_ids st s side amount type price :
  ids_sequential (tradeLog st) ->
  ids_sequential (tradeLog (snd (executeTrade now cfg st s side amount type price))).
Proof.
  intros Hlog. unfold executeTrade, apply_holdings, apply_positions.
  repeat case_match; simplify_eq; simpl; try exact Hlog;
    apply ids_sequential_snoc; simpl; auto.
Qed.

Lemma exec_ids {A : Type} (p : prog A) :
  forall st,
    ids_sequential (tradeLog st) ->
    ids_sequential (tradeLog (snd (exec now cfg dflt p st))).
Proof.
  induction p as [a|s side amount type price k IH|s side entry amount rc k IH];
    intros st Hlog; simpl.
  - exact Hlog.
  - pose proof (executeTrade_ids st s side amount type price Hlog) as H.
    destruct (executeTrade now cfg st s side amount type price) as [r st'].
    apply IH. exact H.
  - apply IH. unfold managePosition. destruct side; exact Hlog.
Qed.

Lemma monitorAndExitPositions_ids {T : Type} (strat : strategy T) st ss s currentPrice :
  ids_sequential (tradeLog st) ->
  ids_sequential
    (tradeLog (fst (monitorAndExitPositions now cfg strat st ss s currentPrice))).
Proof.
  intros Hlog. unfold monitorAndExitPositions.
  destruct (currentPositions st !! s) as [position|]; [|exact Hlog].
  destruct (action position currentPrice); [|exact Hlog].
  match goal with
  | |- context [executeTrade now cfg st s ?sd ?a Market ?p] =>
      pose proof (executeTrade_ids st s sd a Market p Hlog) as H;
      destruct (executeTrade now cfg st s sd a Market p) as [r st1]
  end.
  exact H.
Qed.

Lemma replay_ids {T : Type} (strat : strategy T) (todo : list candle) :
  forall i st ss,
    ids_sequential (tradeLog st) ->
    ids_sequential (tradeLog (fst (replay now cfg dflt strat todo i st ss))).
Proof.
  induction todo as [|c rest IH]; intros i st ss Hlog; simpl.
  - exact Hlog.
  - pose proof (monitorAndExitPositions_ids strat st ss (strategy_symbol strat)
                  (close c) Hlog) as Hm.
    destruct (monitorAndExitPositions now cfg strat st ss _ _) as [st1 ss1].
    pose proof (exec_ids (run strat ss1 c (firstn (S i) (backtestData st))) st1 Hm) as He.
    destruct (exec now cfg dflt _ st1) as [ss2 st2].
    apply IH. exact He.
Qed.

Lemma ids_sequential_NoDup (log : list order) :
  ids_sequential log -> NoDup (map id log).
Proof.
  intros Hlog. apply NoDup_alt. intros i j x Hi Hj.
  rewrite list_lookup_fmap in Hi. rewrite list_lookup_fmap in Hj.
  destruct (log !! i) as [oi|] eqn:Ei; [|discriminate Hi].
  destruct (log !! j) as [oj|] eqn:Ej; [|discriminate Hj].
  simpl in Hi, Hj. injection Hi as Hi. injection Hj as Hj.
  rewrite <- (Hlog i oi Ei), <- (Hlog j oj Ej), Hi, Hj. reflexivity.
Qed.

(** X26: the ids of the trades of one run are pairwise distinct, also when
    the clock does not advance between trades: each carries the length the
    log had when it was appended. *)
Lemma runBacktest_ids_distinct {T : Type} (strat : strategy T) st ss st' ss' :
  runBacktest now cfg dflt strat st ss = Some (st', ss') ->
  NoDup (map id (tradeLog st')).
Proof.
  unfold runBacktest. destruct (backtestData st) as [|first rest] eqn:Hd; [discriminate|].
  set (st0 := set_equityCurve _ _).
  pose proof (replay_ids strat (first :: rest) 0 st0 ss) as H.
  intros Hrun.
  assert (E : replay now cfg dflt strat (first :: rest) 0 st0 ss = (st', ss'))
    by congruence.
  rewrite E in H. apply ids_sequential_NoDup, H.
  intros i o Hl. simpl in Hl. rewrite lookup_nil in Hl. discriminate Hl.
Qed.

End TradeIds.

(* ===================================================================== *)
(** * Part IV: further properties of the modelled code                    *)
(* ===================================================================== *)

(** ** Sizing, validation and portfolio limits *)

Section RiskLimitsFacts.
Import RiskManager RiskLimits.
Local Open Scope Q_scope.

Variable cfg : config.

Lemma quotient_exceeds_pos (x y m : Q) :
  0 < y -> (quotient_exceeds x y m = true <-> m * y < x).
Proof.
  intros Hy. unfold quotient_exceeds.
  assert (Hne : Qeq_bool y 0 = false).
  { destruct (Qeq_bool y 0) eqn:E; [|reflexivity].
    apply Qeq_bool_iff in E. rewrite E in Hy. exfalso. exact (Qlt_irrefl 0 Hy). }
  rewrite Hne, Qlt_bool_iff. split; intros H.
  - apply (Qmult_lt_r _ _ y Hy) in H.
    assert (E : x / y * y == x) by (field; intros E; rewrite E in Hy; exact (Qlt_irrefl 0 Hy)).
    rewrite E in H. exact H.
  - apply Qlt_shift_div_l; assumption.
Qed.

End RiskLimitsFacts.

(** X1: the riskPercentage argument of calculateLotSize can lower the lot
    and never raise it: for a positive price the lot is not negative and at
    most the lot computed without the argument, and with a non-negative
    balance every percentage at or above maxRiskPerTrade gives exactly that
    lot. *)
Theorem calculateLotSize_override_only_lowers (cfg : RiskManager.config)
    (symbol : string) (currentPrice accountBalance : Q) (riskPercentage : option Q) :
  (0 < currentPrice)%Q ->
  (0 <= RiskManager.calculateLotSize cfg symbol currentPrice accountBalance riskPercentage)%Q
  /\ (RiskManager.calculateLotSize cfg symbol currentPrice accountBalance riskPercentage
      <= RiskManager.calculateLotSize cfg symbol currentPrice accountBalance None)%Q
  /\ ((0 <= accountBalance)%Q ->
      (forall r, riskPercentage = Some r ->
                 (RiskManager.risk_maxRiskPerTrade cfg <= r)%Q) ->
      (RiskManager.calculateLotSize cfg symbol currentPrice accountBalance riskPercentage
       == RiskManager.calculateLotSize cfg symbol currentPrice accountBalance None)%Q).
Proof.
  intros Hp. unfold RiskManager.calculateLotSize. simpl Js.or_else.
  destruct (Js.Qlt_bool accountBalance (RiskManager.risk_minimumBalance cfg)).
  { split; [apply Qle_refl|]. split; [apply Qle_refl|]. intros _ _. reflexivity. }
  set (cap := (accountBalance * RiskManager.risk_maxRiskPerTrade cfg / currentPrice)%Q).
  set (size := (accountBalance
                * Js.or_else riskPercentage (RiskManager.risk_maxRiskPerTrade cfg)
                / currentPrice)%Q).
  rewrite Q.min_id.
  split; [apply Q.le_max_l|]. split.
  - apply Q.max_le_compat_l. apply Q.le_min_r.
  - intros Hb Hover.
    assert (Hsize : (cap <= size)%Q).
    { unfold cap, size. apply Qmult_le_compat_r;
        [|apply Qlt_le_weak, Qinv_lt_0_compat, Hp].
      destruct riskPercentage as [r|]; simpl; [|apply Qle_refl].
      destruct (Js.truthy r); [|apply Qle_refl].
      specialize (Hover r eq_refl).
      rewrite !(Qmult_comm accountBalance). apply Qmult_le_compat_r; assumption. }
    rewrite (Q.min_r size cap Hsize). reflexivity.
Qed.

Lemma calculateLotSize_override_only_lowers_witness :
  (0 <= RiskManager.calculateLotSize test_config "BTC/USD" 50000 10000 (Some 0.5))%Q
  /\ (RiskManager.calculateLotSize test_config "BTC/USD" 50000 10000 (Some 0.01)
      <= RiskManager.calculateLotSize test_config "BTC/USD" 50000 10000 None)%Q
  /\ (RiskManager.calculateLotSize test_config "BTC/USD" 50000 10000 (Some 0.5)
      == RiskManager.calculateLotSize test_config "BTC/USD" 50000 10000 None)%Q.
Proof.
  split; [|split].
  - apply (calculateLotSize_override_only_lowers test_config "BTC/USD" 50000%Q 10000%Q
             (Some 0.5%Q)). reflexivity.
  - apply (calculateLotSize_override_only_lowers test_config "BTC/USD" 50000%Q 10000%Q
             (Some 0.01%Q)). reflexivity.
  - apply (calculateLotSize_override_only_lowers test_config "BTC/USD" 50000%Q 10000%Q
             (Some 0.5%Q)).
    + reflexivity.
    + vm_compute. discriminate.
    + intros r [= <-]. vm_compute. discriminate.
Defined.

Section ValidateTrade.
Import RiskManager RiskLimits.
Local Open Scope Q_scope.

Variable cfg : config.

Lemma validateTrade_true_iff symbol amount price accountBalance :
  0 < accountBalance ->
  (validateTrade cfg symbol amount price accountBalance = true
   <-> amount * price <= risk_maxRiskPerTrade cfg * accountBalance
       /\ risk_minimumBalance cfg <= accountBalance
       /\ 10 <= amount * price).
Proof.
  intros Hb. unfold validateTrade.
  pose proof (quotient_exceeds_pos (amount * price) accountBalance
                (risk_maxRiskPerTrade cfg) Hb) as Hq.
  destruct (quotient_exceeds _ _ _) eqn:E1.
  - split; [discriminate|]. intros (H1 & _ & _).
    apply proj1 in Hq. specialize (Hq eq_refl).
    exfalso. exact (Qlt_not_le _ _ Hq H1).
  - assert (H1 : amount * price <= risk_maxRiskPerTrade cfg * accountBalance).
    { apply Qnot_lt_le. intros H. apply Hq in H. discriminate H. }
    destruct (Js.Qlt_bool accountBalance (risk_minimumBalance cfg)) eqn:E2.
    + split; [discriminate|]. intros (_ & H2 & _).
      apply Qlt_bool_iff in E2. exfalso. exact (Qlt_not_le _ _ E2 H2).
    + apply Qlt_bool_false_iff in E2.
      destruct (Js.Qlt_bool (amount * price) 10) eqn:E3.
      * split; [discriminate|]. intros (_ & _ & H3).
        apply Qlt_bool_iff in E3. exfalso. exact (Qlt_not_le _ _ E3 H3).
      * apply Qlt_bool_false_iff in E3. split; [intros _|reflexivity].
        split; [exact H1|]. split; assumption.
Qed.

End ValidateTrade.

(** X2: validateTrade never turns a larger account down for a trade it
    accepts for a smaller one: a trade accepted at a positive balance is worth
    at least 10, the balance is at least minimumBalance, and the same trade
    is accepted at every larger balance. *)
Theorem validateTrade_accepts_larger_accounts (cfg : RiskManager.config)
    (symbol : string) (amount price smaller larger : Q) :
  (0 < smaller)%Q ->
  (smaller <= larger)%Q ->
  RiskLimits.validateTrade cfg symbol amount price smaller = true ->
  RiskLimits.validateTrade cfg symbol amount price larger = true
  /\ (10 <= amount * price)%Q
  /\ (RiskManager.risk_minimumBalance cfg <= smaller)%Q.
Proof.
  intros Hs Hle Hok.
  assert (Hl : (0 < larger)%Q) by (eapply Qlt_le_trans; eassumption).
  apply (validateTrade_true_iff cfg symbol amount price smaller Hs) in Hok.
  destruct Hok as (Hcap & Hmin & Hval).
  split; [|split; assumption].
  apply (validateTrade_true_iff cfg symbol amount price larger Hl).
  split; [|split; [|exact Hval]].
  - set (value := (amount * price)%Q) in *.
    set (cap := RiskManager.risk_maxRiskPerTrade cfg) in *.
    destruct (Qlt_le_dec 0 cap) as [Hpos|Hneg]; [nra|].
    exfalso. nra.
  - eapply Qle_trans; eassumption.
Qed.

Lemma validateTrade_accepts_larger_accounts_witness :
  RiskLimits.validateTrade test_config "BTC/USD" 0.002 50000 20000 = true
  /\ (10 <= 0.002 * 50000)%Q
  /\ (RiskManager.risk_minimumBalance test_config <= 10000)%Q.
Proof.
  apply (validateTrade_accepts_larger_accounts test_config "BTC/USD"
           0.002%Q 50000%Q 10000%Q 20000%Q).
  - reflexivity.
  - vm_compute. discriminate.
  - reflexivity.
Defined.

(** X5: for a positive entry price, a positive configured default and an
    override that is omitted or not negative, the stop loss and the take
    profit lie on opposite sides of the entry price: below and above it for
    a buy, above and below it for every other side. *)
Theorem stop_and_target_straddle_entry (cfg : RiskManager.config) (entryPrice : Q)
    (side : Side) (stopLossPercentage takeProfitPercentage : option Q) :
  (0 < entryPrice)%Q ->
  (0 < RiskManager.risk_stopLossPercentage cfg)%Q ->
  (0 < RiskManager.risk_takeProfitPercentage cfg)%Q ->
  (forall p, stopLossPercentage = Some p -> (0 <= p)%Q) ->
  (forall p, takeProfitPercentage = Some p -> (0 <= p)%Q) ->
  match side with
  | Buy =>
      (RiskManager.calculateStopLoss cfg entryPrice side stopLossPercentage < entryPrice)%Q
      /\ (entryPrice
          < RiskManager.calculateTakeProfit cfg entryPrice side takeProfitPercentage)%Q
  | _ =>
      (RiskManager.calculateTakeProfit cfg entryPrice side takeProfitPercentage
       < entryPrice)%Q
      /\ (entryPrice
          < RiskManager.calculateStopLoss cfg entryPrice side stopLossPercentage)%Q
  end.
Proof.
  intros He Hsl Htp Hs Ht.
  assert (Hor : forall x d, (0 < d)%Q -> (forall p, x = Some p -> (0 <= p)%Q) ->
                            (0 < Js.or_else x d)%Q).
  { intros x d Hd Hx. unfold Js.or_else. destruct x as [p|]; [|exact Hd].
    destruct (Js.truthy p) eqn:E; [|exact Hd].
    apply truthy_iff in E. specialize (Hx p eq_refl).
    apply Qle_lt_or_eq in Hx as [Hx|Hx]; [exact Hx|]. symmetry in Hx. contradiction. }
  pose proof (Hor _ _ Hsl Hs) as H1. pose proof (Hor _ _ Htp Ht) as H2.
  unfold RiskManager.calculateStopLoss, RiskManager.calculateTakeProfit.
  set (s := Js.or_else stopLossPercentage _) in *.
  set (t := Js.or_else takeProfitPercentage _) in *.
  destruct side; split; nra.
Qed.

Lemma stop_and_target_straddle_entry_witness :
  (RiskManager.calculateStopLoss test_config 50000 Buy (Some 0.05) < 50000)%Q
  /\ (50000 < RiskManager.calculateTakeProfit test_config 50000 Buy None)%Q.
Proof.
  apply (stop_and_target_straddle_entry test_config 50000%Q Buy (Some 0.05%Q) None).
  - reflexivity.
  - reflexivity.
  - reflexivity.
  - intros p [= <-]. vm_compute. discriminate.
  - intros p H. discriminate H.
Defined.

Section PortfolioLimits.
Import RiskLimits.
Local Open Scope Q_scope.

Variable lim : limits.

Lemma totalExposure_from (ps : list open_position) :
  forall acc,
    fold_left (fun total position => total + amount position * price position) ps acc
    == acc + totalExposure ps.
Proof.
  unfold totalExposure.
  induction ps as [|p ps IH]; intros acc; simpl.
  - ring.
  - rewrite IH. rewrite (IH (0 + amount p * price p)). ring.
Qed.

Lemma totalExposure_app (ps qs : list open_position) :
  totalExposure (ps ++ qs) == totalExposure ps + totalExposure qs.
Proof.
  unfold totalExposure at 1. rewrite fold_left_app.
  rewrite totalExposure_from. reflexivity.
Qed.

Lemma totalExposure_nonneg (ps : list open_position) :
  Forall (fun p => 0 <= amount p * price p) ps -> 0 <= totalExposure ps.
Proof.
  induction 1 as [|p ps Hp _ IH].
  - apply Qle_refl.
  - change (p :: ps) with ([p] ++ ps). rewrite totalExposure_app.
    unfold totalExposure at 1. simpl. lra.
Qed.

Lemma totalExposure_cons (p : open_position) (ps : list open_position) :
  totalExposure (p :: ps) == amount p * price p + totalExposure ps.
Proof.
  change (p :: ps) with ([p] ++ ps). rewrite totalExposure_app.
  unfold totalExposure at 1. simpl. ring.
Qed.

Lemma totalExposure_sublist (kept ps : list open_position) :
  sublist kept ps ->
  Forall (fun p => 0 <= amount p * price p) ps ->
  totalExposure kept <= totalExposure ps.
Proof.
  induction 1 as [|p kept ps _ IH|p kept ps _ IH]; intros Hpos.
  - apply Qle_refl.
  - apply Forall_cons in Hpos as [_ Hpos]. rewrite !totalExposure_cons.
    specialize (IH Hpos). lra.
  - apply Forall_cons in Hpos as [Hp Hpos]. rewrite totalExposure_cons.
    specialize (IH Hpos). lra.
Qed.

Lemma checkTotalRisk_true_iff (ps : list open_position) (accountBalance : Q) :
  0 < accountBalance ->
  (checkTotalRisk lim ps accountBalance = true
   <-> totalExposure ps <= risk_maxTotalRisk lim * accountBalance).
Proof.
  intros Hb. unfold checkTotalRisk.
  pose proof (quotient_exceeds_pos (totalExposure ps) accountBalance
                (risk_maxTotalRisk lim) Hb) as Hq.
  destruct (quotient_exceeds _ _ _).
  - split; [discriminate|]. intros H. apply proj1 in Hq. specialize (Hq eq_refl).
    exfalso. exact (Qlt_not_le _ _ Hq H).
  - split; [intros _|reflexivity]. apply Qnot_lt_le. intros H.
    apply Hq in H. discriminate H.
Qed.

End PortfolioLimits.

(** X6: checkTotalRisk never turns down a lighter portfolio or a larger
    account: when it accepts a portfolio of positions of non-negative value at
    a positive balance, it accepts every portfolio obtained by leaving
    positions out, at that balance and at every larger one. *)
Theorem checkTotalRisk_accepts_sub_portfolios (lim : RiskLimits.limits)
    (kept openPositions : list RiskLimits.open_position) (smaller larger : Q) :
  (0 < smaller)%Q ->
  (smaller <= larger)%Q ->
  Forall (fun p => (0 <= RiskLimits.amount p * RiskLimits.price p)%Q) openPositions ->
  sublist kept openPositions ->
  RiskLimits.checkTotalRisk lim openPositions smaller = true ->
  RiskLimits.checkTotalRisk lim kept larger = true.
Proof.
  intros Hs Hle Hpos Hsub Hok.
  assert (Hl : (0 < larger)%Q) by (eapply Qlt_le_trans; eassumption).
  apply (checkTotalRisk_true_iff lim openPositions smaller Hs) in Hok.
  apply (checkTotalRisk_true_iff lim kept larger Hl).
  pose proof (totalExposure_sublist kept openPositions Hsub Hpos) as Hkept.
  pose proof (totalExposure_nonneg openPositions Hpos) as Hall.
  set (all := RiskLimits.totalExposure openPositions) in *.
  set (part := RiskLimits.totalExposure kept) in *.
  set (cap := RiskLimits.risk_maxTotalRisk lim) in *.
  destruct (Qlt_le_dec 0 cap) as [Hcap|Hcap]; nra.
Qed.

Lemma checkTotalRisk_accepts_sub_portfolios_witness :
  RiskLimits.checkTotalRisk
    test_limits
    [ {| RiskLimits.amount := 0.1; RiskLimits.price := 50000 |} ] 200000 = true.
Proof.
  apply (checkTotalRisk_accepts_sub_portfolios
           test_limits
           [ {| RiskLimits.amount := 0.1; RiskLimits.price := 50000 |} ]
           [ {| RiskLimits.amount := 0.05; RiskLimits.price := 40000 |};
             {| RiskLimits.amount := 0.1; RiskLimits.price := 50000 |} ]
           100000%Q 200000%Q).
  - reflexivity.
  - vm_compute. discriminate.
  - repeat constructor; vm_compute; discriminate.
  - apply sublist_cons. apply sublist_skip. apply sublist_nil.
  - reflexivity.
Defined.

(** X7: getMaxConcurrentTrades never returns more than the configured limit
    and never returns less for a larger balance than for a smaller one. *)
Theorem getMaxConcurrentTrades_bounded_and_monotone (lim : RiskLimits.limits)
    (smaller larger : Q) :
  (smaller <= larger)%Q ->
  (RiskLimits.getMaxConcurrentTrades lim smaller
   <= RiskLimits.getMaxConcurrentTrades lim larger)%Z
  /\ (RiskLimits.getMaxConcurrentTrades lim larger
      <= RiskLimits.trading_maxConcurrentTrades lim)%Z.
Proof.
  intros Hle. unfold RiskLimits.getMaxConcurrentTrades.
  destruct (Js.Qlt_bool smaller 1000) eqn:S1;
    destruct (Js.Qlt_bool larger 1000) eqn:L1;
    destruct (Js.Qlt_bool smaller 5000) eqn:S5;
    destruct (Js.Qlt_bool larger 5000) eqn:L5;
    try (split; lia);
    repeat match goal with
           | H : Js.Qlt_bool _ _ = true |- _ => apply Qlt_bool_iff in H
           | H : Js.Qlt_bool _ _ = false |- _ => apply Qlt_bool_false_iff in H
           end;
    exfalso; lra.
Qed.

Lemma getMaxConcurrentTrades_bounded_and_monotone_witness :
  (RiskLimits.getMaxConcurrentTrades
     test_limits
     500
   <= RiskLimits.getMaxConcurrentTrades
        test_limits
        2000)%Z.
Proof.
  apply (getMaxConcurrentTrades_bounded_and_monotone
           test_limits 500%Q 2000%Q).
  vm_compute. discriminate.
Defined.

(** ** Orders without a price in the backtest *)

Section NoPrice.
Import Backtester.
Local Open Scope Q_scope.

Variable now : nat -> Z.
Variable cfg : RiskManager.config.
Variable dflt : position_defaults.

Lemma executeTrade_no_price st s side amount type price :
  resolve_price price = None ->
  executeTrade now cfg st s side amount type price = (None, st).
Proof. intros H. unfold executeTrade. rewrite H. reflexivity. Qed.

Lemma exec_no_price {A : Type} (p : prog A) :
  forall st, no_price p -> snd (exec now cfg dflt p st) = st.
Proof.
  induction p as [a|s side amount type price k IH|s side entry amount rc k IH];
    intros st Hp; simpl in *.
  - reflexivity.
  - destruct Hp as [Hprice Hk].
    rewrite (executeTrade_no_price st s side amount type price Hprice).
    apply IH. exact Hk.
  - contradiction.
Qed.

Lemma no_price_bind {A B : Type} (p : prog A) (f : A -> prog B) :
  no_price p -> (forall a, no_price (f a)) -> no_price (StrategyInterface.bind p f).
Proof.
  intros Hp Hf.
  induction p as [a|s side amount type price k IH|s side entry amount rc k IH];
    simpl in *.
  - apply Hf.
  - destruct Hp as [Hprice Hk]. split; [exact Hprice|]. apply IH. exact Hk.
  - contradiction.
Qed.

Lemma no_price_enter symbol risk orderSide positionSide signal position :
  no_price (RsiEmaConfluence.enter symbol risk orderSide positionSide signal position).
Proof.
  unfold RsiEmaConfluence.enter.
  destruct position; [exact I|]. destruct signal; simpl; auto.
Qed.

Lemma no_price_run symbol risk maxSize signals this newCandle :
  no_price (RsiEmaConfluence.run symbol risk maxSize signals this newCandle).
Proof.
  unfold RsiEmaConfluence.run.
  destruct (_ <? _)%nat; [exact I|].
  destruct (signals _) as [[long short]|]; [|exact I].
  apply no_price_bind; [apply no_price_enter|]. intros position1.
  apply no_price_bind; [apply no_price_enter|]. intros position2. exact I.
Qed.

(** With no position to monitor and a strategy that never names a price, the
    loop only appends equity points, all at the cash balance it started
    with. *)
Lemma replay_no_price {T : Type} (strat : strategy T) (todo : list candle) :
  (forall ss c h, no_price (run strat ss c h)) ->
  forall i st ss,
    currentPositions st !! strategy_symbol strat = None ->
    exists points,
      fst (replay now cfg dflt strat todo i st ss)
      = set_equityCurve (equityCurve st ++ points) st
      /\ Forall (fun p => balance p = currentBalance st) points.
Proof.
  intros Hstrat.
  induction todo as [|c rest IH]; intros i st ss Hpos; simpl.
  - exists []. rewrite app_nil_r. split; [destruct st; reflexivity|constructor].
  - unfold monitorAndExitPositions. rewrite Hpos.
    pose proof (exec_no_price (run strat ss c (firstn (S i) (backtestData st))) st
                  (Hstrat _ _ _)) as He.
    destruct (exec now cfg dflt _ st) as [ss2 st2]. simpl in He. subst st2.
    match goal with
    | |- context [replay now cfg dflt strat rest (S i) ?st3 ss2] =>
        destruct (IH (S i) st3 ss2 Hpos) as (points & Hr & Hb)
    end.
    exists ({| ep_timestamp := timestamp c; balance := currentBalance st |} :: points).
    split.
    + rewrite Hr. simpl. rewrite <- app_assoc. reflexivity.
    + constructor; [reflexivity|exact Hb].
Qed.

End NoPrice.

(** X8: a backtest of the RSI/EMA strategy never trades, whatever its
    indicator signals are: its orders carry no price and the simulated
    executeTrade cannot resolve one, so every order is answered with null.
    From a service without an open position, runBacktest over a non-empty
    candle sequence finishes with an empty trade log, the initial capital as
    cash balance and as the balance of every equity point, and the holdings
    and the open positions of the service as they were. *)
Theorem rsiEmaConfluence_backtest_never_trades (now : nat -> Z)
    (cfg : RiskManager.config) (dflt : Backtester.position_defaults)
    (symbol : string) (risk : Backtester.strategy_risk) (maxHistoricalDataSize : nat)
    (signals : list Q -> option (bool * bool))
    (st : Backtester.backtester) (this : RsiEmaConfluence.instance)
    (first : Backtester.candle) (rest : list Backtester.candle) :
  Backtester.currentPositions st !! symbol = None ->
  Backtester.backtestData st = first :: rest ->
  exists st' this',
    Backtester.runBacktest now cfg dflt
      (RsiEmaConfluence.strategy symbol risk maxHistoricalDataSize signals) st this
    = Some (st', this')
    /\ Backtester.tradeLog st' = []
    /\ Backtester.currentBalance st' = Backtester.initialCapital
    /\ Forall (fun p => Backtester.balance p = Backtester.initialCapital)
         (Backtester.equityCurve st')
    /\ Backtester.holdings st' = Backtester.holdings st
    /\ Backtester.currentPositions st' = Backtester.currentPositions st.
Proof.
  intros Hpos Hdata. unfold Backtester.runBacktest. rewrite Hdata.
  set (strat := RsiEmaConfluence.strategy symbol risk maxHistoricalDataSize signals).
  set (st0 := Backtester.set_equityCurve _ _).
  assert (Hstrat : forall ss c h, no_price (Backtester.run strat ss c h)).
  { intros ss c h. apply no_price_run. }
  destruct (replay_no_price now cfg dflt strat (first :: rest) Hstrat 0 st0 this Hpos)
    as (points & Hr & Hb).
  destruct (Backtester.replay now cfg dflt strat (first :: rest) 0 st0 this)
    as [st' this'].
  simpl in Hr. subst st'. exists (Backtester.set_equityCurve
                                    (Backtester.equityCurve st0 ++ points) st0), this'.
  repeat split. simpl. constructor; [reflexivity|exact Hb].
Qed.

Lemma rsiEmaConfluence_backtest_never_trades_witness :
  exists st' this',
    Backtester.runBacktest (frozen_clock 0) test_config test_defaults
      (RsiEmaConfluence.strategy "BTC/USD" no_overrides 1 always_signal)
      (Backtester.initial two_candles)
      {| RsiEmaConfluence.historicalData := []; RsiEmaConfluence.position := None |}
    = Some (st', this')
    /\ Backtester.tradeLog st' = []
    /\ Backtester.currentBalance st' = Backtester.initialCapital
    /\ Forall (fun p => Backtester.balance p = Backtester.initialCapital)
         (Backtester.equityCurve st')
    /\ Backtester.holdings st' = Backtester.holdings (Backtester.initial two_candles)
    /\ Backtester.currentPositions st'
       = Backtester.currentPositions (Backtester.initial two_candles).
Proof.
  exact (rsiEmaConfluence_backtest_never_trades (frozen_clock 0) test_config test_defaults
           "BTC/USD" no_overrides 1 always_signal (Backtester.initial two_candles)
           {| RsiEmaConfluence.historicalData := []; RsiEmaConfluence.position := None |}
           (flat_candle 1000 100) [flat_candle 2000 90] eq_refl eq_refl).
Defined.

(** X9: in a backtest StrategyInterface.exitPosition never exits: it places
    its market order without a price, the simulated service answers null, and
    the call leaves the strategy's position and the whole service state
    (cash, holdings, trade log) exactly as they were. *)
Theorem exitPosition_is_noop_in_backtest (now : nat -> Z) (cfg : RiskManager.config)
    (dflt : Backtester.position_defaults) (st : Backtester.backtester)
    (symbol : string) (position : option StrategyInterface.held) (side : PositionSide) :
  Backtester.exec now cfg dflt (StrategyInterface.exitPosition symbol position side) st
  = (position, st).
Proof.
  unfold StrategyInterface.exitPosition.
  destruct position as [p|]; [|reflexivity].
  destruct (negb _); [reflexivity|]. simpl.
  reflexivity.
Qed.

(** ** Invariants of a whole replay *)

Section ReplayInvariant.
Import Backtester.
Local Open Scope Q_scope.

Variable now : nat -> Z.
Variable cfg : RiskManager.config.
Variable dflt : position_defaults.

(** A property of the backtester state that every accepted call keeps and
    that does not depend on the open positions. *)
Variable P : backtester -> Prop.
Variable ok : option Q -> Prop.

Hypothesis P_executeTrade :
  forall st s side amount type price,
    ok price -> P st -> P (snd (executeTrade now cfg st s side amount type price)).
Hypothesis P_currentPositions :
  forall st m, P st -> P (set_currentPositions m st).
Hypothesis P_equityCurve :
  forall st t,
    P st ->
    P (set_equityCurve
         (equityCurve st ++ [{| ep_timestamp := t; balance := currentBalance st |}]) st).

Lemma exec_invariant {A : Type} (p : prog A) :
  forall st, calls_with ok p -> P st -> P (snd (exec now cfg dflt p st)).
Proof.
  induction p as [a|s side amount type price k IH|s side entry amount rc k IH];
    intros st Hp Hst; simpl in *.
  - exact Hst.
  - destruct Hp as [Hprice Hk].
    pose proof (P_executeTrade st s side amount type price Hprice Hst) as H.
    destruct (executeTrade now cfg st s side amount type price) as [r st'].
    apply IH; [apply Hk|exact H].
  - apply IH; [exact Hp|]. unfold managePosition.
    destruct side; apply P_currentPositions; exact Hst.
Qed.

Lemma monitorAndExitPositions_invariant {T : Type} (strat : strategy T)
    st ss s currentPrice :
  ok (Some currentPrice) -> P st ->
  P (fst (monitorAndExitPositions now cfg strat st ss s currentPrice)).
Proof.
  intros Hprice Hst. unfold monitorAndExitPositions.
  destruct (currentPositions st !! s) as [position|]; [|exact Hst].
  destruct (action position currentPrice); [|exact Hst].
  match goal with
  | |- context [executeTrade now cfg st s ?sd ?a Market ?p] =>
      pose proof (P_executeTrade st s sd a Market p Hprice Hst) as H;
      destruct (executeTrade now cfg st s sd a Market p) as [r st1]
  end.
  simpl in *. apply P_currentPositions. exact H.
Qed.

Lemma replay_invariant {T : Type} (strat : strategy T) (todo : list candle) :
  (forall ss c h, ok (Some (close c)) -> calls_with ok (run strat ss c h)) ->
  Forall (fun c => ok (Some (close c))) todo ->
  forall i st ss,
    P st -> P (fst (replay now cfg dflt strat todo i st ss)).
Proof.
  intros Hstrat Htodo.
  induction Htodo as [|c rest Hc _ IH]; intros i st ss Hst; simpl.
  - exact Hst.
  - pose proof (monitorAndExitPositions_invariant strat st ss (strategy_symbol strat)
                  (close c) Hc Hst) as Hm.
    destruct (monitorAndExitPositions now cfg strat st ss _ _) as [st1 ss1].
    pose proof (exec_invariant (run strat ss1 c (firstn (S i) (backtestData st))) st1
                  (Hstrat _ _ _ Hc) Hm) as He.
    destruct (exec now cfg dflt _ st1) as [ss2 st2].
    apply IH. apply P_equityCurve. exact He.
Qed.

End ReplayInvariant.

Lemma calls_with_any {A : Type} (p : Backtester.prog A) : calls_with (fun _ => True) p.
Proof.
  induction p as [a|s side amount type price k IH|s side entry amount rc k IH]; simpl; auto.
Qed.

(** X10: a whole replay keeps the holdings and the positions of the service
    equal for every symbol, whatever the strategy does: from a service where
    they agree, runBacktest over a non-empty candle sequence finishes in a
    state where they agree.  A sell that passes the holdings check is
    therefore never turned down by the position check that follows it. *)
Theorem runBacktest_keeps_holdings_and_positions_equal {T : Type} (now : nat -> Z)
    (cfg : RiskManager.config) (dflt : Backtester.position_defaults)
    (strat : Backtester.strategy T) (st : Backtester.backtester) (ss : T)
    (first : Backtester.candle) (rest : list Backtester.candle) :
  holdings_match_positions st ->
  Backtester.backtestData st = first :: rest ->
  exists st' ss',
    Backtester.runBacktest now cfg dflt strat st ss = Some (st', ss')
    /\ holdings_match_positions st'.
Proof.
  intros Hst Hdata. unfold Backtester.runBacktest. rewrite Hdata.
  set (st0 := Backtester.set_equityCurve _ _).
  pose proof (replay_invariant now cfg dflt holdings_match_positions (fun _ => True)
                (fun st s side amount type price _ =>
                   executeTrade_holdings_match_positions now cfg st s side amount type price)
                (fun st m H => H) (fun st t H => H)
                strat (first :: rest)
                (fun ss c h _ => calls_with_any _)) as Hinv.
  assert (Hall : Forall (fun c : Backtester.candle => True) (first :: rest)).
  { apply Forall_forall. intros; exact I. }
  specialize (Hinv Hall 0%nat st0 ss Hst).
  destruct (Backtester.replay now cfg dflt strat (first :: rest) 0 st0 ss) as [st' ss'].
  exists st', ss'. split; [reflexivity|exact Hinv].
Qed.

Lemma runBacktest_keeps_holdings_and_positions_equal_witness :
  exists st' ss',
    Backtester.runBacktest (frozen_clock 0) test_config test_defaults buy_each_candle
      (Backtester.initial two_candles) tt = Some (st', ss')
    /\ holdings_match_positions st'.
Proof.
  exact (runBacktest_keeps_holdings_and_positions_equal (frozen_clock 0) test_config
           test_defaults buy_each_candle (Backtester.initial two_candles) tt
           (flat_candle 1000 100) [flat_candle 2000 90]
           (initial_holdings_match_positions two_candles) eq_refl).
Defined.

Lemma executeTrade_keeps_curve_nonneg now cfg st s side amount type price :
  curve_nonneg st ->
  curve_nonneg (snd (Backtester.executeTrade now cfg st s side amount type price)).
Proof.
  unfold curve_nonneg.
  rewrite (proj1 (executeTrade_frame now cfg st s side amount type price)). auto.
Qed.

(** X11: when no candle closes below 0 and the strategy names no negative
    price, a whole replay never shows a negative balance: from non-negative
    holdings, runBacktest over a non-empty candle sequence finishes with a
    non-negative cash balance, non-negative holdings and an equity curve
    without a negative point. *)
Theorem runBacktest_never_negative {T : Type} (now : nat -> Z)
    (cfg : RiskManager.config) (dflt : Backtester.position_defaults)
    (strat : Backtester.strategy T) (st : Backtester.backtester) (ss : T)
    (first : Backtester.candle) (rest : list Backtester.candle) :
  (forall s q, Backtester.holdings st !! s = Some q -> (0 <= q)%Q) ->
  Forall (fun c => (0 <= Backtester.close c)%Q) (Backtester.backtestData st) ->
  (forall ss c h, (0 <= Backtester.close c)%Q ->
                  calls_with not_negative (Backtester.run strat ss c h)) ->
  Backtester.backtestData st = first :: rest ->
  exists st' ss',
    Backtester.runBacktest now cfg dflt strat st ss = Some (st', ss')
    /\ ledger_nonneg st' /\ curve_nonneg st'.
Proof.
  intros Hhold Hdata Hstrat Heq. unfold Backtester.runBacktest. rewrite Heq.
  set (st0 := Backtester.set_equityCurve _ _).
  assert (Hst0 : ledger_nonneg st0 /\ curve_nonneg st0).
  { split; [split|]; simpl.
    - vm_compute. discriminate.
    - exact Hhold.
    - constructor; [vm_compute; discriminate|constructor]. }
  pose proof
    (replay_invariant now cfg dflt (fun st => ledger_nonneg st /\ curve_nonneg st)
       not_negative) as Hinv.
  assert (Hclose : Forall (fun c => not_negative (Some (Backtester.close c)))
                     (first :: rest)).
  { rewrite <- Heq. eapply Forall_impl; [exact Hdata|].
    intros c Hc p [= <-]. exact Hc. }
  specialize (Hinv
    (fun st s side amount type price Hok HP =>
       conj (executeTrade_nonneg now cfg st s side amount type price Hok (proj1 HP))
            (executeTrade_keeps_curve_nonneg now cfg st s side amount type price (proj2 HP)))
    (fun st m HP => HP)).
  assert (Hcurve :
    forall st t,
      ledger_nonneg st /\ curve_nonneg st ->
      ledger_nonneg
        (Backtester.set_equityCurve
           (Backtester.equityCurve st ++
              [{| Backtester.ep_timestamp := t;
                  Backtester.balance := Backtester.currentBalance st |}]) st)
      /\ curve_nonneg
           (Backtester.set_equityCurve
              (Backtester.equityCurve st ++
                 [{| Backtester.ep_timestamp := t;
                     Backtester.balance := Backtester.currentBalance st |}]) st)).
  { intros st1 t [Hl Hc]. split; [exact Hl|].
    unfold curve_nonneg. simpl. apply Forall_app. split; [exact Hc|].
    constructor; [exact (proj1 Hl)|constructor]. }
  specialize (Hinv Hcurve T strat (first :: rest)
                (fun ss c h Hc => Hstrat ss c h (Hc _ eq_refl)) Hclose 0%nat st0 ss Hst0).
  destruct (Backtester.replay now cfg dflt strat (first :: rest) 0 st0 ss) as [st' ss'].
  exists st', ss'. split; [reflexivity|exact Hinv].
Qed.

Lemma buy_each_candle_prices_not_negative (ss : unit) (c : Backtester.candle)
    (h : list Backtester.candle) :
  (0 <= Backtester.close c)%Q ->
  calls_with not_negative (Backtester.run buy_each_candle ss c h).
Proof.
  intros Hc. simpl. split.
  - intros p [= <-]. exact Hc.
  - intros [o|]; simpl; exact I.
Qed.

Lemma runBacktest_never_negative_witness :
  exists st' ss',
    Backtester.runBacktest (frozen_clock 0) test_config test_defaults buy_each_candle
      (Backtester.initial two_candles) tt = Some (st', ss')
    /\ ledger_nonneg st' /\ curve_nonneg st'.
Proof.
  apply (runBacktest_never_negative (frozen_clock 0) test_config test_defaults
           buy_each_candle (Backtester.initial two_candles) tt
           (flat_candle 1000 100) [flat_candle 2000 90]).
  - intros s q H. simpl in H. rewrite lookup_empty in H. discriminate H.
  - repeat constructor; vm_compute; discriminate.
  - exact buy_each_candle_prices_not_negative.
  - reflexivity.
Defined.

(** ** The trade log and the position monitor *)

Section TradeLog.
Import Backtester.
Local Open Scope Q_scope.

Variable now : nat -> Z.
Variable cfg : RiskManager.config.
Variable dflt : position_defaults.

Lemma executeTrade_log st s side amount type price :
  match fst (executeTrade now cfg st s side amount type price) with
  | Some o =>
      tradeLog (snd (executeTrade now cfg st s side amount type price))
      = tradeLog st ++ [o]
  | None =>
      tradeLog (snd (executeTrade now cfg st s side amount type price)) = tradeLog st
  end.
Proof.
  unfold executeTrade, apply_holdings, apply_positions.
  repeat case_match; simplify_eq; simpl in *; simplify_eq; reflexivity.
Qed.

Lemma exec_log_grows {A : Type} (p : prog A) :
  forall st, exists added,
    tradeLog (snd (exec now cfg dflt p st)) = tradeLog st ++ added.
Proof.
  induction p as [a|s side amount type price k IH|s side entry amount rc k IH];
    intros st; simpl.
  - exists []. rewrite app_nil_r. reflexivity.
  - pose proof (executeTrade_log st s side amount type price) as Hl.
    destruct (executeTrade now cfg st s side amount type price) as [r st'].
    simpl in Hl. destruct (IH r st') as (added & Ha). rewrite Ha.
    destruct r as [o|]; rewrite Hl.
    + exists (o :: added). rewrite <- app_assoc. reflexivity.
    + exists added. reflexivity.
  - destruct (IH (managePosition dflt st s side entry amount rc)) as (added & Ha).
    exists added. rewrite Ha. unfold managePosition. destruct side; reflexivity.
Qed.

End TradeLog.

(** X12: the trade log is append-only and holds exactly the orders the
    service returned: a call of executeTrade that returns an order appends
    that order, and only it, at the end of the log; a call that returns null
    leaves the log as it was; and whatever calls a strategy step makes, the
    log before the step is a prefix of the log after it. *)
Theorem tradeLog_is_append_only {A : Type} (now : nat -> Z) (cfg : RiskManager.config)
    (dflt : Backtester.position_defaults) (st : Backtester.backtester)
    (s : string) (side : Side) (amount : option Q) (type : OrderType)
    (price : option Q) (p : Backtester.prog A) :
  match fst (Backtester.executeTrade now cfg st s side amount type price) with
  | Some o =>
      Backtester.tradeLog (snd (Backtester.executeTrade now cfg st s side amount type price))
      = Backtester.tradeLog st ++ [o]
  | None =>
      Backtester.tradeLog (snd (Backtester.executeTrade now cfg st s side amount type price))
      = Backtester.tradeLog st
  end
  /\ exists added,
       Backtester.tradeLog (snd (Backtester.exec now cfg dflt p st))
       = Backtester.tradeLog st ++ added.
Proof.
  split; [apply executeTrade_log|apply exec_log_grows].
Qed.

Lemma executeTrade_buy_filled_witness :
  exists o,
    fst (Backtester.executeTrade (frozen_clock 7) test_config (Backtester.initial [])
           "BTC/USD" Buy (Some 2%Q) Market (Some 100%Q)) = Some o
    /\ Backtester.currentBalance
         (snd (Backtester.executeTrade (frozen_clock 7) test_config (Backtester.initial [])
                 "BTC/USD" Buy (Some 2%Q) Market (Some 100%Q)))
       = (Backtester.initialCapital - Backtester.amount o * Backtester.price o)%Q.
Proof.
  destruct (executeTrade_buy_filled (frozen_clock 7) test_config (Backtester.initial [])
              "BTC/USD" (Some 2%Q) Market (Some 100%Q) 100%Q eq_refl)
    as (o & Ho & _ & _ & _ & _ & _ & Hcash & _).
  - reflexivity.
  - vm_compute. discriminate.
  - exists o. split; [exact Ho|exact Hcash].
Defined.

Lemma runBacktest_ids_distinct_witness :
  exists st' ss',
    Backtester.runBacktest (frozen_clock 0) test_config test_defaults buy_each_candle
      (Backtester.initial two_candles) tt = Some (st', ss')
    /\ NoDup (map Backtester.id (Backtester.tradeLog st')).
Proof.
  destruct (Backtester.runBacktest (frozen_clock 0) test_config test_defaults
              buy_each_candle (Backtester.initial two_candles) tt)
    as [[st' ss']|] eqn:E; [|vm_compute in E; discriminate E].
  exists st', ss'. split; [reflexivity|].
  exact (runBacktest_ids_distinct (frozen_clock 0) test_config test_defaults
           buy_each_candle (Backtester.initial two_candles) tt st' ss' E).
Defined.

Section Monitor.
Import Backtester.
Local Open Scope Q_scope.

Variable now : nat -> Z.
Variable cfg : RiskManager.config.

Lemma executeTrade_currentPositions st s side amount type price :
  currentPositions (snd (executeTrade now cfg st s side amount type price))
  = currentPositions st.
Proof.
  unfold executeTrade, apply_holdings, apply_positions.
  repeat case_match; simplify_eq; reflexivity.
Qed.

End Monitor.

(** X13: the position monitor clears a position whenever its stop or target
    is hit, also when the exit order is turned down: if the check answers an
    action for the open position of the symbol, then after
    monitorAndExitPositions the position is removed, the positions of other
    symbols are untouched and the strategy's clearPosition has run; if no
    position is open or the check answers no action, nothing changes. *)
Theorem monitor_clears_position_when_triggered {T : Type} (now : nat -> Z)
    (cfg : RiskManager.config) (strat : Backtester.strategy T)
    (st : Backtester.backtester) (ss : T) (s : string) (currentPrice : Q) :
  let r := Backtester.monitorAndExitPositions now cfg strat st ss s currentPrice in
  match Backtester.currentPositions st !! s with
  | None => r = (st, ss)
  | Some position =>
      match Backtester.action position currentPrice with
      | None => r = (st, ss)
      | Some _ =>
          Backtester.currentPositions (fst r) = delete s (Backtester.currentPositions st)
          /\ snd r = Backtester.clearPosition strat ss
      end
  end.
Proof.
  cbv zeta. unfold Backtester.monitorAndExitPositions.
  destruct (Backtester.currentPositions st !! s) as [position|]; [|reflexivity].
  destruct (Backtester.action position currentPrice); [|reflexivity].
  match goal with
  | |- context [Backtester.executeTrade now cfg st s ?sd ?a Market ?p] =>
      pose proof (executeTrade_currentPositions now cfg st s sd a Market p) as H;
      destruct (Backtester.executeTrade now cfg st s sd a Market p) as [r st1]
  end.
  simpl in *. rewrite H. split; reflexivity.
Qed.

Lemma or_else_positive (x : option Q) (d : Q) :
  (0 < d)%Q -> not_negative x -> (0 < Js.or_else x d)%Q.
Proof.
  intros Hd Hx. unfold Js.or_else. destruct x as [p|]; [|exact Hd].
  destruct (Js.truthy p) eqn:E; [|exact Hd].
  apply truthy_iff in E. specialize (Hx p eq_refl).
  apply Qle_lt_or_eq in Hx as [Hx|Hx]; [exact Hx|]. symmetry in Hx. contradiction.
Qed.

(** X14: a position opened by managePosition at a positive entry price, with
    positive default percentages and overrides that are omitted or not
    negative, has its stop and its target on opposite sides of the entry
    price.  The exit check therefore answers stop_loss exactly for the prices
    at or beyond the stop, take_profit exactly for the prices at or beyond
    the target, and nothing at the entry price: the two conditions never hold
    together. *)
Theorem managePosition_separates_stop_and_target (dflt : Backtester.position_defaults)
    (st : Backtester.backtester) (s : string) (side : PositionSide)
    (entryPrice amount : Q) (rc : Backtester.strategy_risk) :
  (0 < entryPrice)%Q ->
  (0 < Backtester.defaultStopLossPercent dflt)%Q ->
  (0 < Backtester.defaultTakeProfitPercent dflt)%Q ->
  not_negative (Backtester.stopLossPercent rc) ->
  not_negative (Backtester.takeProfitPercent rc) ->
  exists position,
    Backtester.currentPositions
      (Backtester.managePosition dflt st s side entryPrice amount rc) !! s = Some position
    /\ Backtester.pamount position = amount
    /\ Backtester.action position entryPrice = None
    /\ forall currentPrice,
         (Backtester.action position currentPrice = Some Backtester.stop_loss
          <-> match side with
              | Long => (currentPrice <= Backtester.stopLossPrice position)%Q
              | Short => (Backtester.stopLossPrice position <= currentPrice)%Q
              end)
         /\ (Backtester.action position currentPrice = Some Backtester.take_profit
             <-> match side with
                 | Long => (Backtester.takeProfitPrice position <= currentPrice)%Q
                 | Short => (currentPrice <= Backtester.takeProfitPrice position)%Q
                 end).
Proof.
  intros He Hds Hdt Hs Ht.
  pose proof (or_else_positive _ _ Hds Hs) as Hsl.
  pose proof (or_else_positive _ _ Hdt Ht) as Htp.
  unfold Backtester.managePosition.
  set (sl := Js.or_else (Backtester.stopLossPercent rc) _) in *.
  set (tp := Js.or_else (Backtester.takeProfitPercent rc) _) in *.
  destruct side; simpl; rewrite lookup_insert_eq; eexists; (split; [reflexivity|]);
    (split; [reflexivity|]); unfold Backtester.action; simpl.
  - assert (H1 : Qle_bool entryPrice (entryPrice * (1 - sl)) = false)
      by (apply Qle_bool_false; nra).
    assert (H2 : Qle_bool (entryPrice * (1 + tp)) entryPrice = false)
      by (apply Qle_bool_false; nra).
    rewrite H1, H2. split; [reflexivity|]. intros currentPrice.
    destruct (Qle_bool currentPrice (entryPrice * (1 - sl))) eqn:E1.
    + apply Qle_bool_iff in E1. split; [tauto|].
      split; [discriminate|]. intros H. exfalso. nra.
    + apply Qle_bool_false in E1.
      destruct (Qle_bool (entryPrice * (1 + tp)) currentPrice) eqn:E2.
      * apply Qle_bool_iff in E2. split; [|tauto].
        split; [discriminate|]. intros H. exfalso. nra.
      * apply Qle_bool_false in E2. split; (split; [discriminate|]);
          intros H; exfalso; nra.
  - assert (H1 : Qle_bool (entryPrice * (1 + sl)) entryPrice = false)
      by (apply Qle_bool_false; nra).
    assert (H2 : Qle_bool entryPrice (entryPrice * (1 - tp)) = false)
      by (apply Qle_bool_false; nra).
    rewrite H1, H2. split; [reflexivity|]. intros currentPrice.
    destruct (Qle_bool (entryPrice * (1 + sl)) currentPrice) eqn:E1.
    + apply Qle_bool_iff in E1. split; [tauto|].
      split; [discriminate|]. intros H. exfalso. nra.
    + apply Qle_bool_false in E1.
      destruct (Qle_bool currentPrice (entryPrice * (1 - tp))) eqn:E2.
      * apply Qle_bool_iff in E2. split; [|tauto].
        split; [discriminate|]. intros H. exfalso. nra.
      * apply Qle_bool_false in E2. split; (split; [discriminate|]);
          intros H; exfalso; nra.
Qed.

Lemma managePosition_separates_stop_and_target_witness :
  exists position,
    Backtester.currentPositions
      (Backtester.managePosition test_defaults (Backtester.initial []) "BTC/USD" Long
         100 1 no_overrides) !! "BTC/USD" = Some position
    /\ Backtester.action position 100 = None.
Proof.
  destruct (managePosition_separates_stop_and_target test_defaults (Backtester.initial [])
              "BTC/USD" Long 100%Q 1%Q no_overrides)
    as (position & Hp & _ & Ha & _).
  - reflexivity.
  - reflexivity.
  - reflexivity.
  - intros p H. discriminate H.
  - intros p H. discriminate H.
  - exists position. split; [exact Hp|exact Ha].
Defined.

(** ** The paper ledger *)

Section PaperFacts.
Import PaperTrader.
Local Open Scope Q_scope.

Lemma read_insert_eq (b : gmap string (option Q)) (asset : string) (v : option Q) :
  read (<[asset := v]> b) asset = v.
Proof. unfold read. rewrite lookup_insert_eq. reflexivity. Qed.

Lemma read_insert_ne (b : gmap string (option Q)) (asset a : string) (v : option Q) :
  asset <> a -> read (<[asset := v]> b) a = read b a.
Proof. intros H. unfold read. rewrite lookup_insert_ne by exact H. reflexivity. Qed.

(** What a filled call leaves in the two balances of distinct assets. *)
Lemma apply_buy_balances base quote amount cost b b2 qb qq :
  base <> quote -> read b base = Some qb -> read b quote = Some qq ->
  apply_buy base quote amount cost b = Some b2 ->
  cost <= qq
  /\ read b2 quote = Some (qq - cost) /\ read b2 base = Some (qb + amount)
  /\ forall a, a <> base -> a <> quote -> b2 !! a = b !! a.
Proof.
  intros Hne Hb Hq. unfold apply_buy. rewrite Hq. simpl.
  destruct (Js.Qlt_bool qq cost) eqn:Hc; [discriminate|].
  apply Qlt_bool_false_iff in Hc.
  rewrite read_insert_ne by congruence. rewrite Hb. simpl. intros [= <-].
  split; [exact Hc|]. split; [|split].
  - rewrite read_insert_ne by exact Hne. apply read_insert_eq.
  - apply read_insert_eq.
  - intros a Ha1 Ha2. rewrite !lookup_insert_ne by congruence. reflexivity.
Qed.

Lemma apply_sell_balances base quote amount cost b b2 qb qq :
  base <> quote -> read b base = Some qb -> read b quote = Some qq ->
  apply_sell base quote amount cost b = Some b2 ->
  amount <= qb
  /\ read b2 quote = Some (qq + cost) /\ read b2 base = Some (qb - amount)
  /\ forall a, a <> base -> a <> quote -> b2 !! a = b !! a.
Proof.
  intros Hne Hb Hq. unfold apply_sell. rewrite Hb, Hq. simpl.
  destruct (Js.Qlt_bool qb amount) eqn:Hc; [discriminate|].
  apply Qlt_bool_false_iff in Hc.
  rewrite read_insert_ne by congruence. rewrite Hb. simpl. intros [= <-].
  split; [exact Hc|]. split; [|split].
  - rewrite read_insert_ne by exact Hne. apply read_insert_eq.
  - apply read_insert_eq.
  - intros a Ha1 Ha2. rewrite !lookup_insert_ne by congruence. reflexivity.
Qed.

Lemma apply_buy_fills base quote amount cost b qq :
  read b quote = Some qq -> cost <= qq ->
  exists b2, apply_buy base quote amount cost b = Some b2.
Proof.
  intros Hq Hc. unfold apply_buy. rewrite Hq. simpl.
  apply Qlt_bool_false_iff in Hc. rewrite Hc. eexists. reflexivity.
Qed.

Lemma apply_sell_fills base quote amount cost b qb :
  read b base = Some qb -> amount <= qb ->
  exists b2, apply_sell base quote amount cost b = Some b2.
Proof.
  intros Hb Hc. unfold apply_sell. rewrite Hb. simpl.
  apply Qlt_bool_false_iff in Hc. rewrite Hc. eexists. reflexivity.
Qed.

End PaperFacts.

(** X15: a paper trade of one of the two documented order types, market
    (filled at the last price the connector reports) or limit, is all or
    nothing.  The call throws exactly when it is a limit order without a
    usable price; a call that throws or returns null leaves the balances and
    the list of trades exactly as they were; a call that returns an order has
    appended that order, and only it, to the list of trades, with the
    requested amount and type and a fee of 0.001 times amount times price. *)
Theorem paper_market_or_limit_trade_all_or_nothing (timestamp : Z) (last : Q)
    (st : PaperTrader.paper) (baseAsset quoteAsset : string) (side : Side)
    (amount : Q) (type : OrderType) (price : option Q) :
  let r := PaperTrader.executeTrade timestamp last st baseAsset quoteAsset side amount
             type price in
  (fst r = PaperTrader.Threw
   <-> type = Limit /\ Backtester.resolve_price price = None)
  /\ match fst r with
     | PaperTrader.Returned (Some o) =>
         PaperTrader.trades (snd r) = PaperTrader.trades st ++ [o]
         /\ PaperTrader.amount o = amount
         /\ PaperTrader.type o = type
         /\ PaperTrader.fee o
            = (PaperTrader.amount o * PaperTrader.price o * 0.001)%Q
     | _ => snd r = st
     end.
Proof.
  cbv zeta. unfold PaperTrader.executeTrade.
  destruct (match type with
            | Market => Some last
            | Limit => Backtester.resolve_price price
            end) as [p|] eqn:Ep.
  - destruct (match side with
              | Buy => PaperTrader.apply_buy baseAsset quoteAsset amount (amount * p)
                         (PaperTrader.currentBalances st)
              | _ => PaperTrader.apply_sell baseAsset quoteAsset amount (amount * p)
                       (PaperTrader.currentBalances st)
              end) as [b2|]; simpl.
    + split; [|repeat split].
      split; [discriminate|]. intros [-> Hnone]. congruence.
    + split; [|reflexivity].
      split; [discriminate|]. intros [-> Hnone]. congruence.
  - simpl. split; [|reflexivity].
    split; [intros _|reflexivity].
    destruct type; [discriminate Ep|]. split; [reflexivity|exact Ep].
Qed.

(** X16: a filled paper trade changes exactly two balances, by the amount
    and by the cost: for distinct assets with numeric balances, a buy is
    filled only when the quote balance covers amount times price and leaves
    the quote balance less that cost and the base balance plus the amount; a
    sell (every other side) is filled only when the base balance covers the
    amount and leaves the quote balance plus the cost and the base balance
    less the amount.  The fee written on the order is not deducted and no
    other asset changes. *)
Theorem paper_trade_moves_amount_and_cost (timestamp : Z) (last : Q)
    (st : PaperTrader.paper) (baseAsset quoteAsset : string) (side : Side)
    (amount : Q) (type : OrderType) (price : option Q)
    (qb qq : Q) (o : PaperTrader.order) :
  baseAsset <> quoteAsset ->
  PaperTrader.read (PaperTrader.currentBalances st) baseAsset = Some qb ->
  PaperTrader.read (PaperTrader.currentBalances st) quoteAsset = Some qq ->
  fst (PaperTrader.executeTrade timestamp last st baseAsset quoteAsset side amount
         type price) = PaperTrader.Returned (Some o) ->
  let st' := snd (PaperTrader.executeTrade timestamp last st baseAsset quoteAsset side
                    amount type price) in
  let cost := (amount * PaperTrader.price o)%Q in
  match side with
  | Buy =>
      (cost <= qq)%Q
      /\ PaperTrader.read (PaperTrader.currentBalances st') quoteAsset
         = Some (qq - cost)%Q
      /\ PaperTrader.read (PaperTrader.currentBalances st') baseAsset
         = Some (qb + amount)%Q
  | _ =>
      (amount <= qb)%Q
      /\ PaperTrader.read (PaperTrader.currentBalances st') quoteAsset
         = Some (qq + cost)%Q
      /\ PaperTrader.read (PaperTrader.currentBalances st') baseAsset
         = Some (qb - amount)%Q
  end
  /\ forall a, a <> baseAsset -> a <> quoteAsset ->
       PaperTrader.currentBalances st' !! a = PaperTrader.currentBalances st !! a.
Proof.
  intros Hne Hb Hq. cbv zeta. unfold PaperTrader.executeTrade.
  destruct (match type with
            | Market => Some last
            | Limit => Backtester.resolve_price price
            end) as [p|]; [|discriminate].
  destruct side.
  - destruct (PaperTrader.apply_buy _ _ _ _ _) as [b2|] eqn:E; [|discriminate].
    simpl. intros [= <-]. simpl.
    destruct (apply_buy_balances _ _ _ _ _ _ _ _ Hne Hb Hq E) as (H0 & H1 & H2 & H3).
    split; [|exact H3]. split; [exact H0|]. split; [exact H1|exact H2].
  - destruct (PaperTrader.apply_sell _ _ _ _ _) as [b2|] eqn:E; [|discriminate].
    simpl. intros [= <-]. simpl.
    destruct (apply_sell_balances _ _ _ _ _ _ _ _ Hne Hb Hq E) as (H0 & H1 & H2 & H3).
    split; [|exact H3]. split; [exact H0|]. split; [exact H1|exact H2].
  - destruct (PaperTrader.apply_sell _ _ _ _ _) as [b2|] eqn:E; [|discriminate].
    simpl. intros [= <-]. simpl.
    destruct (apply_sell_balances _ _ _ _ _ _ _ _ Hne Hb Hq E) as (H0 & H1 & H2 & H3).
    split; [|exact H3]. split; [exact H0|]. split; [exact H1|exact H2].
Qed.

Lemma paper_trade_moves_amount_and_cost_witness :
  PaperTrader.read
    (PaperTrader.currentBalances
       (snd (PaperTrader.executeTrade 1 100 PaperTrader.initializePaperTrader
               "BTC" "USD" Buy 2 Market None))) "USD"
  = Some (10000 - 2 * PaperTrader.price paper_buy_order)%Q
  /\ PaperTrader.read
       (PaperTrader.currentBalances
          (snd (PaperTrader.executeTrade 1 100 PaperTrader.initializePaperTrader
                  "BTC" "USD" Buy 2 Market None))) "BTC"
     = Some (0 + 2)%Q.
Proof.
  destruct (paper_trade_moves_amount_and_cost 1 100 PaperTrader.initializePaperTrader
              "BTC" "USD" Buy 2 Market None 0 10000 paper_buy_order)
    as ((_ & H1 & H2) & _).
  - discriminate.
  - reflexivity.
  - reflexivity.
  - reflexivity.
  - split; [exact H1|exact H2].
Defined.

(** X17: what was bought on paper can always be sold back: for distinct
    assets, a non-negative base balance qb and a quote balance qq that covers
    the buy, a limit buy followed by a limit sell of the same amount at the
    same price are both filled; the base balance is then (qb + amount) -
    amount, the quote balance (qq - cost) + cost with cost = amount times
    price, and no other asset has changed. *)
Theorem paper_buy_then_sell_back_fills (t1 t2 : Z) (last1 last2 : Q)
    (st : PaperTrader.paper) (baseAsset quoteAsset : string)
    (amount price qb qq : Q) :
  baseAsset <> quoteAsset ->
  ~ (price == 0)%Q ->
  PaperTrader.read (PaperTrader.currentBalances st) baseAsset = Some qb ->
  PaperTrader.read (PaperTrader.currentBalances st) quoteAsset = Some qq ->
  (0 <= qb)%Q ->
  (amount * price <= qq)%Q ->
  let bought := PaperTrader.executeTrade t1 last1 st baseAsset quoteAsset Buy amount
                  Limit (Some price) in
  let sold := PaperTrader.executeTrade t2 last2 (snd bought) baseAsset quoteAsset Sell
                amount Limit (Some price) in
  (exists o1 o2,
      fst bought = PaperTrader.Returned (Some o1)
      /\ fst sold = PaperTrader.Returned (Some o2))
  /\ PaperTrader.read (PaperTrader.currentBalances (snd sold)) baseAsset
     = Some (qb + amount - amount)%Q
  /\ PaperTrader.read (PaperTrader.currentBalances (snd sold)) quoteAsset
     = Some (qq - amount * price + amount * price)%Q
  /\ forall a, a <> baseAsset -> a <> quoteAsset ->
       PaperTrader.currentBalances (snd sold) !! a = PaperTrader.currentBalances st !! a.
Proof.
  intros Hne Hp Hb Hq Hqb Hcost. cbv zeta.
  unfold PaperTrader.executeTrade. simpl.
  apply truthy_iff in Hp. rewrite Hp.
  destruct (apply_buy_fills baseAsset quoteAsset amount (amount * price)
              (PaperTrader.currentBalances st) qq Hq Hcost) as (b1 & E1).
  rewrite E1. simpl.
  destruct (apply_buy_balances _ _ _ _ _ _ _ _ Hne Hb Hq E1) as (_ & Hq1 & Hb1 & Ho1).
  assert (Hsell : (amount <= qb + amount)%Q) by lra.
  destruct (apply_sell_fills baseAsset quoteAsset amount (amount * price) b1
              (qb + amount)%Q Hb1 Hsell) as (b2 & E2).
  rewrite E2. simpl.
  destruct (apply_sell_balances _ _ _ _ _ _ _ _ Hne Hb1 Hq1 E2) as (_ & Hq2 & Hb2 & Ho2).
  split; [eexists; eexists; split; reflexivity|].
  split; [exact Hb2|]. split; [exact Hq2|].
  intros a Ha1 Ha2. rewrite (Ho2 a Ha1 Ha2). apply Ho1; assumption.
Qed.

Lemma paper_buy_then_sell_back_fills_witness :
  (exists o1 o2,
      fst (PaperTrader.executeTrade 1 0 PaperTrader.initializePaperTrader
             "BTC" "USD" Buy 2 Limit (Some 100%Q)) = PaperTrader.Returned (Some o1)
      /\ fst (PaperTrader.executeTrade 2 0
                (snd (PaperTrader.executeTrade 1 0 PaperTrader.initializePaperTrader
                        "BTC" "USD" Buy 2 Limit (Some 100%Q)))
                "BTC" "USD" Sell 2 Limit (Some 100%Q)) = PaperTrader.Returned (Some o2))
  /\ PaperTrader.read
       (PaperTrader.currentBalances
          (snd (PaperTrader.executeTrade 2 0
                  (snd (PaperTrader.executeTrade 1 0 PaperTrader.initializePaperTrader
                          "BTC" "USD" Buy 2 Limit (Some 100%Q)))
                  "BTC" "USD" Sell 2 Limit (Some 100%Q)))) "BTC"
     = Some (0 + 2 - 2)%Q.
Proof.
  destruct (paper_buy_then_sell_back_fills 1 2 0 0 PaperTrader.initializePaperTrader
              "BTC" "USD" 2 100 0 10000) as (Hfill & Hbase & _).
  - discriminate.
  - vm_compute. discriminate.
  - reflexivity.
  - reflexivity.
  - vm_compute. discriminate.
  - vm_compute. discriminate.
  - split; [exact Hfill|exact Hbase].
Defined.

(** X18: the paper trader does not turn down a trade of an asset its ledger
    does not hold.  When the base asset has no balance entry and the quote
    asset has the numeric balance qq, a sell of any amount is filled, credits
    the quote balance with amount times the execution price and leaves NaN as
    the balance of the base asset; a buy the quote balance covers is filled
    and leaves NaN as the base balance as well. *)
Theorem paper_trade_of_unheld_asset_is_filled (timestamp : Z) (last : Q)
    (st : PaperTrader.paper) (baseAsset quoteAsset : string) (amount price qq : Q) :
  baseAsset <> quoteAsset ->
  ~ (price == 0)%Q ->
  PaperTrader.currentBalances st !! baseAsset = None ->
  PaperTrader.currentBalances st !! quoteAsset = Some (Some qq) ->
  let sold := PaperTrader.executeTrade timestamp last st baseAsset quoteAsset Sell amount
                Limit (Some price) in
  let bought := PaperTrader.executeTrade timestamp last st baseAsset quoteAsset Buy amount
                  Limit (Some price) in
  ((exists o, fst sold = PaperTrader.Returned (Some o))
   /\ PaperTrader.currentBalances (snd sold) !! quoteAsset
      = Some (Some (qq + amount * price)%Q)
   /\ PaperTrader.currentBalances (snd sold) !! baseAsset = Some None)
  /\ ((amount * price <= qq)%Q ->
      (exists o, fst bought = PaperTrader.Returned (Some o))
      /\ PaperTrader.currentBalances (snd bought) !! quoteAsset
         = Some (Some (qq - amount * price)%Q)
      /\ PaperTrader.currentBalances (snd bought) !! baseAsset = Some None).
Proof.
  intros Hne Hp Hb Hq. cbv zeta.
  unfold PaperTrader.executeTrade. simpl.
  apply truthy_iff in Hp. rewrite Hp.
  assert (Hrb : PaperTrader.read (PaperTrader.currentBalances st) baseAsset = None)
    by (unfold PaperTrader.read; rewrite Hb; reflexivity).
  assert (Hrq : PaperTrader.read (PaperTrader.currentBalances st) quoteAsset = Some qq)
    by (unfold PaperTrader.read; rewrite Hq; reflexivity).
  split.
  - unfold PaperTrader.apply_sell. rewrite Hrb, Hrq. simpl.
    rewrite read_insert_ne by congruence. rewrite Hrb. simpl.
    split; [eexists; reflexivity|]. split.
    + rewrite lookup_insert_ne by exact Hne. apply lookup_insert_eq.
    + apply lookup_insert_eq.
  - intros Hcost. unfold PaperTrader.apply_buy. rewrite Hrq. simpl.
    assert (Hc : Js.Qlt_bool qq (amount * price) = false)
      by (apply Qlt_bool_false_iff; exact Hcost).
    rewrite Hc. rewrite read_insert_ne by congruence. rewrite Hrb. simpl.
    split; [eexists; reflexivity|]. split.
    + rewrite lookup_insert_ne by exact Hne. apply lookup_insert_eq.
    + apply lookup_insert_eq.
Qed.

Lemma paper_trade_of_unheld_asset_is_filled_witness :
  (exists o,
      fst (PaperTrader.executeTrade 1 0 PaperTrader.initializePaperTrader "SOL" "USD"
             Sell 5 Limit (Some 20%Q)) = PaperTrader.Returned (Some o))
  /\ PaperTrader.currentBalances
       (snd (PaperTrader.executeTrade 1 0 PaperTrader.initializePaperTrader "SOL" "USD"
               Sell 5 Limit (Some 20%Q))) !! "USD" = Some (Some (10000 + 5 * 20)%Q)
  /\ PaperTrader.currentBalances
       (snd (PaperTrader.executeTrade 1 0 PaperTrader.initializePaperTrader "SOL" "USD"
               Sell 5 Limit (Some 20%Q))) !! "SOL" = Some None.
Proof.
  apply (proj1 (paper_trade_of_unheld_asset_is_filled 1 0 PaperTrader.initializePaperTrader
                  "SOL" "USD" 5 20 10000 ltac:(discriminate)
                  ltac:(vm_compute; discriminate) eq_refl eq_refl)).
Defined.

Section UnrealizedPnl.
Import PaperPnl.
Local Open Scope Q_scope.

Lemma initial_value_zero (asset : string) (price : Q) :
  asset <> "USD" -> initial_value asset price = 0.
Proof.
  intros Hne. unfold initial_value, PaperTrader.read, PaperTrader.initialBalance.
  rewrite lookup_insert_ne by congruence.
  destruct (decide ("BTC" = asset)) as [<-|Hbtc].
  - rewrite lookup_insert_eq. reflexivity.
  - rewrite lookup_insert_ne by exact Hbtc.
    destruct (decide ("ETH" = asset)) as [<-|Heth].
    + rewrite lookup_insert_eq. reflexivity.
    + rewrite lookup_insert_ne by exact Heth. rewrite lookup_empty. reflexivity.
Qed.

Lemma contribution_nonneg (latestPrices : gmap string Q) (asset : string)
    (balance : option Q) :
  (forall symbol p, latestPrices !! symbol = Some p -> 0 <= p) ->
  0 <= contribution latestPrices asset balance.
Proof.
  intros Hprices. unfold contribution.
  destruct (String.eqb asset "USD") eqn:E; [apply Qle_refl|].
  apply String.eqb_neq in E.
  destruct (latestPrices !! _) as [price|] eqn:Ep; [|apply Qle_refl].
  destruct balance as [held|]; [|apply Qle_refl].
  destruct (Js.truthy price && Js.Qlt_bool 0 held) eqn:Ec; [|apply Qle_refl].
  apply andb_true_iff in Ec as [_ Hheld]. apply Qlt_bool_iff in Hheld.
  rewrite (initial_value_zero asset price E).
  specialize (Hprices _ _ Ep). nra.
Qed.

End UnrealizedPnl.

(** X19: calculateUnrealizedPNL cannot report a loss: for latest prices
    that are not negative its result is never below 0, whatever the balances
    are and whatever was paid for them, because it adds up the market value
    of the positive non-USD balances and subtracts only the value of the
    initial holdings, which are 0. *)
Theorem calculateUnrealizedPNL_never_negative (st : PaperTrader.paper)
    (latestPrices : gmap string Q) :
  (forall symbol p, latestPrices !! symbol = Some p -> (0 <= p)%Q) ->
  (0 <= PaperPnl.calculateUnrealizedPNL st latestPrices)%Q.
Proof.
  intros Hprices. unfold PaperPnl.calculateUnrealizedPNL.
  apply (map_fold_weak_ind (fun (pnl : Q) (_ : gmap string (option Q)) => (0 <= pnl)%Q)).
  - apply Qle_refl.
  - intros asset balance m pnl _ Hpnl.
    pose proof (contribution_nonneg latestPrices asset balance Hprices). lra.
Qed.

Lemma calculateUnrealizedPNL_never_negative_witness :
  (0 <= PaperPnl.calculateUnrealizedPNL
          (snd (PaperTrader.executeTrade 1 100 PaperTrader.initializePaperTrader
                  "BTC" "USD" Buy 2 Market None)) btc_at_50)%Q.
Proof.
  apply calculateUnrealizedPNL_never_negative.
  intros symbol p H. unfold btc_at_50 in H.
  apply lookup_insert_Some in H as [[_ <-]|[_ H]].
  - vm_compute. discriminate.
  - rewrite lookup_empty in H. discriminate H.
Defined.

(** ** Total return, maximum drawdown and profit factor *)



Section MaxDrawdown.
Import Metrics.
Local Open Scope Q_scope.

Lemma drawdown_positive_peak (peak b : Q) :
  0 < peak -> drawdown peak b = Fin ((peak - b) / peak).
Proof.
  intros Hp. unfold drawdown.
  destruct (Qeq_bool peak 0) eqn:E; [|reflexivity].
  apply Qeq_bool_iff in E. rewrite E in Hp. exfalso. exact (Qlt_irrefl 0 Hp).
Qed.

Lemma drawdown_invariant_first (b : Q) :
  0 < b -> drawdown_invariant [b] b (Qmax 0 ((b - b) / b)).
Proof.
  intros Hb.
  assert (Hz : (b - b) / b == 0) by (field; intros E; rewrite E in Hb; exact (Qlt_irrefl 0 Hb)).
  assert (Hd : Qmax 0 ((b - b) / b) == 0).
  { rewrite Hz. apply Q.max_l. apply Qle_refl. }
  split; [exact Hb|]. split; [rewrite Hd; apply Qle_refl|].
  split; [rewrite Hd; reflexivity|].
  split; [constructor; [split; [exact Hb|apply Qle_refl]|constructor]|].
  split; [exists 0%nat, b; split; [reflexivity|reflexivity]|].
  split; [|left; exact Hd].
  intros i j bi bj _ Hi Hj.
  destruct i; [|destruct i; discriminate Hi]. destruct j; [|destruct j; discriminate Hj].
  simpl in Hi, Hj. injection Hi as <-. injection Hj as <-. rewrite Hd. lra.
Qed.

Lemma drawdown_invariant_step (seen : list Q) (peak worst b : Q) :
  drawdown_invariant seen peak worst ->
  0 < b ->
  drawdown_invariant (seen ++ [b]) (Qmax peak b)
    (Qmax worst ((Qmax peak b - b) / Qmax peak b)).
Proof.
  intros (Hpeak & Hw0 & Hw1 & Hall & (k & bk & Hk & Hbk) & Hbound & Hattain) Hb.
  set (peak' := Qmax peak b).
  set (x := (peak' - b) / peak').
  assert (Hp1 : peak <= peak') by apply Q.le_max_l.
  assert (Hp2 : b <= peak') by apply Q.le_max_r.
  assert (Hp0 : 0 < peak') by lra.
  assert (Hx : x * peak' == peak' - b).
  { unfold x. field. intros E. rewrite E in Hp0. exact (Qlt_irrefl 0 Hp0). }
  assert (Hx0 : 0 <= x).
  { unfold x. apply Qle_shift_div_l; [exact Hp0|]. lra. }
  assert (Hx1 : x < 1).
  { unfold x. apply Qlt_shift_div_r; [exact Hp0|]. lra. }
  set (worst' := Qmax worst x).
  assert (Hw'1 : worst <= worst') by apply Q.le_max_l.
  assert (Hw'2 : x <= worst') by apply Q.le_max_r.
  assert (Hw'3 : worst' < 1).
  { unfold worst'. apply Q.max_lub_lt; assumption. }
  assert (Hpk : exists (k' : nat) b', (seen ++ [b]) !! k' = Some b' /\ b' == peak'
                                      /\ (k' <= length seen)%nat).
  { destruct (Q.max_spec peak b) as [[Hlt Heq]|[Hle Heq]].
    - exists (length seen), b. split; [|split; [symmetry; exact Heq|lia]].
      rewrite lookup_app_r by lia. rewrite Nat.sub_diag. reflexivity.
    - exists k, bk. pose proof (lookup_lt_Some _ _ _ Hk) as Hlt.
      split; [|split; [|lia]].
      + rewrite lookup_app_l by exact Hlt. exact Hk.
      + rewrite Hbk. symmetry. exact Heq. }
  assert (Hlast : forall i bi, (seen ++ [b]) !! i = Some bi -> bi * (1 - worst') <= b).
  { intros i bi Hi.
    assert (Hbi : 0 < bi /\ bi <= peak').
    { apply lookup_app_Some in Hi as [Hi|[_ Hi]].
      - pose proof (proj1 (Forall_lookup _ _) Hall i bi Hi) as [H1 H2]. split; lra.
      - destruct (i - length seen)%nat; [|discriminate Hi].
        injection Hi as <-. split; assumption. }
    destruct Hbi as [Hbi0 Hbi1].
    assert (Hb' : b == peak' * (1 - x)) by lra.
    rewrite Hb'. nra. }
  split; [exact Hp0|]. split; [lra|]. split; [exact Hw'3|].
  split.
  { apply Forall_app. split.
    - eapply Forall_impl; [exact Hall|]. intros y [Hy0 Hy1]. split; lra.
    - constructor; [split; assumption|constructor]. }
  split.
  { destruct Hpk as (k' & b' & Hk' & Hb' & _). exists k', b'. split; assumption. }
  split.
  { intros i j bi bj Hij Hi Hj.
    apply lookup_app_Some in Hj as [Hj|[Hge Hj]].
    - pose proof (lookup_lt_Some _ _ _ Hj) as Hjlt.
      rewrite lookup_app_l in Hi by lia.
      pose proof (Hbound i j bi bj Hij Hi Hj) as Hold.
      pose proof (proj1 (Forall_lookup _ _) Hall i bi Hi) as [Hbi0 _].
      nra.
    - destruct (j - length seen)%nat; [|discriminate Hj]. injection Hj as <-.
      exact (Hlast i bi Hi). }
  destruct (Q.max_spec worst x) as [[Hlt Heq]|[Hle Heq]]; fold worst' in Heq.
  - right. destruct Hpk as (k' & b' & Hk' & Hb' & Hkle).
    exists k', (length seen), b', b. split; [exact Hkle|]. split; [exact Hk'|].
    split; [rewrite lookup_app_r by lia; rewrite Nat.sub_diag; reflexivity|].
    rewrite Heq, Hb'. lra.
  - destruct Hattain as [Hz|(i & j & bi & bj & Hij & Hi & Hj & Heq')].
    + left. rewrite Heq. exact Hz.
    + right. exists i, j, bi, bj. split; [exact Hij|].
      pose proof (lookup_lt_Some _ _ _ Hi). pose proof (lookup_lt_Some _ _ _ Hj).
      split; [rewrite lookup_app_l by lia; exact Hi|].
      split; [rewrite lookup_app_l by lia; exact Hj|].
      rewrite Heq. exact Heq'.
Qed.

Lemma drawdown_fold (todo : list Q) :
  forall seen peak worst,
    drawdown_invariant seen peak worst ->
    Forall (fun b => 0 < b) todo ->
    exists peak' worst',
      fold_left drawdown_step todo (Some peak, Fin worst) = (Some peak', Fin worst')
      /\ drawdown_invariant (seen ++ todo) peak' worst'.
Proof.
  induction todo as [|b todo IH]; intros seen peak worst Hinv Hpos; simpl.
  - exists peak, worst. rewrite app_nil_r. split; [reflexivity|exact Hinv].
  - inversion Hpos as [|? ? Hb Hrest]; subst.
    assert (Hp0 : 0 < Qmax peak b).
    { destruct Hinv as (Hpeak & _). pose proof (Q.le_max_l peak b). lra. }
    rewrite (drawdown_positive_peak _ b Hp0). simpl.
    destruct (IH (seen ++ [b]) _ _ (drawdown_invariant_step seen peak worst b Hinv Hb)
                Hrest) as (peak' & worst' & Hf & Hinv').
    exists peak', worst'. split; [exact Hf|].
    rewrite <- app_assoc in Hinv'. exact Hinv'.
Qed.

Lemma calculateMaxDrawdown_invariant (first : Q) (rest : list Q) :
  Forall (fun b => 0 < b) (first :: rest) ->
  exists peak worst,
    calculateMaxDrawdown (first :: rest) = Fin worst
    /\ drawdown_invariant (first :: rest) peak worst.
Proof.
  intros Hpos. inversion Hpos as [|? ? Hb Hrest]; subst.
  unfold calculateMaxDrawdown. simpl.
  rewrite (drawdown_positive_peak first first Hb). simpl.
  destruct (drawdown_fold rest [first] first _ (drawdown_invariant_first first Hb) Hrest)
    as (peak' & worst' & Hf & Hinv).
  exists peak', worst'. rewrite Hf. split; [reflexivity|exact Hinv].
Qed.

End MaxDrawdown.



(** X22: on an equity curve of positive balances calculateMaxDrawdown is 0
    exactly when the curve never falls, that is when no balance is below an
    earlier one. *)
Theorem calculateMaxDrawdown_zero_iff_never_falls (equityCurve : list Q) :
  Forall (fun b => (0 < b)%Q) equityCurve ->
  exists d,
    Metrics.calculateMaxDrawdown equityCurve = Metrics.Fin d
    /\ ((d == 0)%Q
        <-> forall (i j : nat) bi bj,
              (i <= j)%nat -> equityCurve !! i = Some bi -> equityCurve !! j = Some bj ->
              (bi <= bj)%Q).
Proof.
  intros Hpos. destruct equityCurve as [|first rest].
  - exists 0%Q. split; [reflexivity|]. split; [|reflexivity].
    intros _ i j bi bj _ Hi. rewrite lookup_nil in Hi. discriminate Hi.
  - destruct (calculateMaxDrawdown_invariant first rest Hpos)
      as (peak & d & Hd & _ & Hd0 & Hd1 & _ & _ & Hbound & Hattain).
    exists d. split; [exact Hd|]. split.
    + intros Hz i j bi bj Hij Hi Hj.
      pose proof (Hbound i j bi bj Hij Hi Hj) as H. rewrite Hz in H. lra.
    + intros Hmono. destruct Hattain as [Hz|(i & j & bi & bj & Hij & Hi & Hj & Heq)];
        [exact Hz|].
      pose proof (Hmono i j bi bj Hij Hi Hj) as Hle.
      pose proof (proj1 (Forall_lookup _ _) Hpos i bi Hi) as Hbi. simpl in Hbi.
      apply Qle_antisym; [|exact Hd0].
      assert (Hbd : (bi * d <= 0)%Q) by lra.
      apply Qnot_lt_le. intros Hdpos.
      assert ((0 < bi * d)%Q) by (apply Qmult_lt_0_compat; assumption). lra.
Qed.

Lemma calculateMaxDrawdown_zero_iff_never_falls_witness :
  exists d,
    Metrics.calculateMaxDrawdown [100; 100; 130]%Q = Metrics.Fin d
    /\ ((d == 0)%Q
        <-> forall (i j : nat) bi bj,
              (i <= j)%nat -> [100; 100; 130]%Q !! i = Some bi ->
              [100; 100; 130]%Q !! j = Some bj -> (bi <= bj)%Q).
Proof.
  apply (calculateMaxDrawdown_zero_iff_never_falls [100; 100; 130]%Q).
  repeat constructor.
Defined.

Section ProfitFactor.
Import Metrics.
Local Open Scope Q_scope.



End ProfitFactor.



(** ** The candle window of the RSI and EMA strategy *)

Lemma tl_drop_snoc {A : Type} (k : nat) (l : list A) (x : A) :
  (k <= length l)%nat -> tl (drop k l ++ [x]) = drop (S k) (l ++ [x]).
Proof.
  revert k. induction l as [|y l IH]; intros k Hk.
  - simpl in Hk. replace k with 0%nat by lia. reflexivity.
  - destruct k as [|k].
    + reflexivity.
    + simpl in Hk. simpl. destruct k as [|k].
      * simpl. destruct l; reflexivity.
      * apply (IH (S k)). lia.
Qed.

(** X24: the window that run keeps is always the newest candles, in order:
    after any number of calls it is the tail of the initial window followed
    by the candles received, of length the larger of the initial length and
    min(maxHistoricalDataSize, initial length + candles received).  So a
    window loaded longer than maxHistoricalDataSize never shrinks to it. *)
Theorem push_candle_keeps_newest (maxHistoricalDataSize : nat)
    (historicalData received : list Backtester.candle) :
  let total := (length historicalData + length received)%nat in
  let kept := Nat.max (length historicalData) (Nat.min maxHistoricalDataSize total) in
  fold_left (RsiEmaConfluence.push_candle maxHistoricalDataSize) received historicalData
  = drop (total - kept) (historicalData ++ received)
  /\ length (fold_left (RsiEmaConfluence.push_candle maxHistoricalDataSize)
               received historicalData) = kept.
Proof.
  cbv zeta.
  assert (Hmain :
    fold_left (RsiEmaConfluence.push_candle maxHistoricalDataSize) received historicalData
    = drop (length historicalData + length received
            - Nat.max (length historicalData)
                (Nat.min maxHistoricalDataSize (length historicalData + length received)))
        (historicalData ++ received)).
  { induction received as [|c received IH] using rev_ind.
    - simpl. rewrite app_nil_r.
      replace (_ - _)%nat with 0%nat by lia. reflexivity.
    - rewrite fold_left_app. simpl. rewrite IH. clear IH.
      unfold RsiEmaConfluence.push_candle.
      rewrite !length_app, length_drop, length_app. simpl length.
      set (n := (length historicalData + length received)%nat).
      rewrite app_assoc.
      destruct (Nat.ltb_spec maxHistoricalDataSize
                  (n - (n - Nat.max (length historicalData)
                              (Nat.min maxHistoricalDataSize n)) + 1)) as [Hlt|Hge].
      + rewrite tl_drop_snoc by (rewrite length_app; fold n; lia).
        f_equal. lia.
      + replace (n - _)%nat with 0%nat by lia.
        replace (length historicalData + (length received + 1) - _)%nat with 0%nat by lia.
        reflexivity. }
  split; [exact Hmain|].
  rewrite Hmain, length_drop, length_app. lia.
Qed.
